(** * Cheque manager: scoring rules, data access and role checks

    A shallow embedding of the cheque lifecycle application:
    - [database/db_manager.py]: the SQLite schema and the statements of
      [DatabaseManager] on cheques, banks, branches and settings;
    - [analytics/advanced_analytics.py]: the client risk score, the
      pairwise duplicate score and the reports of [AdvancedAnalytics];
    - [automation/smart_automation.py]: the bank status mapping, the
      feature-weighted risk score, the candidate-versus-pool duplicate
      score, the reminders' log and the status a bank reports, of
      [SmartAutomation];
    - [security/security_manager.py]: the role table, the sanitiser, the
      sessions, the lockout and the audit log of [SecurityManager];
    - [ui/components/settings.py] and [ui/components/cheque_list.py]: the
      statements issued by the settings screen and by the list of cheques;
    - [utils/config.py]: the configuration.

    Conventions.  A Python integer is a [Z]; what [sqlite3] binds of it
    must fit in 64 bits.  A Python float is read as the exact rational it
    holds ([Q]), NaN being kept apart where a dictionary may carry it;
    where the last bit of an operation shows, in a comparison with a
    threshold or under [round], the operation is the one of the machine
    ([binary64]).  A Python exception is a value [Raise e] of the type
    [result]; a [try ... except] is [try_except].  The clock, the
    libraries that parse dates and JSON, the cipher and the network are
    the environment: a function that reads them receives what they gave.
    A query whose rows a method only reads is given by its outcome, the
    rows or the exception [sqlite3] raised; a table the method writes is
    the list of its rows in rowid order. *)

From Stdlib Require Import ZArith QArith Qminmax Qabs Qround Lqa Lia.
From Stdlib Require Import String Ascii List Bool DecimalString.
From stdpp Require Import gmap strings.

Import ListNotations.

(* ================================================================== *)
(** * Python values, exceptions and dictionaries                       *)
(* ================================================================== *)

Module Py.

(** The SQLite constraint named by an [sqlite3.IntegrityError]. *)
Inductive constraint :=
| NotNullConstraint (column : string)
| CheckConstraint (column : string)
| UniqueConstraint (columns : list string).

Inductive exn :=
| KeyError (key : string)
| TypeError
| ValueError
| IntegrityError (c : constraint)
| OperationalError
| OverflowError
| AttributeError.

Inductive result (A : Type) :=
| Ok (a : A)
| Raise (e : exn).
Arguments Ok {A} a.
Arguments Raise {A} e.

Definition bind {A B} (m : result A) (k : A -> result B) : result B :=
  match m with
  | Ok a => k a
  | Raise e => Raise e
  end.

(** [try: body / except Exception: return handler]. *)
Definition try_except {A} (body : result A) (handler : A) : A :=
  match body with
  | Ok a => a
  | Raise _ => handler
  end.

(** One key of a dictionary whose values have type [A]: the key is
    missing, bound to [None], or bound to a value. *)
Inductive field (A : Type) :=
| Absent
| PyNone
| Val (a : A).
Arguments Absent {A}.
Arguments PyNone {A}.
Arguments Val {A} a.

(** [d[key]]: [KeyError] when the key is missing. *)
Definition getitem {A} (key : string) (f : field A) : result (option A) :=
  match f with
  | Absent => Raise (KeyError key)
  | PyNone => Ok None
  | Val a => Ok (Some a)
  end.

(** [d.get(key)]. *)
Definition get {A} (f : field A) : option A :=
  match f with
  | Val a => Some a
  | _ => None
  end.

(** [d.get(key, default)]: the default replaces a missing key only. *)
Definition get_default {A} (f : field A) (default : A) : option A :=
  match f with
  | Absent => Some default
  | PyNone => None
  | Val a => Some a
  end.

(** A Python float: a number, read as the exact rational it holds, or
    NaN.  (The two infinities are left out: SQLite stores them as it
    stores a number.) *)
Inductive pyfloat :=
| Number (x : Q)
| NaN.

(** [float(x)] of a float or [None]. *)
Definition float (x : option pyfloat) : result pyfloat :=
  match x with
  | Some a => Ok a
  | None => Raise TypeError
  end.

(** [x.method()] on a value that may be [None], which has no method. *)
Definition receiver {A} (x : option A) : result A :=
  match x with
  | Some a => Ok a
  | None => Raise AttributeError
  end.

(** [int(x)] of a float: the fraction is dropped. *)
Definition int_of_float (x : Q) : Z :=
  if Qle_bool 0 x then Qfloor x else Qceiling x.

(** [str(n)] of an integer, as an f-string formats it. *)
Definition str_of_int (n : Z) : string := NilZero.string_of_int (Z.to_int n).

(** What [sqlite3] binds for a Python integer: SQLite integers have 64
    bits, and a larger one raises [OverflowError] before the statement
    runs. *)
Definition fits_int64 (n : Z) : bool :=
  ((- 2 ^ 63 <=? n) && (n <? 2 ^ 63))%Z.

Definition bind_int (n : option Z) : result (option Z) :=
  match n with
  | Some z => if fits_int64 z then Ok (Some z) else Raise OverflowError
  | None => Ok None
  end.

(** What [sqlite3] binds for a Python float: NaN is bound as [NULL]. *)
Definition bind_float (a : option pyfloat) : option Q :=
  match a with
  | Some (Number x) => Some x
  | Some NaN => None
  | None => None
  end.

(** [a == b] on values that may be [None]. *)
Definition eq_opt {A} (eqb : A -> A -> bool) (a b : option A) : bool :=
  match a, b with
  | Some x, Some y => eqb x y
  | None, None => true
  | _, _ => false
  end.

(** Comparisons of numbers, as booleans. *)
Definition Qltb (x y : Q) : bool := negb (Qle_bool y x).
Definition Qgtb (x y : Q) : bool := Qltb y x.
Definition Qgeb (x y : Q) : bool := Qle_bool y x.

(** [abs(a - b) < bound] on floats: false as soon as one is NaN. *)
Definition within (a b : pyfloat) (bound : Q) : bool :=
  match a, b with
  | Number x, Number y => Qltb (Qabs (x - y)) bound
  | _, _ => false
  end.

(** [round(x, ndigits)] on exact rationals: to the nearest multiple of
    [10^-ndigits], a tie going to the even one. *)
Definition round_half_even (x : Q) : Z :=
  let f := Qfloor x in
  let r := (x - inject_Z f)%Q in
  match (r ?= 1 # 2)%Q with
  | Lt => f
  | Gt => (f + 1)%Z
  | Eq => if Z.even f then f else (f + 1)%Z
  end.

Definition round (x : Q) (ndigits : nat) : Q :=
  let scale := inject_Z (10 ^ Z.of_nat ndigits) in
  (inject_Z (round_half_even (x * scale)) / scale)%Q.

(** ** Arithmetic as the machine does it

    Where a result is compared with a threshold or rounded to decimals,
    the last bit of a float operation shows.  [binary64 x] is the float a
    float operation returns when its exact result is [x]: the nearest
    number with a significand of 53 bits and an exponent no lower than
    -1074, a tie going to the even significand.  (An exact result beyond
    the largest float is outside the amounts and rates met here.) *)

(** [2^k] for an exponent of either sign. *)
Definition pow2 (k : Z) : Q :=
  if (0 <=? k)%Z then inject_Z (2 ^ k) else (1 / inject_Z (2 ^ (- k)))%Q.

(** The exponent [e] with [2^e <= x < 2^(e+1)], for a positive [x]. *)
Definition binade (x : Q) : Z :=
  let e := (Z.log2 (Qnum x) - Z.log2 (Zpos (Qden x)))%Z in
  if Qle_bool (pow2 e) x then e else (e - 1)%Z.

Definition binary64 (x : Q) : Q :=
  if Qeq_bool x 0 then 0%Q
  else
    let a := Qabs x in
    let q := Z.max (binade a - 52) (-1074) in
    let m := round_half_even (a / pow2 q) in
    let y := (inject_Z m * pow2 q)%Q in
    if Qle_bool 0 x then y else (- y)%Q.

(** [x + y], [x - y], [x * y] and [x / y] on two floats. *)
Definition fadd (x y : Q) : Q := binary64 (x + y).
Definition fsub (x y : Q) : Q := binary64 (x - y).
Definition fmul (x y : Q) : Q := binary64 (x * y).
Definition fdiv (x y : Q) : Q := binary64 (x / y).

(** [abs(a - b) < bound] as the machine evaluates it: the difference is a
    float, and so is the literal it is compared with. *)
Definition fwithin (a b : pyfloat) (bound : Q) : bool :=
  match a, b with
  | Number x, Number y => Qltb (Qabs (fsub x y)) (binary64 bound)
  | _, _ => false
  end.

(** [str.lower()].  A string is the sequence of its bytes and the letters
    A to Z are lowered.  Python also lowers letters outside ASCII; none of
    them becomes a letter of a key of the tables looked up here, so the
    lookups agree. *)
Definition lower_ascii (c : ascii) : ascii :=
  let n := nat_of_ascii c in
  if (65 <=? n)%nat && (n <=? 90)%nat then ascii_of_nat (n + 32) else c.

Fixpoint lower (s : string) : string :=
  match s with
  | EmptyString => EmptyString
  | String c s' => String (lower_ascii c) (lower s')
  end.

(** A timestamp column as the scoring code sees it: a value that is
    false ([None] or the empty string), a string [strptime] rejects, or
    a string it parses, here to the seconds since some fixed instant. *)
Inductive timestamp :=
| NoDate
| BadDate
| Parsed (seconds : Z).

(** [(a - b).days] of two parsed instants: whole days, rounded down. *)
Definition days_between (a b : Z) : Z := ((a - b) / 86400)%Z.

End Py.

Import Py.

Declare Scope py_scope.
Delimit Scope py_scope with py.
Notation "x <- m ;; k" := (Py.bind m (fun x => k))
  (at level 100, m at next level, right associativity) : py_scope.

(* ================================================================== *)
(** * database/db_manager.py                                           *)
(* ================================================================== *)

Module DbManager.

Local Open Scope Z_scope.
Local Open Scope py_scope.

(** ** The schema of [init_database]

    A column declared [NOT NULL] (or a primary key) has its type; any
    other column is an [option], [None] being SQL [NULL].  SQLite does
    not enforce the [REFERENCES] clauses: the program never turns
    [PRAGMA foreign_keys] on. *)

Record bank := {
  bank_id : Z;
  bank_name : string;
  bank_code : option string;
  bank_created_at : option string;
  bank_active : option bool
}.

Record branch := {
  branch_id : Z;
  branch_bank_id : Z;
  branch_name : string;
  branch_address : option string;
  branch_postal_code : option string;
  branch_phone : option string;
  branch_email : option string;
  branch_created_at : option string;
  branch_active : option bool
}.

Record client := {
  client_id : Z;
  client_type : string;
  client_name : string;
  client_id_number : option string;
  client_vat_number : option string;
  client_address : option string;
  client_phone : option string;
  client_email : option string;
  client_created_at : option string;
  client_active : option bool
}.

Record cheque := {
  cheque_id : Z;
  cheque_amount : Q;
  cheque_currency : option string;
  cheque_issue_date : string;
  cheque_due_date : string;
  cheque_client_id : option Z;
  cheque_branch_id : option Z;
  cheque_status : option string;
  cheque_number : string;
  cheque_scan_path : option string;
  cheque_depositor_name : option string;
  cheque_invoice_number : option string;
  cheque_invoice_date : option string;
  cheque_notes : option string;
  cheque_created_at : option string;
  cheque_updated_at : option string;
  cheque_created_by : option Z
}.

Record user := {
  user_id : Z;
  user_username : string;
  user_password_hash : string;
  user_role : string;
  user_full_name : option string;
  user_email : option string;
  user_active : option bool;
  user_created_at : option string;
  user_last_login : option string
}.

Record notification := {
  notification_id : Z;
  notification_type : string;
  notification_title : string;
  notification_message : string;
  notification_cheque_id : option Z;
  notification_user_id : option Z;
  notification_read : option bool;
  notification_created_at : option string
}.

(** The database file: the tables, and for the two tables the program
    inserts into here the [AUTOINCREMENT] counter SQLite keeps in
    [sqlite_sequence]. *)
Record database := {
  banks : list bank;
  branches : list branch;
  clients : list client;
  cheques : list cheque;
  users : list user;
  notifications : list notification;
  cheques_sequence : Z;
  notifications_sequence : Z
}.

(** [status TEXT CHECK(status IN (...))]. *)
Definition cheque_statuses : list string :=
  ["en_attente"; "encaisse"; "rejete"; "impaye"; "depose"; "annule"]%string.

(** [role TEXT CHECK(role IN (...))]. *)
Definition user_roles : list string :=
  ["admin"; "comptable"; "agent"; "readonly"]%string.

Definition mem_string (s : string) (l : list string) : bool :=
  existsb (String.eqb s) l.

(** A [CHECK] constraint fails only when its expression is false;
    [NULL IN (...)] is [NULL], which passes. *)
Definition status_check (status : option string) : bool :=
  match status with
  | None => true
  | Some s => mem_string s cheque_statuses
  end.

(** [UNIQUE(cheque_number, branch_id)]: two rows conflict when both
    columns are equal; a [NULL] is equal to nothing, itself included. *)
Definition unique_conflict (number : string) (branch : option Z) (r : cheque) : bool :=
  String.eqb (cheque_number r) number &&
  match cheque_branch_id r, branch with
  | Some b, Some b' => b =? b'
  | _, _ => false
  end.

(** The rowid an [AUTOINCREMENT] key gives the next row: one more than
    the largest rowid the table has ever held. *)
Definition next_rowid (sequence : Z) (rowids : list Z) : Z :=
  Z.max sequence (fold_right Z.max 0 rowids) + 1.

(** [NOT NULL] on one column of a row being written. *)
Definition not_null {A} (column : string) (v : option A) : result A :=
  match v with
  | Some a => Ok a
  | None => Raise (IntegrityError (NotNullConstraint column))
  end.

(** The cheque dictionaries the program passes around: one key per
    column of [cheques], each value of the column's declared type. *)
Record cheque_dict := {
  d_id : field Z;
  d_amount : field pyfloat;
  d_currency : field string;
  d_issue_date : field string;
  d_due_date : field string;
  d_client_id : field Z;
  d_branch_id : field Z;
  d_status : field string;
  d_cheque_number : field string;
  d_scan_path : field string;
  d_depositor_name : field string;
  d_invoice_number : field string;
  d_invoice_date : field string;
  d_notes : field string;
  d_created_at : field string;
  d_updated_at : field string;
  d_created_by : field Z
}.

(** A method that opens its own connection: on an exception the
    connection's context manager rolls the statements back. *)
Definition transaction {A} (db : database) (body : result (A * database))
  : result A * database :=
  match body with
  | Ok (a, db') => (Ok a, db')
  | Raise e => (Raise e, db)
  end.

(** ** [add_cheque]

    [now] is what [CURRENT_TIMESTAMP] gives the two timestamp columns.
    The tuple of parameters is built first, a missing key raising
    [KeyError]; [sqlite3] then binds them, NaN as [NULL] and an integer
    beyond 64 bits raising [OverflowError]; SQLite checks [NOT NULL], then
    [CHECK], then [UNIQUE]. *)
Definition add_cheque (now : string) (cheque_data : cheque_dict) (db : database)
  : result Z * database :=
  transaction db (
    amount <- getitem "amount" (d_amount cheque_data) ;;
    let currency := get_default (d_currency cheque_data) "MAD"%string in
    issue_date <- getitem "issue_date" (d_issue_date cheque_data) ;;
    due_date <- getitem "due_date" (d_due_date cheque_data) ;;
    let client_id := get (d_client_id cheque_data) in
    branch_id <- getitem "branch_id" (d_branch_id cheque_data) ;;
    let status := get_default (d_status cheque_data) "en_attente"%string in
    number <- getitem "cheque_number" (d_cheque_number cheque_data) ;;
    let depositor_name := get (d_depositor_name cheque_data) in
    let invoice_number := get (d_invoice_number cheque_data) in
    let invoice_date := get (d_invoice_date cheque_data) in
    let notes := get (d_notes cheque_data) in
    let created_by := get (d_created_by cheque_data) in
    let amount := bind_float amount in
    client_id <- bind_int client_id ;;
    branch_id <- bind_int branch_id ;;
    created_by <- bind_int created_by ;;
    amount <- not_null "amount" amount ;;
    issue_date <- not_null "issue_date" issue_date ;;
    due_date <- not_null "due_date" due_date ;;
    number <- not_null "cheque_number" number ;;
    if negb (status_check status) then
      Raise (IntegrityError (CheckConstraint "status"))
    else if existsb (unique_conflict number branch_id) (cheques db) then
      Raise (IntegrityError (UniqueConstraint ["cheque_number"; "branch_id"]%string))
    else
      let rowid := next_rowid (cheques_sequence db) (map cheque_id (cheques db)) in
      let row := {|
        cheque_id := rowid;
        cheque_amount := amount;
        cheque_currency := currency;
        cheque_issue_date := issue_date;
        cheque_due_date := due_date;
        cheque_client_id := client_id;
        cheque_branch_id := branch_id;
        cheque_status := status;
        cheque_number := number;
        cheque_scan_path := None;
        cheque_depositor_name := depositor_name;
        cheque_invoice_number := invoice_number;
        cheque_invoice_date := invoice_date;
        cheque_notes := notes;
        cheque_created_at := Some now;
        cheque_updated_at := Some now;
        cheque_created_by := created_by
      |} in
      Ok (rowid, {|
        banks := banks db;
        branches := branches db;
        clients := clients db;
        cheques := cheques db ++ [row];
        users := users db;
        notifications := notifications db;
        cheques_sequence := rowid;
        notifications_sequence := notifications_sequence db
      |})).

(** [check_duplicate_cheque]: [SELECT COUNT( * ) ... WHERE cheque_number = ?
    AND branch_id = ?], the count compared with 0; the method has no
    handler. *)
Definition check_duplicate_cheque (number : string) (branch : Z) (db : database)
  : result bool :=
  branch <- bind_int (Some branch) ;;
  Ok (0 <? Z.of_nat (List.length (List.filter (unique_conflict number branch) (cheques db)))).

(** ** Statements over [WHERE id = ?] *)

(** [UPDATE t SET ... WHERE id = ?]: every row whose key is [id] is
    rewritten by [set]. *)
Definition update_where_id {R} (key : R -> Z) (set : R -> R) (id : Z) (table : list R)
  : list R :=
  map (fun r => if key r =? id then set r else r) table.

(** [cursor.rowcount] after such a statement. *)
Definition rowcount_where_id {R} (key : R -> Z) (id : Z) (table : list R) : Z :=
  Z.of_nat (List.length (List.filter (fun r => key r =? id) table)).

(** A cursor inside a transaction: the tables as the statements executed
    so far left them, and [cursor.rowcount] of the last statement. *)
Record cursor := {
  cursor_db : database;
  cursor_rowcount : Z
}.

(** ** [_create_status_notification] *)

Definition status_messages : gmap string string :=
  <["encaisse" := "Chèque encaissé avec succès"]> (
  <["rejete" := "Chèque rejeté par la banque"]> (
  <["impaye" := "Chèque marqué comme impayé"]> (
  <["annule" := "Chèque annulé"]> ∅)))%string.

Definition _create_status_notification (now : string) (cur : cursor)
    (cheque_id : Z) (new_status : string) (user_id : Z) : cursor :=
  match status_messages !! new_status with
  | Some message =>
      let db := cursor_db cur in
      let rowid :=
        next_rowid (notifications_sequence db) (map notification_id (notifications db)) in
      let row := {|
        notification_id := rowid;
        notification_type := "status_change";
        notification_title := "Changement de statut";
        notification_message := message;
        notification_cheque_id := Some cheque_id;
        notification_user_id := Some user_id;
        notification_read := Some false;
        notification_created_at := Some now
      |} in
      {| cursor_db := {|
           banks := banks db;
           branches := branches db;
           clients := clients db;
           cheques := cheques db;
           users := users db;
           notifications := notifications db ++ [row];
           cheques_sequence := cheques_sequence db;
           notifications_sequence := rowid
         |};
         cursor_rowcount := 1 |}
  | None => cur
  end.

(** ** [update_cheque_status]

    [user_id] is the optional argument, [None] by default.  The [UPDATE]
    re-checks the [CHECK] constraint on every row it writes. *)

Definition set_cheque_status (now : string) (new_status : string) (r : cheque) : cheque :=
  {|
    cheque_id := cheque_id r;
    cheque_amount := cheque_amount r;
    cheque_currency := cheque_currency r;
    cheque_issue_date := cheque_issue_date r;
    cheque_due_date := cheque_due_date r;
    cheque_client_id := cheque_client_id r;
    cheque_branch_id := cheque_branch_id r;
    cheque_status := Some new_status;
    cheque_number := cheque_number r;
    cheque_scan_path := cheque_scan_path r;
    cheque_depositor_name := cheque_depositor_name r;
    cheque_invoice_number := cheque_invoice_number r;
    cheque_invoice_date := cheque_invoice_date r;
    cheque_notes := cheque_notes r;
    cheque_created_at := cheque_created_at r;
    cheque_updated_at := Some now;
    cheque_created_by := cheque_created_by r
  |}.

(** Truth value of an optional integer argument: [None] and 0 are false. *)
Definition truthy_id (user_id : option Z) : option Z :=
  match user_id with
  | Some u => if u =? 0 then None else Some u
  | None => None
  end.

Definition update_cheque_status (now : string) (cheque_id : Z) (new_status : string)
    (user_id : option Z) (db : database) : result bool * database :=
  transaction db (
    let rowcount := rowcount_where_id DbManager.cheque_id cheque_id (cheques db) in
    if (0 <? rowcount) && negb (status_check (Some new_status)) then
      Raise (IntegrityError (CheckConstraint "status"))
    else
      let cur := {|
        cursor_db := {|
          banks := banks db;
          branches := branches db;
          clients := clients db;
          cheques := update_where_id DbManager.cheque_id (set_cheque_status now new_status)
                       cheque_id (cheques db);
          users := users db;
          notifications := notifications db;
          cheques_sequence := cheques_sequence db;
          notifications_sequence := notifications_sequence db
        |};
        cursor_rowcount := rowcount
      |} in
      let cur :=
        match truthy_id user_id with
        | Some u =>
            if 0 <? cursor_rowcount cur
            then _create_status_notification now cur cheque_id new_status u
            else cur
        | None => cur
        end in
      Ok (0 <? cursor_rowcount cur, cursor_db cur)).

(** ** [delete_bank]: [UPDATE banks SET active = FALSE WHERE id = ?] *)

Definition deactivate_bank (r : bank) : bank :=
  {|
    bank_id := bank_id r;
    bank_name := bank_name r;
    bank_code := bank_code r;
    bank_created_at := bank_created_at r;
    bank_active := Some false
  |}.

Definition delete_bank (bank_id : Z) (db : database) : result bool * database :=
  transaction db (
    Ok (0 <? rowcount_where_id DbManager.bank_id bank_id (banks db),
        {|
          banks := update_where_id DbManager.bank_id deactivate_bank bank_id (banks db);
          branches := branches db;
          clients := clients db;
          cheques := cheques db;
          users := users db;
          notifications := notifications db;
          cheques_sequence := cheques_sequence db;
          notifications_sequence := notifications_sequence db
        |})).

End DbManager.

(* ================================================================== *)
(** * ui/components/settings.py                                        *)
(* ================================================================== *)

Module Settings.

Import DbManager.
Local Open Scope Z_scope.

Definition deactivate_branch (r : branch) : branch :=
  {|
    branch_id := branch_id r;
    branch_bank_id := branch_bank_id r;
    branch_name := branch_name r;
    branch_address := branch_address r;
    branch_postal_code := branch_postal_code r;
    branch_phone := branch_phone r;
    branch_email := branch_email r;
    branch_created_at := branch_created_at r;
    branch_active := Some false
  |}.

Definition deactivate_user (r : user) : user :=
  {|
    user_id := user_id r;
    user_username := user_username r;
    user_password_hash := user_password_hash r;
    user_role := user_role r;
    user_full_name := user_full_name r;
    user_email := user_email r;
    user_active := Some false;
    user_created_at := user_created_at r;
    user_last_login := user_last_login r
  |}.

(** [delete_bank]: the selected row of the banks tree ([None] when
    nothing is selected) and the answer to the confirmation box; the
    statement is [DatabaseManager.delete_bank]. *)
Definition delete_bank (selection : option Z) (confirmed : bool) (db : database)
  : database :=
  match selection with
  | None => db
  | Some bank_id => if confirmed then snd (DbManager.delete_bank bank_id db) else db
  end.

(** [delete_branch]: [UPDATE branches SET active = FALSE WHERE id = ?]. *)
Definition delete_branch (selection : option Z) (confirmed : bool) (db : database)
  : database :=
  match selection with
  | None => db
  | Some branch_id =>
      if confirmed then
        {|
          banks := banks db;
          branches :=
            update_where_id DbManager.branch_id deactivate_branch branch_id (branches db);
          clients := clients db;
          cheques := cheques db;
          users := users db;
          notifications := notifications db;
          cheques_sequence := cheques_sequence db;
          notifications_sequence := notifications_sequence db
        |}
      else db
  end.

(** [delete_user]: [UPDATE users SET active = FALSE WHERE id = ?], refused
    for the account of the user who is logged in. *)
Definition delete_user (current_user_id : Z) (selection : option Z) (confirmed : bool)
    (db : database) : database :=
  match selection with
  | None => db
  | Some user_id =>
      if user_id =? current_user_id then db
      else if confirmed then
        {|
          banks := banks db;
          branches := branches db;
          clients := clients db;
          cheques := cheques db;
          users := update_where_id DbManager.user_id deactivate_user user_id (users db);
          notifications := notifications db;
          cheques_sequence := cheques_sequence db;
          notifications_sequence := notifications_sequence db
        |}
      else db
  end.

End Settings.

(* ================================================================== *)
(** * analytics/advanced_analytics.py                                  *)
(* ================================================================== *)

Module AdvancedAnalytics.

Local Open Scope Q_scope.
Local Open Scope py_scope.

Inductive RiskLevel := LOW | MEDIUM | HIGH | CRITICAL.

(** ** [_calculate_risk_score]

    [now] is [datetime.now()], in the seconds of [Parsed]. *)
Definition _calculate_risk_score (now : Z) (bounce_rate : Q) (total_cheques : Z)
    (total_amount : Q) (avg_processing_time : Q) (last_bounce_date : timestamp)
    (active_months : Z) : Q :=
  let score := 0 in
  (* Bounce rate factor *)
  let score := score + Qmin (bounce_rate * 2) 40 in
  (* Volume factor *)
  let score :=
    if (total_cheques <? 5)%Z then score + 20
    else if (total_cheques <? 20)%Z then score + 10
    else score in
  (* Amount factor *)
  let score :=
    if Qltb total_amount 10000 then score + 15
    else if Qltb total_amount 50000 then score + 8
    else score in
  (* Processing time factor *)
  let score :=
    if Qgtb avg_processing_time 30 then score + 10
    else if Qgtb avg_processing_time 14 then score + 5
    else score in
  (* Recent bounce factor *)
  let score :=
    match last_bounce_date with
    | NoDate => score
    | BadDate => score
    | Parsed last_bounce =>
        let days_since_bounce := days_between now last_bounce in
        if (days_since_bounce <? 30)%Z then score + 15
        else if (days_since_bounce <? 90)%Z then score + 10
        else if (days_since_bounce <? 180)%Z then score + 5
        else score
    end in
  Qmin score 100.

(** The same function as the machine runs it: the product and each
    [score += w] give the float nearest to the exact result.  The loop of
    [calculate_client_risk_profiles] compares this float with the
    thresholds of the levels and stores it rounded to two decimals. *)
Definition _calculate_risk_score_float (now : Z) (bounce_rate : Q) (total_cheques : Z)
    (total_amount : Q) (avg_processing_time : Q) (last_bounce_date : timestamp)
    (active_months : Z) : Q :=
  let score := 0 in
  (* Bounce rate factor *)
  let score := fadd score (Qmin (fmul bounce_rate 2) 40) in
  (* Volume factor *)
  let score :=
    if (total_cheques <? 5)%Z then fadd score 20
    else if (total_cheques <? 20)%Z then fadd score 10
    else score in
  (* Amount factor *)
  let score :=
    if Qltb total_amount 10000 then fadd score 15
    else if Qltb total_amount 50000 then fadd score 8
    else score in
  (* Processing time factor *)
  let score :=
    if Qgtb avg_processing_time 30 then fadd score 10
    else if Qgtb avg_processing_time 14 then fadd score 5
    else score in
  (* Recent bounce factor *)
  let score :=
    match last_bounce_date with
    | NoDate => score
    | BadDate => score
    | Parsed last_bounce =>
        let days_since_bounce := days_between now last_bounce in
        if (days_since_bounce <? 30)%Z then fadd score 15
        else if (days_since_bounce <? 90)%Z then fadd score 10
        else if (days_since_bounce <? 180)%Z then fadd score 5
        else score
    end in
  Qmin score 100.

(** ** [calculate_client_risk_profiles] *)

(** One row of the per-client aggregation query. *)
Record client_row := {
  row_client_id : Z;
  row_name : string;
  row_total_cheques : Z;
  row_total_amount : option Q;
  row_bounced_cheques : Z;
  row_avg_processing_time : option Q;
  row_last_bounce_date : timestamp;
  row_avg_cheque_amount : option Q;
  row_active_months : option Z
}.

Record ClientRiskProfile := {
  profile_client_id : Z;
  client_name : string;
  risk_level : RiskLevel;
  bounce_rate : Q;
  total_cheques : Z;
  total_amount : Q;
  avg_processing_time : Q;
  last_bounce_date : option Z;
  risk_score : Q
}.

(** [x or 0]. *)
Definition or_Q (x : option Q) (default : Q) : Q :=
  match x with
  | Some q => if Qeq_bool q 0 then default else q
  | None => default
  end.

Definition or_Z (x : option Z) (default : Z) : Z :=
  match x with
  | Some z => if (z =? 0)%Z then default else z
  | None => default
  end.

(** The bucket of a score, as the loop body assigns it. *)
Definition determine_risk_level (risk_score : Q) : RiskLevel :=
  if Qgeb risk_score 80 then CRITICAL
  else if Qgeb risk_score 60 then HIGH
  else if Qgeb risk_score 40 then MEDIUM
  else LOW.

(** The score the loop body computes for a row, on exact rationals. *)
Definition row_risk_score (now : Z) (row : client_row) : Q :=
  let bounce_rate :=
    if (0 <? row_total_cheques row)%Z
    then inject_Z (row_bounced_cheques row) / inject_Z (row_total_cheques row) * 100
    else 0 in
  _calculate_risk_score now bounce_rate (row_total_cheques row)
    (or_Q (row_total_amount row) 0) (or_Q (row_avg_processing_time row) 0)
    (row_last_bounce_date row) (or_Z (row_active_months row) 1).

(** The bounce rate and the score the loop body computes for a row, as
    the machine holds them: the quotient of two integers is a float, and so
    is its product by 100.  The profile stores both rounded to two
    decimals and takes its level from the score. *)
Definition row_bounce_rate (row : client_row) : Q :=
  if (0 <? row_total_cheques row)%Z
  then fmul (fdiv (inject_Z (row_bounced_cheques row)) (inject_Z (row_total_cheques row)))
            100
  else 0.

Definition row_risk_score_float (now : Z) (row : client_row) : Q :=
  let bounce_rate := row_bounce_rate row in
  _calculate_risk_score_float now bounce_rate (row_total_cheques row)
    (or_Q (row_total_amount row) 0) (or_Q (row_avg_processing_time row) 0)
    (row_last_bounce_date row) (or_Z (row_active_months row) 1).

(** The loop body: the profile of one row.  The last [strptime], outside
    any inner [try], raises on a date it rejects. *)
Definition risk_profile_of_row (now : Z) (row : client_row) : result ClientRiskProfile :=
  let bounce_rate := row_bounce_rate row in
  let risk_score := row_risk_score_float now row in
  let risk_level := determine_risk_level risk_score in
  last_bounce <- match row_last_bounce_date row with
                 | NoDate => Ok None
                 | BadDate => Raise ValueError
                 | Parsed s => Ok (Some (s / 86400)%Z)
                 end ;;
  Ok {|
    profile_client_id := row_client_id row;
    client_name := row_name row;
    risk_level := risk_level;
    bounce_rate := round bounce_rate 2;
    total_cheques := row_total_cheques row;
    total_amount := or_Q (row_total_amount row) 0;
    avg_processing_time := round (or_Q (row_avg_processing_time row) 0) 2;
    last_bounce_date := last_bounce;
    risk_score := round risk_score 2
  |}.

Fixpoint for_each {A B} (f : A -> result B) (l : list A) : result (list B) :=
  match l with
  | [] => Ok []
  | x :: l' => y <- f x ;; ys <- for_each f l' ;; Ok (y :: ys)
  end.

(** The body of the [try]: [results] is what the query gave, its rows or
    the exception [sqlite3] raised. *)
Definition calculate_client_risk_profiles_body (now : Z)
    (results : result (list client_row)) : result (list ClientRiskProfile) :=
  rows <- results ;; for_each (risk_profile_of_row now) rows.

Definition calculate_client_risk_profiles (now : Z) (results : result (list client_row))
  : list ClientRiskProfile :=
  try_except (calculate_client_risk_profiles_body now results) [].

(** ** [_calculate_similarity_score]

    One row of the self-join of [cheques]: the columns [row[0]] to
    [row[11]]. *)
Record pair_row := {
  id1 : Z;
  number1 : string;
  amount1 : Q;
  client1 : option Z;
  date1 : timestamp;
  id2 : Z;
  number2 : string;
  amount2 : Q;
  client2 : option Z;
  date2 : timestamp;
  client_name1 : option string;
  client_name2 : option string
}.

Definition _calculate_similarity_score (row : pair_row) : Q :=
  let score := 0 in
  (* Exact cheque number match *)
  let score := if String.eqb (number1 row) (number2 row) then score + 0.5 else score in
  (* Exact amount match *)
  let score := if Qeq_bool (amount1 row) (amount2 row) then score + 0.3 else score in
  (* Same client *)
  let score := if eq_opt Z.eqb (client1 row) (client2 row) then score + 0.2 else score in
  (* Date proximity: a date that does not parse leaves the score as it is *)
  let score :=
    match date1 row, date2 row with
    | Parsed d1, Parsed d2 =>
        let days_diff := Z.abs (days_between d1 d2) in
        if (days_diff <=? 1)%Z then score + 0.2
        else if (days_diff <=? 7)%Z then score + 0.1
        else score
    | _, _ => score
    end in
  Qmin score 1.

(** ** [_get_match_reasons] *)

Definition _get_match_reasons (row : pair_row) : list string :=
  let reasons := [] in
  let reasons :=
    if String.eqb (number1 row) (number2 row)
    then reasons ++ ["Même numéro de chèque"%string] else reasons in
  let reasons :=
    if Qeq_bool (amount1 row) (amount2 row)
    then reasons ++ ["Même montant"%string] else reasons in
  let reasons :=
    if eq_opt Z.eqb (client1 row) (client2 row)
    then reasons ++ ["Même client"%string] else reasons in
  match date1 row, date2 row with
  | Parsed d1, Parsed d2 =>
      let days_diff := Z.abs (days_between d1 d2) in
      if (days_diff <=? 7)%Z
      then reasons ++ [("Dates proches (" ++ str_of_int days_diff ++ " jour(s))")%string]
      else reasons
  | _, _ => reasons
  end.

(** ** [get_duplicate_detection_analysis]

    The sums of the four weights, as the machine adds them, fall on the
    side of 0.7 where the exact sums fall and round to the same decimal:
    0.5 + 0.2 and 0.3 + 0.2 + 0.2 are the float 0.7. *)

Record cheque_summary := {
  summary_id : Z;
  summary_number : string;
  summary_amount : Q;
  summary_client : option string;
  summary_date : timestamp
}.

Record potential_duplicate := {
  cheque1 : cheque_summary;
  cheque2 : cheque_summary;
  similarity_score : Q;
  match_reasons : list string
}.

(** The loop over the rows of the self-join. *)
Fixpoint scan_pairs (rows : list pair_row) : list potential_duplicate :=
  match rows with
  | [] => []
  | row :: rest =>
      let similarity_score := _calculate_similarity_score row in
      if Qgtb similarity_score 0.7 then
        {| cheque1 := {| summary_id := id1 row;
                         summary_number := number1 row;
                         summary_amount := amount1 row;
                         summary_client := client_name1 row;
                         summary_date := date1 row |};
           cheque2 := {| summary_id := id2 row;
                         summary_number := number2 row;
                         summary_amount := amount2 row;
                         summary_client := client_name2 row;
                         summary_date := date2 row |};
           similarity_score := round (similarity_score * 100) 1;
           match_reasons := _get_match_reasons row |} :: scan_pairs rest
      else scan_pairs rest
  end.

(** The body of the [try]: [fetched] is what the self-join gave. *)
Definition get_duplicate_detection_analysis_body (fetched : result (list pair_row))
  : result (list potential_duplicate) :=
  rows <- fetched ;; Ok (scan_pairs rows).

Definition get_duplicate_detection_analysis (fetched : result (list pair_row))
  : list potential_duplicate :=
  try_except (get_duplicate_detection_analysis_body fetched) [].

(** ** [get_cheque_aging_analysis] *)

(** One row of the aggregation by status.  The three durations aggregate
    differences of [julianday], [NULL] where a timestamp of the group is
    [NULL] or is no date; the percentage is a quotient of two counts. *)
Record aging_row := {
  aging_status : option string;
  aging_avg_days : option Q;
  aging_min_days : option Q;
  aging_max_days : option Q;
  aging_count : Z;
  aging_percentage : Q
}.

Record ChequeAgingData := {
  status : option string;
  avg_days : Q;
  min_days : Z;
  max_days : Z;
  count : Z;
  percentage : Q
}.

(** [round(x, ndigits)] and [int(x)] of a column that may be [NULL]:
    neither takes [None]. *)
Definition round_column (x : option Q) (ndigits : nat) : result Q :=
  match x with
  | Some q => Ok (round q ndigits)
  | None => Raise TypeError
  end.

Definition int_column (x : option Q) : result Z :=
  match x with
  | Some q => Ok (int_of_float q)
  | None => Raise TypeError
  end.

(** One element of the list comprehension. *)
Definition aging_data_of_row (row : aging_row) : result ChequeAgingData :=
  avg_days <- round_column (aging_avg_days row) 2 ;;
  min_days <- int_column (aging_min_days row) ;;
  max_days <- int_column (aging_max_days row) ;;
  Ok {|
    status := aging_status row;
    avg_days := avg_days;
    min_days := min_days;
    max_days := max_days;
    count := aging_count row;
    percentage := round (aging_percentage row) 2
  |}.

(** The body of the [try]: [results] is what the query gave, for the
    dates the caller passed. *)
Definition get_cheque_aging_analysis_body (results : result (list aging_row))
  : result (list ChequeAgingData) :=
  rows <- results ;; for_each aging_data_of_row rows.

Definition get_cheque_aging_analysis (results : result (list aging_row))
  : list ChequeAgingData :=
  try_except (get_cheque_aging_analysis_body results) [].

(** ** [get_seasonal_trends]

    The rows of the three queries are returned as they come.  A dictionary
    the method returns is [Some] of its entries, the empty dictionary of
    the handler is [None]. *)
Record seasonal_trends (Monthly Quarterly Daily : Type) := {
  monthly_trends : list Monthly;
  quarterly_trends : list Quarterly;
  daily_patterns : list Daily
}.
Arguments monthly_trends {Monthly Quarterly Daily} s.
Arguments quarterly_trends {Monthly Quarterly Daily} s.
Arguments daily_patterns {Monthly Quarterly Daily} s.

(** The body of the [try]: the three arguments are what the three queries
    give, each run only when the one before it has returned. *)
Definition get_seasonal_trends_body {Monthly Quarterly Daily : Type}
    (monthly : result (list Monthly)) (quarterly : result (list Quarterly))
    (daily : result (list Daily)) : result (seasonal_trends Monthly Quarterly Daily) :=
  monthly_data <- monthly ;;
  quarterly_data <- quarterly ;;
  daily_patterns <- daily ;;
  Ok {| monthly_trends := monthly_data;
        quarterly_trends := quarterly_data;
        daily_patterns := daily_patterns |}.

Definition get_seasonal_trends {Monthly Quarterly Daily : Type}
    (monthly : result (list Monthly)) (quarterly : result (list Quarterly))
    (daily : result (list Daily)) : option (seasonal_trends Monthly Quarterly Daily) :=
  try_except (trends <- get_seasonal_trends_body monthly quarterly daily ;; Ok (Some trends))
    None.

(** ** [get_performance_metrics] *)

(** The row of the overall query.  A [SUM] or an [AVG] over no row is
    [NULL]; a [COUNT] is a number. *)
Record overall_row := {
  overall_total_cheques : Z;
  overall_total_amount : option Q;
  overall_avg_amount : option Q;
  overall_successful_cheques : option Z;
  overall_failed_cheques : option Z;
  overall_avg_processing_time : option Q;
  overall_unique_clients : Z;
  overall_unique_branches : Z
}.

(** The entry [overall] of the dictionary. *)
Record overall_metrics := {
  metrics_total_cheques : Z;
  metrics_total_amount : Q;
  metrics_avg_amount : Q;
  metrics_success_rate : Q;
  metrics_avg_processing_time : Q;
  metrics_unique_clients : Z;
  metrics_unique_branches : Z
}.

(** The dictionary: [overall], [bank_performance] and [monthly_trends]. *)
Record performance_metrics (Bank Month : Type) := {
  overall : overall_metrics;
  bank_performance : list Bank;
  performance_monthly_trends : list Month
}.
Arguments overall {Bank Month} p.
Arguments bank_performance {Bank Month} p.
Arguments performance_monthly_trends {Bank Month} p.

(** The body of the [try].  The sum of the two counts is taken before the
    other two queries run, and [None + None] raises. *)
Definition get_performance_metrics_body {Bank Month : Type}
    (overall_fetched : result overall_row) (bank_fetched : result (list Bank))
    (monthly_fetched : result (list Month)) : result (performance_metrics Bank Month) :=
  overall_metrics <- overall_fetched ;;
  (* Success rate calculation *)
  match overall_successful_cheques overall_metrics,
        overall_failed_cheques overall_metrics with
  | Some successful, Some failed =>
      let total_processed := (successful + failed)%Z in
      let success_rate :=
        if (0 <? total_processed)%Z
        then fmul (fdiv (inject_Z successful) (inject_Z total_processed)) 100
        else 0 in
      bank_performance <- bank_fetched ;;
      monthly_trends <- monthly_fetched ;;
      Ok {|
        overall := {|
          metrics_total_cheques := overall_total_cheques overall_metrics;
          metrics_total_amount := or_Q (overall_total_amount overall_metrics) 0;
          metrics_avg_amount := round (or_Q (overall_avg_amount overall_metrics) 0) 2;
          metrics_success_rate := round success_rate 2;
          metrics_avg_processing_time :=
            round (or_Q (overall_avg_processing_time overall_metrics) 0) 2;
          metrics_unique_clients := overall_unique_clients overall_metrics;
          metrics_unique_branches := overall_unique_branches overall_metrics
        |};
        bank_performance := bank_performance;
        performance_monthly_trends := monthly_trends
      |}
  | _, _ => Raise TypeError
  end.

Definition get_performance_metrics {Bank Month : Type}
    (overall_fetched : result overall_row) (bank_fetched : result (list Bank))
    (monthly_fetched : result (list Month)) : option (performance_metrics Bank Month) :=
  try_except
    (metrics <- get_performance_metrics_body overall_fetched bank_fetched monthly_fetched ;;
     Ok (Some metrics))
    None.

(** ** [predict_cash_flow] *)

(** One row of the pending cheques grouped by due date. *)
Record pending_row := {
  pending_due_date : string;
  pending_total_amount : Q;
  pending_cheque_count : Z
}.

Record prediction := {
  prediction_date : string;
  expected_amount : Q;
  cheque_count : Z;
  cumulative_amount : Q;
  confidence : Q
}.

Record cash_flow_summary := {
  total_expected : Q;
  total_pending : Q;
  success_rate : Q;
  days_analyzed : Z
}.

Record cash_flow := {
  predictions : list prediction;
  summary : cash_flow_summary
}.

(** The loop: the predictions of the rows, and the cumulative amount after
    the last of them.  The product and the running sum are floats. *)
Fixpoint predict (historical_success_rate : Q) (pending_cheques : list pending_row)
    (cumulative_amount : Q) : list prediction * Q :=
  match pending_cheques with
  | [] => ([], cumulative_amount)
  | row :: rest =>
      let expected_amount := fmul (pending_total_amount row) historical_success_rate in
      let cumulative_amount := fadd cumulative_amount expected_amount in
      let (predictions, total) := predict historical_success_rate rest cumulative_amount in
      ({| prediction_date := pending_due_date row;
          expected_amount := round expected_amount 2;
          cheque_count := pending_cheque_count row;
          cumulative_amount := round cumulative_amount 2;
          confidence := round (fmul historical_success_rate 100) 1 |} :: predictions,
       total)
  end.

(** The body of the [try]: [pending_fetched] and [rate_fetched] are what
    the two queries give, the second being the one column of [fetchone()];
    [sum] is the built-in of Python on floats, whose last bit depends on
    the interpreter. *)
Definition predict_cash_flow_body (sum : list Q -> Q) (days_ahead : Z)
    (pending_fetched : result (list pending_row)) (rate_fetched : result (option Q))
  : result cash_flow :=
  pending_cheques <- pending_fetched ;;
  rate <- rate_fetched ;;
  let historical_success_rate := or_Q rate (binary64 0.8) in
  let (predictions, cumulative_amount) := predict historical_success_rate pending_cheques 0 in
  Ok {|
    predictions := predictions;
    summary := {|
      total_expected := round cumulative_amount 2;
      total_pending := sum (map pending_total_amount pending_cheques);
      success_rate := round (fmul historical_success_rate 100) 1;
      days_analyzed := days_ahead
    |}
  |}.

Definition predict_cash_flow (sum : list Q -> Q) (days_ahead : Z)
    (pending_fetched : result (list pending_row)) (rate_fetched : result (option Q))
  : option cash_flow :=
  try_except
    (flow <- predict_cash_flow_body sum days_ahead pending_fetched rate_fetched ;;
     Ok (Some flow))
    None.

End AdvancedAnalytics.

(* ================================================================== *)
(** * automation/smart_automation.py                                   *)
(* ================================================================== *)

Module SmartAutomation.

Import DbManager.
Local Open Scope Q_scope.
Local Open Scope py_scope.

(** ** [_map_bank_status_to_internal] *)

Definition status_mapping : gmap string string :=
  <["cleared" := "encaisse"]> (
  <["bounced" := "rejete"]> (
  <["returned" := "rejete"]> (
  <["pending" := "en_attente"]> (
  <["processing" := "depose"]> (
  <["cancelled" := "annule"]> ∅)))))%string.

Definition _map_bank_status_to_internal (bank_status : string) : option string :=
  status_mapping !! lower bank_status.

(** ** [calculate_ai_risk_score]

    The row of the per-client aggregation query. *)
Record feature_row := {
  total_cheques : Z;
  total_amount : option Q;
  avg_amount : option Q;
  bounced_count : option Z;
  avg_processing_time : option Q;
  active_months : Z;
  last_cheque_date : timestamp;
  first_cheque_date : timestamp;
  banks_used : Z
}.

(** [a / b] and [a * b] where [a] may be [None]. *)
Definition div_none (a : option Q) (b : Q) : result Q :=
  match a with
  | Some x => Ok (x / b)
  | None => Raise TypeError
  end.

(** The body of the [try]: [now] is [datetime.now()], [fetched] what
    [cursor.fetchone()] gave or the exception the query raised. *)
Definition calculate_ai_risk_score_body (now : Z) (fetched : result (option feature_row))
  : result Q :=
  data <- fetched ;;
  match data with
  | None => Ok 50
  | Some data =>
      if (total_cheques data =? 0)%Z then Ok 50
      else
        (* Calculate feature scores *)
        bounce_rate <-
          (if (0 <? total_cheques data)%Z
           then div_none (option_map inject_Z (bounced_count data))
                         (inject_Z (total_cheques data))
           else Ok 0) ;;
        (* Recency score *)
        let recency_score :=
          match last_cheque_date data with
          | Parsed last_date =>
              let days_since_last := days_between now last_date in
              Qmax 0 (100 - inject_Z days_since_last / 30 * 10)
          | _ => 0
          end in
        (* Volume consistency score *)
        let volume_score := Qmin 100 (inject_Z (total_cheques data) * 2) in
        (* Amount consistency score *)
        avg_in_thousands <- div_none (avg_amount data) 1000 ;;
        let amount_variance_score := 100 - Qmin 50 avg_in_thousands in
        (* Processing time score *)
        let processing_score :=
          match avg_processing_time data with
          | Some t => if Qeq_bool t 0 then 100 else Qmax 0 (100 - t * 2)
          | None => 100
          end in
        (* Diversification score *)
        let diversification_score := Qmin 100 (inject_Z (banks_used data) * 20) in
        (* Weighted risk calculation *)
        let risk_score :=
          bounce_rate * 40 +
          (100 - recency_score) * 0.15 +
          (100 - volume_score) * 0.15 +
          amount_variance_score * 0.10 +
          (100 - processing_score) * 0.10 +
          (100 - diversification_score) * 0.10 in
        Ok (Qmin 100 (Qmax 0 risk_score))
  end.

Definition calculate_ai_risk_score (now : Z) (fetched : result (option feature_row)) : Q :=
  try_except (calculate_ai_risk_score_body now fetched) 50.

(** ** [_calculate_cheque_similarity] *)

Definition _calculate_cheque_similarity (cheque1 cheque2 : cheque_dict) : result Q :=
  let score := 0 in
  (* Exact cheque number match (50% weight) *)
  let score :=
    if eq_opt String.eqb (get (d_cheque_number cheque1)) (get (d_cheque_number cheque2))
    then score + 0.5 else score in
  (* Exact amount match (30% weight) *)
  amount1 <- float (get_default (d_amount cheque1) (Number 0)) ;;
  amount2 <- float (get_default (d_amount cheque2) (Number 0)) ;;
  let score := if within amount1 amount2 0.01 then score + 0.3 else score in
  (* Same client (15% weight) *)
  let score :=
    if eq_opt Z.eqb (get (d_client_id cheque1)) (get (d_client_id cheque2))
    then score + 0.15 else score in
  (* Same branch (5% weight) *)
  let score :=
    if eq_opt Z.eqb (get (d_branch_id cheque1)) (get (d_branch_id cheque2))
    then score + 0.05 else score in
  Ok (Qmin score 1).

(** The same function as the machine runs it: each [score += w] adds the
    float nearest to [w] and gives the float nearest to the sum.  The loop
    of [detect_advanced_duplicates] compares this float with 0.7, and the
    last bit decides: number, client and branch sum to
    0.7000000000000001. *)
Definition _calculate_cheque_similarity_float (cheque1 cheque2 : cheque_dict) : result Q :=
  let score := 0 in
  (* Exact cheque number match (50% weight) *)
  let score :=
    if eq_opt String.eqb (get (d_cheque_number cheque1)) (get (d_cheque_number cheque2))
    then fadd score (binary64 0.5) else score in
  (* Exact amount match (30% weight) *)
  amount1 <- float (get_default (d_amount cheque1) (Number 0)) ;;
  amount2 <- float (get_default (d_amount cheque2) (Number 0)) ;;
  let score := if fwithin amount1 amount2 0.01 then fadd score (binary64 0.3) else score in
  (* Same client (15% weight) *)
  let score :=
    if eq_opt Z.eqb (get (d_client_id cheque1)) (get (d_client_id cheque2))
    then fadd score (binary64 0.15) else score in
  (* Same branch (5% weight) *)
  let score :=
    if eq_opt Z.eqb (get (d_branch_id cheque1)) (get (d_branch_id cheque2))
    then fadd score (binary64 0.05) else score in
  Ok (Qmin score 1).

(** ** [detect_advanced_duplicates] *)

(** One row of the candidate query: [id, cheque_number, amount, client_id,
    created_at, branch_id]. *)
Record match_row := {
  match_id : Z;
  match_cheque_number : string;
  match_amount : Q;
  match_client_id : option Z;
  match_created_at : option string;
  match_branch_id : option Z
}.

Definition of_option {A} (o : option A) : field A :=
  match o with
  | Some a => Val a
  | None => PyNone
  end.

(** The dictionary the loop builds from a row. *)
Definition dict_of_match (m : match_row) : cheque_dict :=
  {|
    d_id := Val (match_id m);
    d_amount := Val (Number (match_amount m));
    d_currency := Absent;
    d_issue_date := Absent;
    d_due_date := Absent;
    d_client_id := of_option (match_client_id m);
    d_branch_id := of_option (match_branch_id m);
    d_status := Absent;
    d_cheque_number := Val (match_cheque_number m);
    d_scan_path := Absent;
    d_depositor_name := Absent;
    d_invoice_number := Absent;
    d_invoice_date := Absent;
    d_notes := Absent;
    d_created_at := of_option (match_created_at m);
    d_updated_at := Absent;
    d_created_by := Absent
  |}.

Definition _get_duplicate_reasons (cheque1 : cheque_dict) (cheque2_tuple : match_row)
  : result (list string) :=
  let reasons := [] in
  let reasons :=
    if eq_opt String.eqb (get (d_cheque_number cheque1))
         (Some (match_cheque_number cheque2_tuple))
    then reasons ++ ["Même numéro de chèque"%string] else reasons in
  amount1 <- float (get_default (d_amount cheque1) (Number 0)) ;;
  let reasons :=
    if fwithin amount1 (Number (match_amount cheque2_tuple)) 0.01
    then reasons ++ ["Même montant"%string] else reasons in
  let reasons :=
    if eq_opt Z.eqb (get (d_client_id cheque1)) (match_client_id cheque2_tuple)
    then reasons ++ ["Même client"%string] else reasons in
  let reasons :=
    if eq_opt Z.eqb (get (d_branch_id cheque1)) (match_branch_id cheque2_tuple)
    then reasons ++ ["Même agence"%string] else reasons in
  Ok reasons.

Record duplicate := {
  existing_cheque_id : Z;
  similarity_score : Q;
  match_criteria : list string
}.

(** The loop over the candidates, [duplicates] being the list built so
    far.  The score is the float the machine holds, and so are the
    threshold it is compared with and the product that is rounded. *)
Fixpoint scan_matches (cheque_data : cheque_dict) (potential_matches : list match_row)
    (duplicates : list duplicate) : result (list duplicate) :=
  match potential_matches with
  | [] => Ok duplicates
  | m :: rest =>
      similarity <- _calculate_cheque_similarity_float cheque_data (dict_of_match m) ;;
      if Qgtb similarity (binary64 0.7) then
        reasons <- _get_duplicate_reasons cheque_data m ;;
        scan_matches cheque_data rest
          (duplicates ++ [{| existing_cheque_id := match_id m;
                             similarity_score := round (fmul similarity 100) 1;
                             match_criteria := reasons |}])
      else scan_matches cheque_data rest duplicates
  end.

(** The body of the [try]: [potential_matches] is what the candidate query
    gave, its rows or the exception [sqlite3] raised. *)
Definition detect_advanced_duplicates_body (cheque_data : cheque_dict)
    (potential_matches : result (list match_row)) : result (list duplicate) :=
  rows <- potential_matches ;; scan_matches cheque_data rows [].

Definition detect_advanced_duplicates (cheque_data : cheque_dict)
    (potential_matches : result (list match_row)) : list duplicate :=
  try_except (detect_advanced_duplicates_body cheque_data potential_matches) [].

(** ** [_reminder_already_sent_today]

    [is_today] is [date(created_at) = date('now')] on the text of a
    timestamp.  The bare [except] catches what binding the key raises. *)
Definition _reminder_already_sent_today (is_today : option string -> bool) (cheque_id : Z)
    (db : database) : bool :=
  try_except
    (cheque_id <- bind_int (Some cheque_id) ;;
     let count :=
       Z.of_nat (List.length
                   (List.filter
                      (fun n => eq_opt Z.eqb (notification_cheque_id n) cheque_id
                                && String.eqb (notification_type n) "payment_reminder"
                                && is_today (notification_created_at n))
                      (notifications db))) in
     Ok (0 <? count)%Z)
    false.

(** ** [_log_reminder_sent]

    [now] is what [CURRENT_TIMESTAMP] gives.  The method returns nothing:
    what it does is the row it writes, and on an exception the handler
    leaves the table as it was. *)
Definition _log_reminder_sent_body (now : string) (cheque_id : Z)
    (reminder_type : option string) (db : database) : result (unit * database) :=
  let title := "Rappel automatique envoyé"%string in
  let message :=
    ("Rappel de paiement envoyé pour le chèque ID " ++ str_of_int cheque_id)%string in
  bound_cheque_id <- bind_int (Some cheque_id) ;;
  type <- not_null "type" reminder_type ;;
  let rowid :=
    next_rowid (notifications_sequence db) (map notification_id (notifications db)) in
  let row := {|
    notification_id := rowid;
    notification_type := type;
    notification_title := title;
    notification_message := message;
    notification_cheque_id := bound_cheque_id;
    notification_user_id := None;
    notification_read := Some false;
    notification_created_at := Some now
  |} in
  Ok (tt, {|
    banks := banks db;
    branches := branches db;
    clients := clients db;
    cheques := cheques db;
    users := users db;
    notifications := notifications db ++ [row];
    cheques_sequence := cheques_sequence db;
    notifications_sequence := rowid
  |}).

Definition _log_reminder_sent (now : string) (cheque_id : Z) (reminder_type : option string)
    (db : database) : database :=
  snd (transaction db (_log_reminder_sent_body now cheque_id reminder_type db)).

(** ** [_find_or_create_client]

    [searched] is what [self.db.search_clients] returns or raises, and
    [added] what [self.db.add_client] does, called when no client was
    found; neither method of [DatabaseManager] has a handler. *)
Definition _find_or_create_client_body (searched : result (list client)) (added : result Z)
  : result Z :=
  clients <- searched ;;
  match clients with
  | first :: _ => Ok (client_id first)
  | [] => added
  end.

Definition _find_or_create_client (searched : result (list client)) (added : result Z)
  : option Z :=
  try_except (client_id <- _find_or_create_client_body searched added ;; Ok (Some client_id))
    None.

End SmartAutomation.

(* ================================================================== *)
(** * security/security_manager.py                                     *)
(* ================================================================== *)

Module SecurityManager.

Local Open Scope py_scope.

Inductive UserRole := ADMIN | MANAGER | EMPLOYEE | READONLY.

(** [UserRole(value)]: the member with that value, [ValueError] when no
    member has it. *)
Definition UserRole_of_value (value : string) : result UserRole :=
  if String.eqb value "admin" then Ok ADMIN
  else if String.eqb value "manager" then Ok MANAGER
  else if String.eqb value "employee" then Ok EMPLOYEE
  else if String.eqb value "readonly" then Ok READONLY
  else Raise ValueError.

Definition UserRole_eqb (a b : UserRole) : bool :=
  match a, b with
  | ADMIN, ADMIN | MANAGER, MANAGER | EMPLOYEE, EMPLOYEE | READONLY, READONLY => true
  | _, _ => false
  end.

Definition _load_role_permissions : list (UserRole * list string) :=
  [ (ADMIN,
     [ "cheque.create"; "cheque.read"; "cheque.update"; "cheque.delete";
       "client.create"; "client.read"; "client.update"; "client.delete";
       "bank.create"; "bank.read"; "bank.update"; "bank.delete";
       "user.create"; "user.read"; "user.update"; "user.delete";
       "report.generate"; "report.export";
       "system.backup"; "system.restore"; "system.configure";
       "audit.read" ]);
    (MANAGER,
     [ "cheque.create"; "cheque.read"; "cheque.update";
       "client.create"; "client.read"; "client.update";
       "bank.read";
       "report.generate"; "report.export";
       "system.backup" ]);
    (EMPLOYEE,
     [ "cheque.create"; "cheque.read"; "cheque.update";
       "client.read"; "client.update";
       "bank.read";
       "report.generate" ]);
    (READONLY,
     [ "cheque.read";
       "client.read";
       "bank.read";
       "report.generate" ]) ]%string.

(** [d.get(key, default)] on a dictionary written as its items. *)
Fixpoint dict_get {V} (d : list (UserRole * V)) (key : UserRole) (default : V) : V :=
  match d with
  | [] => default
  | (k, v) :: d' => if UserRole_eqb k key then v else dict_get d' key default
  end.

(** [check_user_permissions]: the handler catches [ValueError] only, the
    one exception the body raises. *)
Definition check_user_permissions (user_role : string) (required_permission : string)
  : bool :=
  match UserRole_of_value user_role with
  | Ok role_enum =>
      let permissions := dict_get _load_role_permissions role_enum [] in
      existsb (String.eqb required_permission) permissions
  | Raise _ => false
  end.

(** ** [encrypt_sensitive_data] and [decrypt_sensitive_data]

    [try: body / except Exception as e: log; raise]: the handler raises
    again what it caught. *)
Definition try_except_raise_again {A} (body : result A) : result A :=
  match body with
  | Ok a => Ok a
  | Raise e => Raise e
  end.

(** [encrypt] is [cipher_suite.encrypt] on the bytes of a text, followed
    by the base64 encoding of the token. *)
Definition encrypt_sensitive_data (encrypt : string -> string) (data : option string)
  : result string :=
  try_except_raise_again (
    data <- receiver data ;;
    Ok (encrypt data)).

(** [decrypt] is the base64 decoding followed by [cipher_suite.decrypt]
    and the decoding of the bytes: each raises on what it does not
    accept. *)
Definition decrypt_sensitive_data (decrypt : string -> result string)
    (encrypted_data : option string) : result string :=
  try_except_raise_again (
    encrypted_data <- receiver encrypted_data ;;
    decrypt encrypted_data).

(** ** [get_audit_log] *)

Inductive AuditAction :=
| LOGIN | LOGOUT | CREATE | READ | UPDATE | DELETE
| EXPORT | IMPORT | BACKUP | RESTORE | CONFIG_CHANGE.

(** [AuditAction(value)]. *)
Definition AuditAction_of_value (value : string) : result AuditAction :=
  if String.eqb value "login" then Ok LOGIN
  else if String.eqb value "logout" then Ok LOGOUT
  else if String.eqb value "create" then Ok CREATE
  else if String.eqb value "read" then Ok READ
  else if String.eqb value "update" then Ok UPDATE
  else if String.eqb value "delete" then Ok DELETE
  else if String.eqb value "export" then Ok EXPORT
  else if String.eqb value "import" then Ok IMPORT
  else if String.eqb value "backup" then Ok BACKUP
  else if String.eqb value "restore" then Ok RESTORE
  else if String.eqb value "config_change" then Ok CONFIG_CHANGE
  else Raise ValueError.

(** One row of [SELECT * FROM audit_log].  [log_timestamp] is the column
    as [datetime.fromisoformat] sees it; [success] is the integer SQLite
    keeps for a boolean. *)
Record audit_log_row := {
  log_id : Z;
  log_timestamp : timestamp;
  log_user_id : option Z;
  log_username : string;
  log_action : string;
  log_resource_type : option string;
  log_resource_id : option string;
  log_details : option string;
  log_ip_address : option string;
  log_user_agent : option string;
  log_success : Z;
  log_error_message : option string;
  log_session_id : option string
}.

(** [Json] is what [json.loads] returns. *)
Record AuditLogEntry (Json : Type) := {
  entry_timestamp : Z;
  entry_user_id : option Z;
  entry_username : string;
  entry_action : AuditAction;
  entry_resource_type : option string;
  entry_resource_id : option string;
  entry_details : Json;
  entry_ip_address : option string;
  entry_user_agent : option string;
  entry_success : bool;
  entry_error_message : option string
}.
Arguments entry_timestamp {Json} a.
Arguments entry_user_id {Json} a.
Arguments entry_username {Json} a.
Arguments entry_action {Json} a.
Arguments entry_resource_type {Json} a.
Arguments entry_resource_id {Json} a.
Arguments entry_details {Json} a.
Arguments entry_ip_address {Json} a.
Arguments entry_user_agent {Json} a.
Arguments entry_success {Json} a.
Arguments entry_error_message {Json} a.

(** The entry of one row.  [json_loads] is [json.loads] and [empty_dict]
    the dictionary without key. *)
Definition entry_of_row {Json : Type} (json_loads : string -> result Json)
    (empty_dict : Json) (row : audit_log_row) : result (AuditLogEntry Json) :=
  timestamp <- match log_timestamp row with
               | NoDate => Raise TypeError
               | BadDate => Raise ValueError
               | Parsed instant => Ok instant
               end ;;
  action <- AuditAction_of_value (log_action row) ;;
  details <- match log_details row with
             | Some text => if String.eqb text "" then Ok empty_dict else json_loads text
             | None => Ok empty_dict
             end ;;
  Ok {|
    entry_timestamp := timestamp;
    entry_user_id := log_user_id row;
    entry_username := log_username row;
    entry_action := action;
    entry_resource_type := log_resource_type row;
    entry_resource_id := log_resource_id row;
    entry_details := details;
    entry_ip_address := log_ip_address row;
    entry_user_agent := log_user_agent row;
    entry_success := negb (log_success row =? 0)%Z;
    entry_error_message := log_error_message row
  |}.

(** The body of the [try]: [fetched] is what the query gave for the
    filters the caller passed. *)
Definition get_audit_log_body {Json : Type} (json_loads : string -> result Json)
    (empty_dict : Json) (fetched : result (list audit_log_row))
  : result (list (AuditLogEntry Json)) :=
  rows <- fetched ;;
  AdvancedAnalytics.for_each (entry_of_row json_loads empty_dict) rows.

Definition get_audit_log {Json : Type} (json_loads : string -> result Json)
    (empty_dict : Json) (fetched : result (list audit_log_row))
  : list (AuditLogEntry Json) :=
  try_except (get_audit_log_body json_loads empty_dict fetched) [].

End SecurityManager.

(* ================================================================== *)
(** * Vocabulary of the statements                                     *)
(* ================================================================== *)

(** The feature row [data] with another bounced count: all other features
    held fixed. *)
Definition with_bounced_count (data : SmartAutomation.feature_row) (bounced : Z)
  : SmartAutomation.feature_row :=
  {|
    SmartAutomation.total_cheques := SmartAutomation.total_cheques data;
    SmartAutomation.total_amount := SmartAutomation.total_amount data;
    SmartAutomation.avg_amount := SmartAutomation.avg_amount data;
    SmartAutomation.bounced_count := Some bounced;
    SmartAutomation.avg_processing_time := SmartAutomation.avg_processing_time data;
    SmartAutomation.active_months := SmartAutomation.active_months data;
    SmartAutomation.last_cheque_date := SmartAutomation.last_cheque_date data;
    SmartAutomation.first_cheque_date := SmartAutomation.first_cheque_date data;
    SmartAutomation.banks_used := SmartAutomation.banks_used data
  |}.

(** The four buckets as the specification words them: low under 40,
    medium under 60, high under 80, critical from 80 on. *)
Definition risk_level_by_thresholds (s : Q) : AdvancedAnalytics.RiskLevel :=
  if Qlt_le_dec s 40 then AdvancedAnalytics.LOW
  else if Qlt_le_dec s 60 then AdvancedAnalytics.MEDIUM
  else if Qlt_le_dec s 80 then AdvancedAnalytics.HIGH
  else AdvancedAnalytics.CRITICAL.

(** The six statuses of the bank side. *)
Definition bank_statuses : list string :=
  ["cleared"; "bounced"; "returned"; "pending"; "processing"; "cancelled"]%string.

(** A dictionary with no key, and a database with no row. *)
Definition blank_dict : DbManager.cheque_dict :=
  {|
    DbManager.d_id := Absent;
    DbManager.d_amount := Absent;
    DbManager.d_currency := Absent;
    DbManager.d_issue_date := Absent;
    DbManager.d_due_date := Absent;
    DbManager.d_client_id := Absent;
    DbManager.d_branch_id := Absent;
    DbManager.d_status := Absent;
    DbManager.d_cheque_number := Absent;
    DbManager.d_scan_path := Absent;
    DbManager.d_depositor_name := Absent;
    DbManager.d_invoice_number := Absent;
    DbManager.d_invoice_date := Absent;
    DbManager.d_notes := Absent;
    DbManager.d_created_at := Absent;
    DbManager.d_updated_at := Absent;
    DbManager.d_created_by := Absent
  |}.

Definition empty_database : DbManager.database :=
  {|
    DbManager.banks := [];
    DbManager.branches := [];
    DbManager.clients := [];
    DbManager.cheques := [];
    DbManager.users := [];
    DbManager.notifications := [];
    DbManager.cheques_sequence := 0;
    DbManager.notifications_sequence := 0
  |}.

(** The cheque data [cheque_data] under another branch. *)
Definition with_branch_id (cheque_data : DbManager.cheque_dict) (branch : field Z)
  : DbManager.cheque_dict :=
  {|
    DbManager.d_id := DbManager.d_id cheque_data;
    DbManager.d_amount := DbManager.d_amount cheque_data;
    DbManager.d_currency := DbManager.d_currency cheque_data;
    DbManager.d_issue_date := DbManager.d_issue_date cheque_data;
    DbManager.d_due_date := DbManager.d_due_date cheque_data;
    DbManager.d_client_id := DbManager.d_client_id cheque_data;
    DbManager.d_branch_id := branch;
    DbManager.d_status := DbManager.d_status cheque_data;
    DbManager.d_cheque_number := DbManager.d_cheque_number cheque_data;
    DbManager.d_scan_path := DbManager.d_scan_path cheque_data;
    DbManager.d_depositor_name := DbManager.d_depositor_name cheque_data;
    DbManager.d_invoice_number := DbManager.d_invoice_number cheque_data;
    DbManager.d_invoice_date := DbManager.d_invoice_date cheque_data;
    DbManager.d_notes := DbManager.d_notes cheque_data;
    DbManager.d_created_at := DbManager.d_created_at cheque_data;
    DbManager.d_updated_at := DbManager.d_updated_at cheque_data;
    DbManager.d_created_by := DbManager.d_created_by cheque_data
  |}.

(** The cheque of the specification's example, number A1 of 1000 for
    client 5 at branch 2, with the two dates the table requires. *)
Definition cheque_A1 : DbManager.cheque_dict :=
  {|
    DbManager.d_id := Absent;
    DbManager.d_amount := Val (Number 1000);
    DbManager.d_currency := Absent;
    DbManager.d_issue_date := Val "2024-01-10"%string;
    DbManager.d_due_date := Val "2024-02-10"%string;
    DbManager.d_client_id := Val 5%Z;
    DbManager.d_branch_id := Val 2%Z;
    DbManager.d_status := Absent;
    DbManager.d_cheque_number := Val "A1"%string;
    DbManager.d_scan_path := Absent;
    DbManager.d_depositor_name := Absent;
    DbManager.d_invoice_number := Absent;
    DbManager.d_invoice_date := Absent;
    DbManager.d_notes := Absent;
    DbManager.d_created_at := Absent;
    DbManager.d_updated_at := Absent;
    DbManager.d_created_by := Absent
  |}.

Definition is_val {A} (f : field A) : bool :=
  match f with
  | Val _ => true
  | _ => false
  end.

(** A float that is a number, and an integer, if any, that fits in the
    64 bits of an SQLite integer. *)
Definition is_number (f : field pyfloat) : bool :=
  match f with
  | Val (Number _) => true
  | _ => false
  end.

Definition fits (f : field Z) : bool :=
  match f with
  | Val z => fits_int64 z
  | _ => true
  end.

(** A row of the [cheques] table holds SQLite integers: its client and
    its branch, if any, fit in 64 bits. *)
Definition holds_sqlite_integers (r : DbManager.cheque) : bool :=
  match DbManager.cheque_client_id r with
  | Some z => fits_int64 z
  | None => true
  end
  && match DbManager.cheque_branch_id r with
     | Some z => fits_int64 z
     | None => true
     end.

(** Cheque data that [sqlite3] binds and that meets the [NOT NULL] and
    [CHECK] constraints of the [cheques] table and names a branch: the
    amount is present and a number (not [None], not NaN), dates, number
    and branch are present and not [None], the three integers fit in 64
    bits, the status is missing, [None] or one of the six. *)
Definition meets_column_constraints (cheque_data : DbManager.cheque_dict) : bool :=
  is_number (DbManager.d_amount cheque_data)
  && is_val (DbManager.d_issue_date cheque_data)
  && is_val (DbManager.d_due_date cheque_data)
  && is_val (DbManager.d_cheque_number cheque_data)
  && is_val (DbManager.d_branch_id cheque_data)
  && fits (DbManager.d_client_id cheque_data)
  && fits (DbManager.d_branch_id cheque_data)
  && fits (DbManager.d_created_by cheque_data)
  && DbManager.status_check
       (get_default (DbManager.d_status cheque_data) "en_attente"%string).

(** A row holding the number and the branch of [cheque_data], compared as
    Python compares the two values. *)
Definition same_number_and_branch (cheque_data : DbManager.cheque_dict)
    (r : DbManager.cheque) : Prop :=
  get (DbManager.d_cheque_number cheque_data) = Some (DbManager.cheque_number r)
  /\ get (DbManager.d_branch_id cheque_data) = DbManager.cheque_branch_id r.

(** The uniqueness error of the [cheques] table. *)
Definition duplicate_cheque_error : exn :=
  IntegrityError (UniqueConstraint ["cheque_number"; "branch_id"]%string).

Definition is_ok {A} (r : result A) : bool :=
  match r with
  | Ok _ => true
  | Raise _ => false
  end.

(** The statuses [_create_status_notification] has a message for. *)
Definition notified_statuses : list string :=
  ["encaisse"; "rejete"; "impaye"; "annule"]%string.

(** A notification row that records a status change of [cheque_id] made
    by [user_id]. *)
Definition records_status_change (cheque_id user_id : Z) (n : DbManager.notification)
  : Prop :=
  DbManager.notification_type n = "status_change"%string
  /\ DbManager.notification_cheque_id n = Some cheque_id
  /\ DbManager.notification_user_id n = Some user_id.

(** The database once cheque A1 has been recorded, as row 1. *)
Definition database_with_A1 : DbManager.database :=
  snd (DbManager.add_cheque "2024-01-10 09:00:00" cheque_A1 empty_database).

(** Every column of a row but [active] kept, per table. *)
Definition bank_columns_kept (r r' : DbManager.bank) : Prop :=
  DbManager.bank_id r' = DbManager.bank_id r
  /\ DbManager.bank_name r' = DbManager.bank_name r
  /\ DbManager.bank_code r' = DbManager.bank_code r
  /\ DbManager.bank_created_at r' = DbManager.bank_created_at r.

Definition branch_columns_kept (r r' : DbManager.branch) : Prop :=
  DbManager.branch_id r' = DbManager.branch_id r
  /\ DbManager.branch_bank_id r' = DbManager.branch_bank_id r
  /\ DbManager.branch_name r' = DbManager.branch_name r
  /\ DbManager.branch_address r' = DbManager.branch_address r
  /\ DbManager.branch_postal_code r' = DbManager.branch_postal_code r
  /\ DbManager.branch_phone r' = DbManager.branch_phone r
  /\ DbManager.branch_email r' = DbManager.branch_email r
  /\ DbManager.branch_created_at r' = DbManager.branch_created_at r.

Definition user_columns_kept (r r' : DbManager.user) : Prop :=
  DbManager.user_id r' = DbManager.user_id r
  /\ DbManager.user_username r' = DbManager.user_username r
  /\ DbManager.user_password_hash r' = DbManager.user_password_hash r
  /\ DbManager.user_role r' = DbManager.user_role r
  /\ DbManager.user_full_name r' = DbManager.user_full_name r
  /\ DbManager.user_email r' = DbManager.user_email r
  /\ DbManager.user_created_at r' = DbManager.user_created_at r
  /\ DbManager.user_last_login r' = DbManager.user_last_login r.

(** [after] is [before] with the rows of key [id] soft-deleted: row by row,
    in the same order, a row of key [id] has its flag false and its other
    columns kept, and any other row is the same row. *)
Definition soft_deleted {R} (key : R -> Z) (active : R -> option bool)
    (columns_kept : R -> R -> Prop) (id : Z) (before after : list R) : Prop :=
  Forall2 (fun r r' =>
             if (key r =? id)%Z
             then active r' = Some false /\ columns_kept r r'
             else r' = r)
          before after.

(** The sub-criteria a pair of cheques satisfies: the three matches, and
    the grade of the fourth criterion (date proximity: 2 within a day, 1
    within seven days; branch: 1 when it matches; 0 otherwise). *)
Record criteria := {
  number_matches : bool;
  amount_matches : bool;
  client_matches : bool;
  fourth_grade : nat
}.

(** A pair satisfies at least what another satisfies, each criterion at an
    equal or higher grade. *)
Definition criteria_le (c c' : criteria) : Prop :=
  Bool.le (number_matches c) (number_matches c')
  /\ Bool.le (amount_matches c) (amount_matches c')
  /\ Bool.le (client_matches c) (client_matches c')
  /\ (fourth_grade c <= fourth_grade c')%nat.

(** The sub-criteria as the pairwise scorer tests them. *)
Definition pair_criteria (row : AdvancedAnalytics.pair_row) : criteria :=
  {|
    number_matches :=
      String.eqb (AdvancedAnalytics.number1 row) (AdvancedAnalytics.number2 row);
    amount_matches :=
      Qeq_bool (AdvancedAnalytics.amount1 row) (AdvancedAnalytics.amount2 row);
    client_matches :=
      eq_opt Z.eqb (AdvancedAnalytics.client1 row) (AdvancedAnalytics.client2 row);
    fourth_grade :=
      match AdvancedAnalytics.date1 row, AdvancedAnalytics.date2 row with
      | Parsed d1, Parsed d2 =>
          if (Z.abs (days_between d1 d2) <=? 1)%Z then 2%nat
          else if (Z.abs (days_between d1 d2) <=? 7)%Z then 1%nat
          else 0%nat
      | _, _ => 0%nat
      end
  |}.

(** The sub-criteria as the candidate-versus-pool scorer tests them, on two
    dictionaries whose amounts are numbers. *)
Definition candidate_criteria (cheque1 cheque2 : DbManager.cheque_dict) : criteria :=
  {|
    number_matches :=
      eq_opt String.eqb (get (DbManager.d_cheque_number cheque1))
        (get (DbManager.d_cheque_number cheque2));
    amount_matches :=
      match get_default (DbManager.d_amount cheque1) (Number 0),
            get_default (DbManager.d_amount cheque2) (Number 0) with
      | Some amount1, Some amount2 => within amount1 amount2 0.01
      | _, _ => false
      end;
    client_matches :=
      eq_opt Z.eqb (get (DbManager.d_client_id cheque1)) (get (DbManager.d_client_id cheque2));
    fourth_grade :=
      if eq_opt Z.eqb (get (DbManager.d_branch_id cheque1))
           (get (DbManager.d_branch_id cheque2))
      then 1%nat else 0%nat
  |}.

Definition indicator (b : bool) : Q := if b then 1 else 0.

(** The pairwise weighting: number 0.5, amount 0.3, client 0.2, date
    proximity 0.2 within a day and 0.1 within seven, capped at 1. *)
Definition pairwise_weighted_sum (c : criteria) : Q :=
  Qmin (0.5 * indicator (number_matches c)
        + 0.3 * indicator (amount_matches c)
        + 0.2 * indicator (client_matches c)
        + match fourth_grade c with
          | 0%nat => 0
          | 1%nat => 0.1
          | _ => 0.2
          end)
       1.

(** The candidate-versus-pool weighting: number 0.5, amount 0.3, client
    0.15, branch 0.05, capped at 1. *)
Definition candidate_weighted_sum (c : criteria) : Q :=
  Qmin (0.5 * indicator (number_matches c)
        + 0.3 * indicator (amount_matches c)
        + 0.15 * indicator (client_matches c)
        + 0.05 * indicator (Nat.leb 1 (fourth_grade c)))
       1.

(** Two cheques as both scorers receive them: the columns the candidate
    query and the self-join select. *)
Record cheque_view := {
  view_id : Z;
  view_number : string;
  view_amount : Q;
  view_client : option Z;
  view_branch : option Z;
  view_created_at : timestamp
}.

(** The row of the self-join for two cheques. *)
Definition pair_row_of (a b : cheque_view) : AdvancedAnalytics.pair_row :=
  {|
    AdvancedAnalytics.id1 := view_id a;
    AdvancedAnalytics.number1 := view_number a;
    AdvancedAnalytics.amount1 := view_amount a;
    AdvancedAnalytics.client1 := view_client a;
    AdvancedAnalytics.date1 := view_created_at a;
    AdvancedAnalytics.id2 := view_id b;
    AdvancedAnalytics.number2 := view_number b;
    AdvancedAnalytics.amount2 := view_amount b;
    AdvancedAnalytics.client2 := view_client b;
    AdvancedAnalytics.date2 := view_created_at b;
    AdvancedAnalytics.client_name1 := None;
    AdvancedAnalytics.client_name2 := None
  |}.

(** The dictionary of a cheque, as [detect_advanced_duplicates] builds it
    from a row. *)
Definition dict_of_view (a : cheque_view) : DbManager.cheque_dict :=
  SmartAutomation.dict_of_match
    {|
      SmartAutomation.match_id := view_id a;
      SmartAutomation.match_cheque_number := view_number a;
      SmartAutomation.match_amount := view_amount a;
      SmartAutomation.match_client_id := view_client a;
      SmartAutomation.match_created_at := None;
      SmartAutomation.match_branch_id := view_branch a
    |}.

(* ================================================================== *)
(** * ui/components/cheque_list.py                                     *)
(* ================================================================== *)

Module ChequeList.

Import DbManager.
Local Open Scope Z_scope.

(** A row of [get_cheques] as the dictionary the list keeps: every column
    of [cheques] is a key, a [NULL] being [None]. *)
Definition dict_of_cheque (r : cheque) : cheque_dict :=
  {|
    d_id := Val (cheque_id r);
    d_amount := Val (Number (cheque_amount r));
    d_currency := SmartAutomation.of_option (cheque_currency r);
    d_issue_date := Val (cheque_issue_date r);
    d_due_date := Val (cheque_due_date r);
    d_client_id := SmartAutomation.of_option (cheque_client_id r);
    d_branch_id := SmartAutomation.of_option (cheque_branch_id r);
    d_status := SmartAutomation.of_option (cheque_status r);
    d_cheque_number := Val (cheque_number r);
    d_scan_path := SmartAutomation.of_option (cheque_scan_path r);
    d_depositor_name := SmartAutomation.of_option (cheque_depositor_name r);
    d_invoice_number := SmartAutomation.of_option (cheque_invoice_number r);
    d_invoice_date := SmartAutomation.of_option (cheque_invoice_date r);
    d_notes := SmartAutomation.of_option (cheque_notes r);
    d_created_at := SmartAutomation.of_option (cheque_created_at r);
    d_updated_at := SmartAutomation.of_option (cheque_updated_at r);
    d_created_by := SmartAutomation.of_option (cheque_created_by r)
  |}.

(** The copy [duplicate_selected] submits: the selected dictionary without
    its id, the number suffixed, the status reset, the creator replaced. *)
Definition copy_of (cheque : cheque_dict) (number : string) (current_user_id : Z)
  : cheque_dict :=
  {|
    d_id := Absent;
    d_amount := d_amount cheque;
    d_currency := d_currency cheque;
    d_issue_date := d_issue_date cheque;
    d_due_date := d_due_date cheque;
    d_client_id := d_client_id cheque;
    d_branch_id := d_branch_id cheque;
    d_status := Val "en_attente"%string;
    d_cheque_number := Val (number ++ "_COPY")%string;
    d_scan_path := d_scan_path cheque;
    d_depositor_name := d_depositor_name cheque;
    d_invoice_number := d_invoice_number cheque;
    d_invoice_date := d_invoice_date cheque;
    d_notes := d_notes cheque;
    d_created_at := d_created_at cheque;
    d_updated_at := d_updated_at cheque;
    d_created_by := Val current_user_id
  |}.

(** [duplicate_selected]: [selection] is the selected row ([None] when
    nothing is selected), [confirmed] the answer to the confirmation box.
    The first component is what [add_cheque] returned or raised, which the
    screen reports in a message box, [None] when it was not called. *)
Definition duplicate_selected (now : string) (current_user_id : Z)
    (selection : option cheque) (confirmed : bool) (db : database)
  : option (result Z) * database :=
  match selection with
  | None => (None, db)
  | Some r =>
      if confirmed then
        let outcome :=
          add_cheque now (copy_of (dict_of_cheque r) (cheque_number r) current_user_id) db in
        (Some (fst outcome), snd outcome)
      else (None, db)
  end.

(** [delete_selected]: [DELETE FROM cheques WHERE id = ?]. *)
Definition delete_selected (selection : option cheque) (confirmed : bool) (db : database)
  : database :=
  match selection with
  | None => db
  | Some r =>
      if confirmed then
        {|
          banks := banks db;
          branches := branches db;
          clients := clients db;
          cheques := List.filter (fun r' => negb (cheque_id r' =? cheque_id r)) (cheques db);
          users := users db;
          notifications := notifications db;
          cheques_sequence := cheques_sequence db;
          notifications_sequence := notifications_sequence db
        |}
      else db
  end.

End ChequeList.

(* ================================================================== *)
(** * database/db_manager.py: banks, branches and settings             *)
(* ================================================================== *)

Module Banks.

Import DbManager.
Local Open Scope Z_scope.
Local Open Scope py_scope.

(** [ORDER BY]: the rows sorted by [le], rows that compare equal staying
    in the order of the table. *)
Fixpoint insert_sorted {A} (le : A -> A -> bool) (x : A) (l : list A) : list A :=
  match l with
  | [] => [x]
  | y :: l' => if le x y then x :: l else y :: insert_sorted le x l'
  end.

Definition order_by {A} (le : A -> A -> bool) (l : list A) : list A :=
  fold_right (insert_sorted le) [] l.

(** [column = TRUE] on a boolean column that may be [NULL]. *)
Definition is_true (b : option bool) : bool :=
  match b with
  | Some true => true
  | _ => false
  end.

(** [get_banks]: [SELECT * FROM banks [WHERE active = TRUE] ORDER BY name].
    Text is ordered byte by byte. *)
Definition get_banks (active_only : bool) (db : database) : list bank :=
  order_by (fun a b => String.leb (bank_name a) (bank_name b))
    (if active_only
     then List.filter (fun r => is_true (bank_active r)) (banks db)
     else banks db).

(** [add_bank]: [INSERT INTO banks (name, code)].  The name is [UNIQUE].
    No row of [banks] is ever removed; the key is drawn above the largest
    the table holds, the keys that the ignored inserts of
    [_insert_default_data] have consumed not being counted. *)
Definition add_bank (now : string) (name : string) (code : option string) (db : database)
  : result Z * database :=
  transaction db (
    if existsb (fun r => String.eqb (bank_name r) name) (banks db) then
      Raise (IntegrityError (UniqueConstraint ["name"]%string))
    else
      let rowid := next_rowid 0 (map bank_id (banks db)) in
      let row := {|
        bank_id := rowid;
        bank_name := name;
        bank_code := code;
        bank_created_at := Some now;
        bank_active := Some true
      |} in
      Ok (rowid, {|
        banks := banks db ++ [row];
        branches := branches db;
        clients := clients db;
        cheques := cheques db;
        users := users db;
        notifications := notifications db;
        cheques_sequence := cheques_sequence db;
        notifications_sequence := notifications_sequence db
      |})).

(** [get_branches]: the branches joined with their bank, [b.*] and
    [bank_name], optionally those that are active and those of one bank,
    ordered by bank name and then by branch name.  A [bank_id] of [None]
    or 0 does not filter. *)
Definition joined_le (a b : branch * string) : bool :=
  match String.compare (snd a) (snd b) with
  | Lt => true
  | Gt => false
  | Eq => String.leb (branch_name (fst a)) (branch_name (fst b))
  end.

Definition get_branches (bank_id : option Z) (active_only : bool) (db : database)
  : list (branch * string) :=
  let joined :=
    flat_map (fun b =>
                map (fun bk => (b, bank_name bk))
                  (List.filter (fun bk => branch_bank_id b =? DbManager.bank_id bk)
                     (banks db)))
             (branches db) in
  let joined :=
    if active_only
    then List.filter (fun row => is_true (branch_active (fst row))) joined
    else joined in
  let joined :=
    match truthy_id bank_id with
    | Some id => List.filter (fun row => branch_bank_id (fst row) =? id) joined
    | None => joined
    end in
  order_by joined_le joined.

(** [add_branch]: [INSERT INTO branches (bank_id, name, address,
    postal_code, phone, email)].  Nothing checks that the bank exists; no
    row of [branches] is ever removed. *)
Definition add_branch (now : string) (bank_id : Z) (name : string)
    (address postal_code phone email : option string) (db : database)
  : result Z * database :=
  transaction db (
    let rowid := next_rowid 0 (map branch_id (branches db)) in
    let row := {|
      branch_id := rowid;
      branch_bank_id := bank_id;
      branch_name := name;
      branch_address := address;
      branch_postal_code := postal_code;
      branch_phone := phone;
      branch_email := email;
      branch_created_at := Some now;
      branch_active := Some true
    |} in
    Ok (rowid, {|
      banks := banks db;
      branches := branches db ++ [row];
      clients := clients db;
      cheques := cheques db;
      users := users db;
      notifications := notifications db;
      cheques_sequence := cheques_sequence db;
      notifications_sequence := notifications_sequence db
    |})).

End Banks.

Module SettingsStore.

Import DbManager.
Local Open Scope Z_scope.

(** The [settings] table: [key] is [UNIQUE], [value] is [NOT NULL]. *)
Record setting := {
  setting_id : Z;
  setting_key : string;
  setting_value : string;
  setting_description : option string;
  setting_updated_at : option string
}.

(** The rows and the [AUTOINCREMENT] counter of the table. *)
Record settings_table := {
  settings : list setting;
  settings_sequence : Z
}.

(** [get_setting]: the value of the first row with the key, or the
    default. *)
Definition get_setting (key : string) (default_value : option string) (t : settings_table)
  : option string :=
  match List.find (fun r => String.eqb (setting_key r) key) (settings t) with
  | Some r => Some (setting_value r)
  | None => default_value
  end.

(** [set_setting]: [INSERT OR REPLACE INTO settings (key, value,
    updated_at)].  The rows that hold the key are deleted and a new row is
    inserted, with a new id and no description. *)
Definition set_setting (now : string) (key value : string) (t : settings_table)
  : settings_table :=
  let kept := List.filter (fun r => negb (String.eqb (setting_key r) key)) (settings t) in
  let rowid := next_rowid (settings_sequence t) (map setting_id (settings t)) in
  {|
    settings := kept ++ [{|
      setting_id := rowid;
      setting_key := key;
      setting_value := value;
      setting_description := None;
      setting_updated_at := Some now
    |}];
    settings_sequence := rowid
  |}.

(** The loop of [_insert_default_data] over the default settings:
    [INSERT OR IGNORE INTO settings (key, value, description)].  The key
    of the new row is drawn before the conflict is seen: an insert that is
    ignored writes no row and still advances the counter. *)
Definition insert_or_ignore_setting (now : string) (t : settings_table)
    (default : string * string * string) : settings_table :=
  let '(key, value, description) := default in
  let rowid := next_rowid (settings_sequence t) (map setting_id (settings t)) in
  if existsb (fun r => String.eqb (setting_key r) key) (settings t) then
    {| settings := settings t; settings_sequence := rowid |}
  else
    {|
      settings := settings t ++ [{|
        setting_id := rowid;
        setting_key := key;
        setting_value := value;
        setting_description := Some description;
        setting_updated_at := Some now
      |}];
      settings_sequence := rowid
    |}.

Definition default_settings : list (string * string * string) :=
  [ ("company_name", "Votre Entreprise", "Nom de l'entreprise");
    ("notification_days", "3", "Nombre de jours avant échéance pour notification");
    ("default_currency", "MAD", "Devise par défaut");
    ("backup_enabled", "true", "Sauvegarde automatique activée");
    ("export_format", "xlsx", "Format d'export par défaut") ]%string.

Definition insert_default_settings (now : string) (t : settings_table) : settings_table :=
  fold_left (insert_or_ignore_setting now) default_settings t.

End SettingsStore.

(* ================================================================== *)
(** * security/security_manager.py: input, sessions and lockout        *)
(* ================================================================== *)

Module Sanitizer.

(** A Python string as the list of its code points. *)
Definition text := list N.

(** [str.isspace()] of one character: the white space of Unicode. *)
Definition isspace (c : N) : bool :=
  ((9 <=? c) && (c <=? 13) || (28 <=? c) && (c <=? 32) || (c =? 133) || (c =? 160)
   || (c =? 5760) || (8192 <=? c) && (c <=? 8202) || (c =? 8232) || (c =? 8233)
   || (c =? 8239) || (c =? 8287) || (c =? 12288))%N.

(** [<], [>], double quote, quote, [&], [;], the two parentheses, [|] and
    the backquote. *)
Definition dangerous_chars : list N := [60; 62; 34; 39; 38; 59; 40; 41; 124; 96]%N.

(** [s.replace(char, '')] for a single character. *)
Definition remove_char (s : text) (char : N) : text :=
  List.filter (fun c => negb (c =? char)%N) s.

(** [s.lstrip()], [s.rstrip()] and [s.strip()]. *)
Fixpoint lstrip (s : text) : text :=
  match s with
  | [] => []
  | c :: s' => if isspace c then lstrip s' else s
  end.

Fixpoint rstrip (s : text) : text :=
  match s with
  | [] => []
  | c :: s' =>
      match rstrip s' with
      | [] => if isspace c then [] else [c]
      | kept => c :: kept
      end
  end.

Definition strip (s : text) : text := rstrip (lstrip s).

Definition sanitize_input (input_data : text) : text :=
  match input_data with
  | [] => []
  | _ =>
      let sanitized := fold_left remove_char dangerous_chars input_data in
      let max_length := 1000%nat in
      let sanitized :=
        if (max_length <? List.length sanitized)%nat
        then firstn max_length sanitized
        else sanitized in
      strip sanitized
  end.

End Sanitizer.

Module Sessions.

Import DbManager.
Local Open Scope Z_scope.

(** The [user_sessions] table.  An instant is the number of microseconds
    it lies after a fixed origin; [expires_at] holds the ISO text of an
    instant, which orders as the instant does and reads back as it. *)
Record session := {
  session_id : Z;
  session_user_id : Z;
  session_token : string;
  session_created_at : option string;
  session_expires_at : Z;
  session_is_active : option bool;
  session_ip_address : option string;
  session_user_agent : option string
}.

Record sessions_table := {
  sessions : list session;
  sessions_sequence : Z
}.

(** [create_user_session]: [session_timeout] is in seconds, [now] is
    [datetime.now()] and [now_text] what [CURRENT_TIMESTAMP] gives.  The
    token is [UNIQUE]: the insert of a token the table holds raises, and
    the handler returns false. *)
Definition create_user_session (now_text : string) (now : Z) (session_timeout : Z)
    (user_id : Z) (session_token : string) (t : sessions_table) : bool * sessions_table :=
  let expires_at := now + session_timeout * 1000000 in
  if existsb (fun s => String.eqb (Sessions.session_token s) session_token) (sessions t)
  then (false, t)
  else
    let rowid := next_rowid (sessions_sequence t) (map session_id (sessions t)) in
    (true, {|
       sessions := sessions t ++ [{|
         session_id := rowid;
         session_user_id := user_id;
         session_token := session_token;
         session_created_at := Some now_text;
         session_expires_at := expires_at;
         session_is_active := Some true;
         session_ip_address := None;
         session_user_agent := None
       |}];
       sessions_sequence := rowid
     |}).

(** What [validate_session] returns for a valid session. *)
Record session_info := {
  info_user_id : Z;
  info_username : string;
  info_role : string;
  info_expires_at : Z
}.

Definition deactivate_session (s : session) : session :=
  {|
    session_id := session_id s;
    session_user_id := session_user_id s;
    session_token := session_token s;
    session_created_at := session_created_at s;
    session_expires_at := session_expires_at s;
    session_is_active := Some false;
    session_ip_address := session_ip_address s;
    session_user_agent := session_user_agent s
  |}.

(** [UPDATE user_sessions SET is_active = FALSE WHERE condition]. *)
Definition deactivate_where (condition : session -> bool) (t : sessions_table)
  : sessions_table :=
  {|
    sessions := map (fun s => if condition s then deactivate_session s else s) (sessions t);
    sessions_sequence := sessions_sequence t
  |}.

(** [validate_session]: the first row of the join of the active sessions
    holding the token with their user; a session past its expiry is
    deactivated and refused. *)
Definition validate_session (now : Z) (session_token : string) (users : list user)
    (t : sessions_table) : option session_info * sessions_table :=
  let rows :=
    flat_map (fun s =>
                map (fun u => (s, u))
                  (List.filter (fun u => session_user_id s =? user_id u) users))
             (List.filter (fun s => String.eqb (Sessions.session_token s) session_token
                                    && Banks.is_true (session_is_active s))
                (sessions t)) in
  match rows with
  | [] => (None, t)
  | (s, u) :: _ =>
      let expires_at := session_expires_at s in
      if expires_at <? now
      then (None,
            deactivate_where
              (fun s' => String.eqb (Sessions.session_token s') session_token) t)
      else (Some {| info_user_id := session_user_id s;
                    info_username := user_username u;
                    info_role := user_role u;
                    info_expires_at := expires_at |},
            t)
  end.

(** [invalidate_session]. *)
Definition invalidate_session (session_token : string) (t : sessions_table)
  : bool * sessions_table :=
  (0 <? Z.of_nat (List.length
                    (List.filter (fun s => String.eqb (Sessions.session_token s) session_token)
                       (sessions t))),
   deactivate_where (fun s => String.eqb (Sessions.session_token s) session_token) t).

(** [cleanup_expired_sessions]. *)
Definition cleanup_expired_sessions (now : Z) (t : sessions_table) : sessions_table :=
  deactivate_where
    (fun s => (session_expires_at s <? now) && Banks.is_true (session_is_active s)) t.

End Sessions.

Module AuditLog.

Local Open Scope Z_scope.

(** The columns of [audit_log] the lockout reads.  [timestamp] is the text
    [CURRENT_TIMESTAMP] gave when the row was inserted. *)
Record audit_row := {
  audit_id : Z;
  audit_timestamp : string;
  audit_username : string;
  audit_action : string;
  audit_success : bool
}.

(** [check_login_attempts]: [lockout_start] is the text
    [(datetime.now() - timedelta(seconds=lockout_duration)).isoformat()];
    the [timestamp] column is compared with it as text, byte by byte. *)
Definition check_login_attempts (lockout_start : string) (max_login_attempts : Z)
    (username : string) (audit_log : list audit_row) : bool * Z :=
  let failed_attempts :=
    Z.of_nat (List.length
                (List.filter
                   (fun r => String.eqb (audit_username r) username
                             && String.eqb (audit_action r) "login"
                             && negb (audit_success r)
                             && String.ltb lockout_start (audit_timestamp r))
                   audit_log)) in
  let is_locked := max_login_attempts <=? failed_attempts in
  let remaining_attempts := Z.max 0 (max_login_attempts - failed_attempts) in
  (is_locked, remaining_attempts).

End AuditLog.

(* ================================================================== *)
(** * utils/config.py                                                  *)
(* ================================================================== *)

Module Config.

Local Open Scope Z_scope.

(** A value of the configuration: what [json.load] returns and
    [json.dump] takes.  A dictionary is the list of its items in insertion
    order, its keys being strings as those of a JSON object are. *)
#[local] Unset Elimination Schemes.
Inductive value :=
| VNone
| VBool (b : bool)
| VInt (n : Z)
| VFloat (x : Q)
| VStr (s : string)
| VList (l : list value)
| VDict (items : list (string * value)).
#[local] Set Elimination Schemes.

(** [k in d] and [d[k]] together: the value bound to [k], if any. *)
Fixpoint dict_get (k : string) (items : list (string * value)) : option value :=
  match items with
  | [] => None
  | (k', v) :: rest => if String.eqb k' k then Some v else dict_get k rest
  end.

(** [d[k] = v]: a key the dictionary has keeps its place, a new key goes
    to the end. *)
Fixpoint dict_set (k : string) (v : value) (items : list (string * value))
  : list (string * value) :=
  match items with
  | [] => [(k, v)]
  | (k', v') :: rest =>
      if String.eqb k' k then (k', v) :: rest else (k', v') :: dict_set k v rest
  end.

(** [key.split('.')]: a list that is never empty, as its first element
    and the others. *)
Fixpoint split_dots (key : string) : string * list string :=
  match key with
  | EmptyString => (EmptyString, [])
  | String c rest =>
      let (first, others) := split_dots rest in
      if Ascii.eqb c "." then (EmptyString, first :: others)
      else (String c first, others)
  end.

(** The loop of [get] over the keys, from the value reached so far. *)
Fixpoint get_keys (keys : list string) (value : value) (default : Config.value)
  : Config.value :=
  match keys with
  | [] => value
  | k :: keys' =>
      match value with
      | VDict items =>
          match dict_get k items with
          | Some v => get_keys keys' v default
          | None => default
          end
      | _ => default
      end
  end.

Definition get (key : string) (default : value) (config : value) : value :=
  let (k, rest) := split_dots key in
  get_keys (k :: rest) config default.

(** [set], from the dictionary reached so far; [k] followed by [rest] is
    what is left of the keys, [rest] being empty at [keys[-1]].  The
    dictionaries are changed in place: the result is the outcome together
    with the dictionary as the call leaves it, also when it raises.  A
    value that is not a dictionary supports neither [k not in config] with
    [config[k]] (a number, [None], a string, a list) nor the assignment:
    [TypeError]. *)
Fixpoint set_keys (k : string) (rest : list string) (value : value) (config : Config.value)
  : result unit * Config.value :=
  match config with
  | VDict items =>
      match rest with
      | [] => (Ok tt, VDict (dict_set k value items))
      | k' :: rest' =>
          let items :=
            match dict_get k items with
            | None => dict_set k (VDict []) items
            | Some _ => items
            end in
          match dict_get k items with
          | Some inner =>
              let (outcome, inner) := set_keys k' rest' value inner in
              (outcome, VDict (dict_set k inner items))
          | None => (Raise (KeyError k), VDict items)
          end
      end
  | _ => (Raise TypeError, config)
  end.

(** [set]; [save_config], which follows when nothing was raised, writes
    the file and changes nothing in memory. *)
Definition set (key : string) (value : value) (config : Config.value)
  : result unit * Config.value :=
  let (k, rest) := split_dots key in
  set_keys k rest value config.

(** Truth value of a configuration value. *)
Definition truthy (v : value) : bool :=
  match v with
  | VNone => false
  | VBool b => b
  | VInt n => negb (n =? 0)
  | VFloat x => negb (Qeq_bool x 0)
  | VStr s => negb (String.eqb s "")
  | VList l => match l with [] => false | _ => true end
  | VDict items => match items with [] => false | _ => true end
  end.

(** The dictionary [load_config] starts from, and returns when there is
    no configuration file; the two paths are built from the home
    directory. *)
Definition default_config (db_path exports_dir : string) : list (string * value) :=
  [("database", VDict [("path", VStr db_path);
                       ("backup_enabled", VBool true);
                       ("backup_interval", VInt 24)]);
   ("ui", VDict [("theme", VStr "default");
                 ("language", VStr "fr");
                 ("window_size", VStr "1400x900")]);
   ("notifications", VDict [("enabled", VBool true);
                            ("due_days", VInt 3);
                            ("email_enabled", VBool false)]);
   ("exports", VDict [("default_format", VStr "xlsx");
                      ("output_dir", VStr exports_dir)])]%string.

End Config.

(* ================================================================== *)
(** * automation/smart_automation.py: the status a bank reports        *)
(* ================================================================== *)

Module BankApi.

Import DbManager Config.
Local Open Scope Z_scope.

Record BankAPIConfig := {
  bank_name : string;
  api_url : string;
  api_key : value;
  username : value;
  password : value;
  enabled : value
}.

(** [_load_bank_api_configs]: the three entries in the order of the
    dictionary. *)
Definition _load_bank_api_configs (config : value) : list (string * BankAPIConfig) :=
  [("cih", {| bank_name := "CIH Bank";
              api_url := "https://api.cih.ma/cheques";
              api_key := Config.get "bank_apis.cih.api_key" (VStr "") config;
              username := Config.get "bank_apis.cih.username" (VStr "") config;
              password := Config.get "bank_apis.cih.password" (VStr "") config;
              enabled := Config.get "bank_apis.cih.enabled" (VBool false) config |});
   ("bmce", {| bank_name := "BMCE Bank";
               api_url := "https://api.bmcebank.ma/cheques";
               api_key := Config.get "bank_apis.bmce.api_key" (VStr "") config;
               username := Config.get "bank_apis.bmce.username" (VStr "") config;
               password := Config.get "bank_apis.bmce.password" (VStr "") config;
               enabled := Config.get "bank_apis.bmce.enabled" (VBool false) config |});
   ("awb", {| bank_name := "Attijariwafa Bank";
              api_url := "https://api.attijariwafa.ma/cheques";
              api_key := Config.get "bank_apis.awb.api_key" (VStr "") config;
              username := Config.get "bank_apis.awb.username" (VStr "") config;
              password := Config.get "bank_apis.awb.password" (VStr "") config;
              enabled := Config.get "bank_apis.awb.enabled" (VBool false) config |})]%string.

(** [needle in text] on strings. *)
Fixpoint contains (needle text : string) : bool :=
  String.prefix needle text
  || match text with
     | EmptyString => false
     | String _ rest => contains needle rest
     end.

(** The loop that looks for the API of the bank: the first entry that is
    enabled and whose key contains the lowered code of the bank.  The code
    is read only at an enabled entry; [None] when it is [NULL] there, the
    call of [lower] raising [AttributeError]. *)
Fixpoint find_bank_api (bank_code : option string) (bank_apis : list (string * BankAPIConfig))
  : option (option BankAPIConfig) :=
  match bank_apis with
  | [] => Some None
  | (key, api_config) :: others =>
      if truthy (enabled api_config) then
        match bank_code with
        | None => None
        | Some code =>
            if contains (lower code) key then Some (Some api_config)
            else find_bank_api bank_code others
        end
      else find_bank_api bank_code others
  end.

(** What [requests.post] is called with, and what it returns: the status
    code, and what [response.json()] gives, [None] when it raises. *)
Record request := {
  request_url : string;
  request_bearer : value;
  request_cheque_number : string;
  request_amount : Q;
  request_branch_id : Z
}.

Record response := {
  status_code : Z;
  json : option value
}.

(** [update_cheque_status_from_bank_api].  [post] is the bank, [None]
    being an exception of [requests.post]; [now] is what
    [CURRENT_TIMESTAMP] gives.  Every exception ends in the handler, which
    returns false; the [UPDATE] is the only statement that writes. *)
Definition update_cheque_status_from_bank_api (now : string)
    (bank_apis : list (string * BankAPIConfig)) (post : request -> option response)
    (cheque_id : Z) (db : database) : bool * database :=
  let rows :=
    flat_map (fun c =>
      flat_map (fun b =>
        map (fun bk => (c, b, bk))
          (List.filter (fun bk => branch_bank_id b =? bank_id bk) (banks db)))
        (List.filter (fun b => eq_opt Z.eqb (cheque_branch_id c) (Some (branch_id b)))
           (branches db)))
      (List.filter (fun c => DbManager.cheque_id c =? cheque_id) (cheques db)) in
  match rows with
  | [] => (false, db)
  | (c, b, bk) :: _ =>
      match find_bank_api (bank_code bk) bank_apis with
      | None => (false, db)
      | Some None => (false, db)
      | Some (Some bank_api) =>
          match post {| request_url := api_url bank_api ++ "/status";
                        request_bearer := api_key bank_api;
                        request_cheque_number := cheque_number c;
                        request_amount := cheque_amount c;
                        request_branch_id := branch_id b |} with
          | None => (false, db)
          | Some response =>
              if status_code response =? 200 then
                match json response with
                | Some (VDict api_data) =>
                    match dict_get "status" api_data with
                    | Some (VStr bank_status) =>
                        match SmartAutomation._map_bank_status_to_internal bank_status with
                        | Some new_status =>
                            if String.eqb new_status "" then (false, db)
                            else if negb (status_check (Some new_status)) then (false, db)
                            else
                              (true,
                               {|
                                 banks := banks db;
                                 branches := branches db;
                                 clients := clients db;
                                 cheques :=
                                   update_where_id DbManager.cheque_id
                                     (set_cheque_status now new_status) cheque_id (cheques db);
                                 users := users db;
                                 notifications := notifications db;
                                 cheques_sequence := cheques_sequence db;
                                 notifications_sequence := notifications_sequence db
                               |})
                        | None => (false, db)
                        end
                    | _ => (false, db)
                    end
                | _ => (false, db)
                end
              else (false, db)
          end
      end
  end.

End BankApi.

(* ================================================================== *)
(** * Vocabulary of the further statements                             *)
(* ================================================================== *)

(** The key of a cheque under [UNIQUE(cheque_number, branch_id)]: a row
    without branch has none, a [NULL] being equal to nothing. *)
Definition unique_key (r : DbManager.cheque) : list (string * Z) :=
  match DbManager.cheque_branch_id r with
  | Some b => [(DbManager.cheque_number r, b)]
  | None => []
  end.

(** What the schema promises of the [cheques] table: the primary key is
    unique and no key is above the [AUTOINCREMENT] counter, no two rows
    share number and branch, and every status passes the [CHECK]. *)
Definition cheques_consistent (db : DbManager.database) : Prop :=
  List.NoDup (map DbManager.cheque_id (DbManager.cheques db))
  /\ Forall (fun r => (DbManager.cheque_id r <= DbManager.cheques_sequence db)%Z)
       (DbManager.cheques db)
  /\ List.NoDup (flat_map unique_key (DbManager.cheques db))
  /\ Forall (fun r => DbManager.status_check (DbManager.cheque_status r) = true)
       (DbManager.cheques db).

(** Every column of a cheque but [status] and [updated_at] kept. *)
Definition cheque_columns_kept (r r' : DbManager.cheque) : Prop :=
  DbManager.cheque_id r' = DbManager.cheque_id r
  /\ DbManager.cheque_amount r' = DbManager.cheque_amount r
  /\ DbManager.cheque_currency r' = DbManager.cheque_currency r
  /\ DbManager.cheque_issue_date r' = DbManager.cheque_issue_date r
  /\ DbManager.cheque_due_date r' = DbManager.cheque_due_date r
  /\ DbManager.cheque_client_id r' = DbManager.cheque_client_id r
  /\ DbManager.cheque_branch_id r' = DbManager.cheque_branch_id r
  /\ DbManager.cheque_number r' = DbManager.cheque_number r
  /\ DbManager.cheque_scan_path r' = DbManager.cheque_scan_path r
  /\ DbManager.cheque_depositor_name r' = DbManager.cheque_depositor_name r
  /\ DbManager.cheque_invoice_number r' = DbManager.cheque_invoice_number r
  /\ DbManager.cheque_invoice_date r' = DbManager.cheque_invoice_date r
  /\ DbManager.cheque_notes r' = DbManager.cheque_notes r
  /\ DbManager.cheque_created_at r' = DbManager.cheque_created_at r
  /\ DbManager.cheque_created_by r' = DbManager.cheque_created_by r.

(** The tables other than [cheques] and [notifications] kept. *)
Definition registry_kept (db db' : DbManager.database) : Prop :=
  DbManager.banks db' = DbManager.banks db
  /\ DbManager.branches db' = DbManager.branches db
  /\ DbManager.clients db' = DbManager.clients db
  /\ DbManager.users db' = DbManager.users db.

(** The defaults [_insert_default_data] offers for the settings, as a
    lookup: the value of the first default with the key. *)
Fixpoint lookup_default (key : string) (defaults : list (string * string * string))
  : option string :=
  match defaults with
  | [] => None
  | (k, v, _) :: rest => if String.eqb k key then Some v else lookup_default key rest
  end.

(** Two banks and a branch of each. *)
Definition bank_CIH : DbManager.bank :=
  {| DbManager.bank_id := 1; DbManager.bank_name := "CIH Bank";
     DbManager.bank_code := Some "CIH"%string;
     DbManager.bank_created_at := Some "2024-01-02 08:00:00"%string;
     DbManager.bank_active := Some true |}.

Definition bank_BMCE : DbManager.bank :=
  {| DbManager.bank_id := 2; DbManager.bank_name := "BMCE Bank";
     DbManager.bank_code := Some "BMCE"%string;
     DbManager.bank_created_at := Some "2024-01-02 08:00:00"%string;
     DbManager.bank_active := Some true |}.

Definition branch_Rabat : DbManager.branch :=
  {| DbManager.branch_id := 1; DbManager.branch_bank_id := 1;
     DbManager.branch_name := "Rabat Agdal";
     DbManager.branch_address := None; DbManager.branch_postal_code := None;
     DbManager.branch_phone := None; DbManager.branch_email := None;
     DbManager.branch_created_at := Some "2024-01-02 08:10:00"%string;
     DbManager.branch_active := Some true |}.

Definition branch_Fes : DbManager.branch :=
  {| DbManager.branch_id := 2; DbManager.branch_bank_id := 2;
     DbManager.branch_name := "Fes Medina";
     DbManager.branch_address := None; DbManager.branch_postal_code := None;
     DbManager.branch_phone := None; DbManager.branch_email := None;
     DbManager.branch_created_at := Some "2024-01-02 08:20:00"%string;
     DbManager.branch_active := Some true |}.

Definition sample_registry : DbManager.database :=
  {|
    DbManager.banks := [bank_CIH; bank_BMCE];
    DbManager.branches := [branch_Rabat; branch_Fes];
    DbManager.clients := [];
    DbManager.cheques := [];
    DbManager.users := [];
    DbManager.notifications := [];
    DbManager.cheques_sequence := 0;
    DbManager.notifications_sequence := 0
  |}.

(** The permissions that delete, that create or change a bank, that manage
    users, or that restore, configure and audit the system. *)
Definition admin_only_permissions : list string :=
  ["cheque.delete"; "client.delete"; "bank.create"; "bank.update"; "bank.delete";
   "user.create"; "user.read"; "user.update"; "user.delete";
   "system.restore"; "system.configure"; "audit.read"]%string.

(** A character [sanitize_input] keeps, and a text that does not start
    with white space. *)
Definition is_safe (c : N) : bool :=
  negb (existsb (fun d => (c =? d)%N) Sanitizer.dangerous_chars).

Definition starts_clean (s : Sanitizer.text) : Prop :=
  match s with
  | [] => True
  | c :: _ => Sanitizer.isspace c = false
  end.


(** A user, a session of theirs, and failed logins of one morning. *)
Definition user_amina : DbManager.user :=
  {| DbManager.user_id := 2; DbManager.user_username := "amina";
     DbManager.user_password_hash := "5e884898da28047151d0e56f8dc6292773603d0d";
     DbManager.user_role := "readonly";
     DbManager.user_full_name := None; DbManager.user_email := None;
     DbManager.user_active := Some true;
     DbManager.user_created_at := Some "2024-01-02 08:00:00"%string;
     DbManager.user_last_login := None |}.

Definition session_of_amina : Sessions.session :=
  {| Sessions.session_id := 1; Sessions.session_user_id := 2;
     Sessions.session_token := "k3Zr9";
     Sessions.session_created_at := Some "2024-05-06 08:00:00"%string;
     Sessions.session_expires_at := 3600000000;
     Sessions.session_is_active := Some true;
     Sessions.session_ip_address := None; Sessions.session_user_agent := None |}.

Definition sample_sessions : Sessions.sessions_table :=
  {| Sessions.sessions := [session_of_amina]; Sessions.sessions_sequence := 1 |}.

Definition failed_login (id : Z) (time : string) : AuditLog.audit_row :=
  {| AuditLog.audit_id := id;
     AuditLog.audit_timestamp := "2024-05-06 " ++ time;
     AuditLog.audit_username := "amina";
     AuditLog.audit_action := "login";
     AuditLog.audit_success := false |}.

Definition failed_logins : list AuditLog.audit_row :=
  [failed_login 1 "09:55:01"; failed_login 2 "09:55:09"; failed_login 3 "09:55:17";
   failed_login 4 "09:55:26"; failed_login 5 "09:55:31"; failed_login 6 "09:55:40"].

(** The internal statuses a bank status maps to. *)
Definition reported_statuses : list string :=
  ["encaisse"; "rejete"; "en_attente"; "depose"; "annule"]%string.

(** The configuration without a file, and a bank that answers "cleared"
    whatever it is asked. *)
Definition builtin_config : Config.value :=
  Config.VDict (Config.default_config "/home/u/.cheque_manager/data/cheques.db"
                  "/home/u/.cheque_manager/data/exports").

Definition bank_answers_cleared (r : BankApi.request) : option BankApi.response :=
  Some {| BankApi.status_code := 200;
          BankApi.json := Some (Config.VDict [("status", Config.VStr "cleared")]%string) |}.

(** Cheque A1 as the row the list shows once it is recorded. *)
Definition row_A1 : DbManager.cheque :=
  {|
    DbManager.cheque_id := 1;
    DbManager.cheque_amount := 1000;
    DbManager.cheque_currency := Some "MAD"%string;
    DbManager.cheque_issue_date := "2024-01-10";
    DbManager.cheque_due_date := "2024-02-10";
    DbManager.cheque_client_id := Some 5%Z;
    DbManager.cheque_branch_id := Some 2%Z;
    DbManager.cheque_status := Some "en_attente"%string;
    DbManager.cheque_number := "A1";
    DbManager.cheque_scan_path := None;
    DbManager.cheque_depositor_name := None;
    DbManager.cheque_invoice_number := None;
    DbManager.cheque_invoice_date := None;
    DbManager.cheque_notes := None;
    DbManager.cheque_created_at := Some "2024-01-10 09:00:00"%string;
    DbManager.cheque_updated_at := Some "2024-01-10 09:00:00"%string;
    DbManager.cheque_created_by := None
  |}.

(** Cheque A1 recorded at the Rabat branch of the CIH bank. *)
Definition cheque_A1_at_CIH : DbManager.database :=
  snd (DbManager.add_cheque "2024-01-10 09:00:00" (with_branch_id cheque_A1 (Val 1%Z))
         sample_registry).

(** ** The inputs on which the body of a handled method raises

    Each predicate spells out, on what the method receives, when the body
    of its [try] raises. *)

Definition raised {A} (r : result A) : bool := negb (is_ok r).

Definition has_value {A} (o : option A) : bool :=
  match o with
  | Some _ => true
  | None => false
  end.

(** [get_cheque_aging_analysis]: the query raises, or a row has a duration
    that is [NULL], which [round] and [int] refuse. *)
Definition aging_row_refused (row : AdvancedAnalytics.aging_row) : bool :=
  negb (has_value (AdvancedAnalytics.aging_avg_days row)
        && has_value (AdvancedAnalytics.aging_min_days row)
        && has_value (AdvancedAnalytics.aging_max_days row)).

Definition get_cheque_aging_analysis_fails
    (results : result (list AdvancedAnalytics.aging_row)) : bool :=
  match results with
  | Raise _ => true
  | Ok rows => existsb aging_row_refused rows
  end.

(** [get_seasonal_trends]: one of the three queries raises. *)
Definition get_seasonal_trends_fails {Monthly Quarterly Daily : Type}
    (monthly : result (list Monthly)) (quarterly : result (list Quarterly))
    (daily : result (list Daily)) : bool :=
  raised monthly || raised quarterly || raised daily.

(** [calculate_client_risk_profiles]: the query raises, or a row has a
    last bounce date that [strptime] rejects. *)
Definition risk_row_refused (row : AdvancedAnalytics.client_row) : bool :=
  match AdvancedAnalytics.row_last_bounce_date row with
  | BadDate => true
  | _ => false
  end.

Definition calculate_client_risk_profiles_fails
    (results : result (list AdvancedAnalytics.client_row)) : bool :=
  match results with
  | Raise _ => true
  | Ok rows => existsb risk_row_refused rows
  end.

(** [get_performance_metrics]: a query raises, or one of the two counts is
    [NULL], as both are when the range holds no cheque. *)
Definition get_performance_metrics_fails {Bank Month : Type}
    (overall_fetched : result AdvancedAnalytics.overall_row)
    (bank_fetched : result (list Bank)) (monthly_fetched : result (list Month)) : bool :=
  match overall_fetched with
  | Raise _ => true
  | Ok row =>
      negb (has_value (AdvancedAnalytics.overall_successful_cheques row)
            && has_value (AdvancedAnalytics.overall_failed_cheques row))
      || raised bank_fetched || raised monthly_fetched
  end.

(** [predict_cash_flow]: one of the two queries raises. *)
Definition predict_cash_flow_fails (pending_fetched : result (list AdvancedAnalytics.pending_row))
    (rate_fetched : result (option Q)) : bool :=
  raised pending_fetched || raised rate_fetched.

(** [calculate_ai_risk_score]: the query raises, or the client has cheques
    and the bounced count or the average amount is [None]. *)
Definition calculate_ai_risk_score_fails
    (fetched : result (option SmartAutomation.feature_row)) : bool :=
  match fetched with
  | Raise _ => true
  | Ok None => false
  | Ok (Some data) =>
      negb (SmartAutomation.total_cheques data =? 0)%Z
      && (((0 <? SmartAutomation.total_cheques data)%Z
           && negb (has_value (SmartAutomation.bounced_count data)))
          || negb (has_value (SmartAutomation.avg_amount data)))
  end.

(** [detect_advanced_duplicates]: the query raises, or the amount of the
    candidate is [None] and there is a row to compare it with. *)
Definition detect_advanced_duplicates_fails (cheque_data : DbManager.cheque_dict)
    (potential_matches : result (list SmartAutomation.match_row)) : bool :=
  match potential_matches with
  | Raise _ => true
  | Ok [] => false
  | Ok (_ :: _) =>
      match DbManager.d_amount cheque_data with
      | PyNone => true
      | _ => false
      end
  end.

(** [_log_reminder_sent]: the key does not fit in 64 bits, or the type of
    the reminder is [None]. *)
Definition _log_reminder_sent_fails (cheque_id : Z) (reminder_type : option string) : bool :=
  negb (fits_int64 cheque_id) || negb (has_value reminder_type).

(** [_find_or_create_client]: the search raises, or it finds no client
    and the insert raises. *)
Definition _find_or_create_client_fails (searched : result (list DbManager.client))
    (added : result Z) : bool :=
  match searched with
  | Raise _ => true
  | Ok [] => raised added
  | Ok (_ :: _) => false
  end.

(** [get_audit_log]: the query raises, or a row has a timestamp that
    [fromisoformat] refuses, an action that is none of [AuditAction], or
    details that [json.loads] refuses. *)
Definition audit_row_refused {Json : Type} (json_loads : string -> result Json)
    (row : SecurityManager.audit_log_row) : bool :=
  match SecurityManager.log_timestamp row with
  | Parsed _ => false
  | _ => true
  end
  || raised (SecurityManager.AuditAction_of_value (SecurityManager.log_action row))
  || match SecurityManager.log_details row with
     | Some text => if String.eqb text "" then false else raised (json_loads text)
     | None => false
     end.

Definition get_audit_log_fails {Json : Type} (json_loads : string -> result Json)
    (fetched : result (list SecurityManager.audit_log_row)) : bool :=
  match fetched with
  | Raise _ => true
  | Ok rows => existsb (audit_row_refused json_loads) rows
  end.

(** A bank that cannot be reached: [requests.post] raises. *)
Definition bank_unreachable (r : BankApi.request) : option BankApi.response := None.

(** Rows that make a body raise: a status whose durations are [NULL], a
    range without cheque, a client whose last bounce date is no date, a
    client without average amount, an audit row of an action that is none
    of [AuditAction]. *)
Definition aging_row_without_dates : AdvancedAnalytics.aging_row :=
  {| AdvancedAnalytics.aging_status := Some "en_attente"%string;
     AdvancedAnalytics.aging_avg_days := None;
     AdvancedAnalytics.aging_min_days := None;
     AdvancedAnalytics.aging_max_days := None;
     AdvancedAnalytics.aging_count := 3;
     AdvancedAnalytics.aging_percentage := 100 |}.

Definition overall_row_of_empty_range : AdvancedAnalytics.overall_row :=
  {| AdvancedAnalytics.overall_total_cheques := 0;
     AdvancedAnalytics.overall_total_amount := None;
     AdvancedAnalytics.overall_avg_amount := None;
     AdvancedAnalytics.overall_successful_cheques := None;
     AdvancedAnalytics.overall_failed_cheques := None;
     AdvancedAnalytics.overall_avg_processing_time := None;
     AdvancedAnalytics.overall_unique_clients := 0;
     AdvancedAnalytics.overall_unique_branches := 0 |}.

Definition client_row_with_bad_date : AdvancedAnalytics.client_row :=
  {| AdvancedAnalytics.row_client_id := 5;
     AdvancedAnalytics.row_name := "Atlas SARL";
     AdvancedAnalytics.row_total_cheques := 4;
     AdvancedAnalytics.row_total_amount := Some 8000%Q;
     AdvancedAnalytics.row_bounced_cheques := 1;
     AdvancedAnalytics.row_avg_processing_time := Some 12%Q;
     AdvancedAnalytics.row_last_bounce_date := BadDate;
     AdvancedAnalytics.row_avg_cheque_amount := Some 2000%Q;
     AdvancedAnalytics.row_active_months := Some 2%Z |}.

Definition features_without_average : SmartAutomation.feature_row :=
  {| SmartAutomation.total_cheques := 4;
     SmartAutomation.total_amount := None;
     SmartAutomation.avg_amount := None;
     SmartAutomation.bounced_count := Some 1%Z;
     SmartAutomation.avg_processing_time := None;
     SmartAutomation.active_months := 2;
     SmartAutomation.last_cheque_date := NoDate;
     SmartAutomation.first_cheque_date := NoDate;
     SmartAutomation.banks_used := 1 |}.

Definition match_row_A1 : SmartAutomation.match_row :=
  {| SmartAutomation.match_id := 1;
     SmartAutomation.match_cheque_number := "A1";
     SmartAutomation.match_amount := 1000;
     SmartAutomation.match_client_id := Some 5%Z;
     SmartAutomation.match_created_at := Some "2024-01-10 09:00:00"%string;
     SmartAutomation.match_branch_id := Some 2%Z |}.

Definition audit_row_of_unknown_action : SecurityManager.audit_log_row :=
  {| SecurityManager.log_id := 1;
     SecurityManager.log_timestamp := Parsed 0;
     SecurityManager.log_user_id := Some 2%Z;
     SecurityManager.log_username := "amina";
     SecurityManager.log_action := "print";
     SecurityManager.log_resource_type := None;
     SecurityManager.log_resource_id := None;
     SecurityManager.log_details := None;
     SecurityManager.log_ip_address := None;
     SecurityManager.log_user_agent := None;
     SecurityManager.log_success := 1;
     SecurityManager.log_error_message := None;
     SecurityManager.log_session_id := None |}.

(** Cheque A1 with another field for its amount. *)
Definition with_amount (cheque_data : DbManager.cheque_dict) (amount : field pyfloat)
  : DbManager.cheque_dict :=
  {|
    DbManager.d_id := DbManager.d_id cheque_data;
    DbManager.d_amount := amount;
    DbManager.d_currency := DbManager.d_currency cheque_data;
    DbManager.d_issue_date := DbManager.d_issue_date cheque_data;
    DbManager.d_due_date := DbManager.d_due_date cheque_data;
    DbManager.d_client_id := DbManager.d_client_id cheque_data;
    DbManager.d_branch_id := DbManager.d_branch_id cheque_data;
    DbManager.d_status := DbManager.d_status cheque_data;
    DbManager.d_cheque_number := DbManager.d_cheque_number cheque_data;
    DbManager.d_scan_path := DbManager.d_scan_path cheque_data;
    DbManager.d_depositor_name := DbManager.d_depositor_name cheque_data;
    DbManager.d_invoice_number := DbManager.d_invoice_number cheque_data;
    DbManager.d_invoice_date := DbManager.d_invoice_date cheque_data;
    DbManager.d_notes := DbManager.d_notes cheque_data;
    DbManager.d_created_at := DbManager.d_created_at cheque_data;
    DbManager.d_updated_at := DbManager.d_updated_at cheque_data;
    DbManager.d_created_by := DbManager.d_created_by cheque_data
  |}.

(** A handled method: [body] is the body of its [try], [fails] tells on
    which inputs that body raises, and on those what the method [returned]
    is its [default]. *)
Definition handled {A B} (body : result A) (fails : bool) (returned default : B) : Prop :=
  is_ok body = negb fails /\ (fails = true -> returned = default).

(* ================================================================== *)
(** * Comparisons and bounds on rationals                              *)
(* ================================================================== *)

Section QFacts.

Local Open Scope Q_scope.

Lemma Qltb_true (x y : Q) : Qltb x y = true <-> x < y.
Proof.
  unfold Qltb. rewrite negb_true_iff.
  destruct (Qle_bool y x) eqn:E.
  - apply Qle_bool_iff in E. split; [discriminate | intros H; lra].
  - split; [intros _ | reflexivity].
    apply Qnot_le_lt. intros H. apply Qle_bool_iff in H. congruence.
Qed.

Lemma Qltb_false (x y : Q) : Qltb x y = false <-> y <= x.
Proof.
  unfold Qltb. rewrite negb_false_iff. apply Qle_bool_iff.
Qed.

Lemma Qgeb_true (x y : Q) : Qgeb x y = true <-> y <= x.
Proof. unfold Qgeb. apply Qle_bool_iff. Qed.

Lemma Qgeb_false (x y : Q) : Qgeb x y = false <-> x < y.
Proof.
  unfold Qgeb. destruct (Qle_bool y x) eqn:E.
  - apply Qle_bool_iff in E. split; [discriminate | intros H; lra].
  - split; [intros _ | reflexivity].
    apply Qnot_le_lt. intros H. apply Qle_bool_iff in H. congruence.
Qed.

Lemma Qmin_lower (x y lo : Q) : lo <= x -> lo <= y -> lo <= Qmin x y.
Proof. intros Hx Hy. apply Q.min_glb; assumption. Qed.

Lemma Qmin_mono_l (x x' y : Q) : x <= x' -> Qmin x y <= Qmin x' y.
Proof. apply Q.min_le_compat_r. Qed.

Lemma Qmin_mono_r (x y y' : Q) : y <= y' -> Qmin x y <= Qmin x y'.
Proof. apply Q.min_le_compat_l. Qed.

Lemma Qmax_mono_r (x y y' : Q) : y <= y' -> Qmax x y <= Qmax x y'.
Proof. apply Q.max_le_compat_l. Qed.

Lemma Qdiv_mono_l (a b t : Q) : 0 < t -> a <= b -> a / t <= b / t.
Proof.
  intros Ht Hab. unfold Qdiv. apply Qmult_le_compat_r; [assumption |].
  apply Qlt_le_weak, Qinv_lt_0_compat, Ht.
Qed.

Lemma Qdiv_nonneg (a t : Q) : 0 <= a -> 0 < t -> 0 <= a / t.
Proof.
  intros Ha Ht. unfold Qdiv. apply Qmult_le_0_compat; [assumption |].
  apply Qlt_le_weak, Qinv_lt_0_compat, Ht.
Qed.

Lemma inject_Z_pos (z : Z) : (0 < z)%Z -> 0 < inject_Z z.
Proof. intros H. change 0 with (inject_Z 0). rewrite <- Zlt_Qlt. exact H. Qed.

Lemma inject_Z_nonneg (z : Z) : (0 <= z)%Z -> 0 <= inject_Z z.
Proof. intros H. change 0 with (inject_Z 0). rewrite <- Zle_Qle. exact H. Qed.

End QFacts.

(** Case analysis on every test of a score computation. *)
Ltac split_tests :=
  repeat match goal with
         | |- context [if ?c then _ else _] => destruct c
         | |- context [match ?t with NoDate => _ | BadDate => _ | Parsed _ => _ end] =>
             destruct t
         end.

(* ================================================================== *)
(** * The client risk score                                            *)
(* ================================================================== *)

Section RiskScore.

Local Open Scope Q_scope.

Import AdvancedAnalytics.

(** Three cheques worth 5000 in all, a 10% bounce rate, 20 days to process
    and a bounce 10 days ago: 20 + 20 + 15 + 5 + 15. *)
Example _calculate_risk_score_small_client :
  _calculate_risk_score 864000 10 3 5000 20 (Parsed 0) 2 == 75.
Proof. reflexivity. Qed.

(** A bounce rate of 60% fills the bounce factor; a large, old, fast
    client adds nothing else. *)
Example _calculate_risk_score_large_client :
  _calculate_risk_score 864000 60 50 80000 3 NoDate 12 == 40.
Proof. reflexivity. Qed.

(** Everything the score adds besides the bounce-rate factor lies
    between 0 and 60. *)
Lemma _calculate_risk_score_range now br tc ta apt lbd am :
  0 <= br -> 0 <= _calculate_risk_score now br tc ta apt lbd am <= 100.
Proof.
  intros Hbr. unfold _calculate_risk_score. split.
  - apply Qmin_lower; [| lra].
    assert (0 <= Qmin (br * 2) 40) by (apply Qmin_lower; lra).
    split_tests; lra.
  - apply Q.le_min_r.
Qed.

Lemma _calculate_risk_score_mono now br br' tc ta apt lbd am :
  br <= br' ->
  _calculate_risk_score now br tc ta apt lbd am
  <= _calculate_risk_score now br' tc ta apt lbd am.
Proof.
  intros Hbr. unfold _calculate_risk_score.
  assert (Qmin (br * 2) 40 <= Qmin (br' * 2) 40) by (apply Qmin_mono_l; lra).
  apply Qmin_mono_l. split_tests; lra.
Qed.

(** The bounce rate the caller computes from two counts is not negative,
    so the score of every row of the query is in range. *)
Lemma row_risk_score_range now row :
  (0 <= row_bounced_cheques row)%Z -> 0 <= row_risk_score now row <= 100.
Proof.
  intros Hb. unfold row_risk_score. apply _calculate_risk_score_range.
  destruct (0 <? row_total_cheques row)%Z eqn:Ht; [| lra].
  apply Z.ltb_lt in Ht.
  assert (0 <= inject_Z (row_bounced_cheques row) / inject_Z (row_total_cheques row)).
  { apply Qdiv_nonneg; [apply inject_Z_nonneg, Hb | apply inject_Z_pos, Ht]. }
  lra.
Qed.

Import SmartAutomation.

Lemma calculate_ai_risk_score_range now fetched :
  0 <= calculate_ai_risk_score now fetched <= 100.
Proof.
  unfold calculate_ai_risk_score, calculate_ai_risk_score_body, try_except, bind, div_none.
  assert (Hclamp : forall x, 0 <= Qmin 100 (Qmax 0 x) <= 100).
  { intros x. split; [apply Qmin_lower; [lra | apply Q.le_max_l] | apply Q.le_min_l]. }
  destruct fetched as [[data |] | e]; try lra.
  destruct (SmartAutomation.total_cheques data =? 0)%Z; try lra.
  destruct (0 <? SmartAutomation.total_cheques data)%Z.
  - destruct (bounced_count data); simpl; try lra.
    destruct (avg_amount data); simpl; try lra. apply Hclamp.
  - destruct (avg_amount data); simpl; try lra. apply Hclamp.
Qed.

(** One bounced cheque out of four, 2000 on average, 12 days to process,
    one branch, last cheque 10 days ago:
    10 + 0.5 + 13.8 + 9.8 + 2.4 + 8. *)
Example calculate_ai_risk_score_small_client :
  calculate_ai_risk_score 864000
    (Ok (Some {| SmartAutomation.total_cheques := 4;
                 SmartAutomation.total_amount := Some 8000;
                 avg_amount := Some 2000;
                 bounced_count := Some 1%Z;
                 SmartAutomation.avg_processing_time := Some 12;
                 SmartAutomation.active_months := 2;
                 last_cheque_date := Parsed 0;
                 first_cheque_date := Parsed 0;
                 banks_used := 1 |}))
  == 44.5.
Proof. reflexivity. Qed.

(** A client without cheques, and a query that fails: the neutral score. *)
Example calculate_ai_risk_score_neutral :
  calculate_ai_risk_score 0 (Ok None) = 50
  /\ calculate_ai_risk_score 0 (Raise OperationalError) = 50.
Proof. split; reflexivity. Qed.

Lemma calculate_ai_risk_score_mono now data b b' :
  (b <= b')%Z ->
  calculate_ai_risk_score now (Ok (Some (with_bounced_count data b)))
  <= calculate_ai_risk_score now (Ok (Some (with_bounced_count data b'))).
Proof.
  intros Hb.
  unfold calculate_ai_risk_score, calculate_ai_risk_score_body, try_except, bind, div_none.
  cbn [with_bounced_count SmartAutomation.total_cheques bounced_count avg_amount
       last_cheque_date SmartAutomation.avg_processing_time banks_used option_map].
  destruct (SmartAutomation.total_cheques data =? 0)%Z; try lra.
  destruct (0 <? SmartAutomation.total_cheques data)%Z eqn:Ht.
  - apply Z.ltb_lt in Ht.
    assert (Hdiv : inject_Z b / inject_Z (SmartAutomation.total_cheques data)
                   <= inject_Z b' / inject_Z (SmartAutomation.total_cheques data)).
    { apply Qdiv_mono_l; [apply inject_Z_pos, Ht | rewrite <- Zle_Qle; exact Hb]. }
    destruct (avg_amount data); try lra.
    apply Qmin_mono_r, Qmax_mono_r. lra.
  - destruct (avg_amount data); lra.
Qed.

(** C1.  The risk score of [AdvancedAnalytics._calculate_risk_score], for
    a bounce rate that is not negative (as is the rate its caller computes
    from the counts of a client), and the risk score of
    [SmartAutomation.calculate_ai_risk_score], for whatever the query
    gave, lie between 0 and 100; and each is non-decreasing in the bounce
    rate (for the second: in the bounced count, the number of cheques
    fixed) when all other features are held fixed. *)
Theorem risk_score_bounded_and_monotone :
  forall (now : Z) (bounce_rate bounce_rate' : Q) (total_cheques : Z)
         (total_amount avg_processing_time : Q) (last_bounce_date : timestamp)
         (active_months : Z) (row : client_row)
         (fetched : result (option feature_row)) (data : feature_row)
         (bounced bounced' : Z),
    0 <= bounce_rate ->
    bounce_rate <= bounce_rate' ->
    (0 <= row_bounced_cheques row)%Z ->
    (bounced <= bounced')%Z ->
    0 <= _calculate_risk_score now bounce_rate total_cheques total_amount
           avg_processing_time last_bounce_date active_months <= 100
    /\ _calculate_risk_score now bounce_rate total_cheques total_amount
         avg_processing_time last_bounce_date active_months
       <= _calculate_risk_score now bounce_rate' total_cheques total_amount
            avg_processing_time last_bounce_date active_months
    /\ 0 <= row_risk_score now row <= 100
    /\ 0 <= calculate_ai_risk_score now fetched <= 100
    /\ calculate_ai_risk_score now (Ok (Some (with_bounced_count data bounced)))
       <= calculate_ai_risk_score now (Ok (Some (with_bounced_count data bounced'))).
Proof.
  intros now br br' tc ta apt lbd am row fetched data b b' Hbr Hle Hrow Hb.
  split; [apply _calculate_risk_score_range, Hbr |].
  split; [apply _calculate_risk_score_mono, Hle |].
  split; [apply row_risk_score_range, Hrow |].
  split; [apply calculate_ai_risk_score_range |].
  apply calculate_ai_risk_score_mono, Hb.
Qed.

End RiskScore.

(** The theorem at a client with a 10% bounce rate against a 25% one, at
    a client with one bounced cheque out of four, and at the same client
    with two. *)
Lemma risk_score_bounded_and_monotone_witness :
  let row := {|
    AdvancedAnalytics.row_client_id := 5;
    AdvancedAnalytics.row_name := "Atlas SARL";
    AdvancedAnalytics.row_total_cheques := 4;
    AdvancedAnalytics.row_total_amount := Some 8000%Q;
    AdvancedAnalytics.row_bounced_cheques := 1;
    AdvancedAnalytics.row_avg_processing_time := Some 12%Q;
    AdvancedAnalytics.row_last_bounce_date := Parsed 0;
    AdvancedAnalytics.row_avg_cheque_amount := Some 2000%Q;
    AdvancedAnalytics.row_active_months := Some 2%Z
  |} in
  let data := {|
    SmartAutomation.total_cheques := 4;
    SmartAutomation.total_amount := Some 8000%Q;
    SmartAutomation.avg_amount := Some 2000%Q;
    SmartAutomation.bounced_count := Some 1%Z;
    SmartAutomation.avg_processing_time := Some 12%Q;
    SmartAutomation.active_months := 2;
    SmartAutomation.last_cheque_date := Parsed 0;
    SmartAutomation.first_cheque_date := Parsed 0;
    SmartAutomation.banks_used := 1
  |} in
  ((0 <= 10)%Q /\ (10 <= 25)%Q
   /\ (0 <= AdvancedAnalytics.row_bounced_cheques row)%Z /\ (1 <= 2)%Z)
  /\ ((0 <= AdvancedAnalytics._calculate_risk_score 864000 10 3 5000 20 (Parsed 0) 2 <= 100)%Q
      /\ (AdvancedAnalytics._calculate_risk_score 864000 10 3 5000 20 (Parsed 0) 2
          <= AdvancedAnalytics._calculate_risk_score 864000 25 3 5000 20 (Parsed 0) 2)%Q
      /\ (0 <= AdvancedAnalytics.row_risk_score 864000 row <= 100)%Q
      /\ (0 <= SmartAutomation.calculate_ai_risk_score 864000 (Ok (Some data)) <= 100)%Q
      /\ (SmartAutomation.calculate_ai_risk_score 864000
            (Ok (Some (with_bounced_count data 1)))
          <= SmartAutomation.calculate_ai_risk_score 864000
               (Ok (Some (with_bounced_count data 2))))%Q).
Proof.
  intros row data.
  assert (H1 : (0 <= 10)%Q) by lra.
  assert (H2 : (10 <= 25)%Q) by lra.
  assert (H3 : (0 <= AdvancedAnalytics.row_bounced_cheques row)%Z) by (simpl; lia).
  assert (H4 : (1 <= 2)%Z) by lia.
  split; [exact (conj H1 (conj H2 (conj H3 H4))) |].
  exact (risk_score_bounded_and_monotone 864000 10 25 3 5000 20 (Parsed 0) 2 row
           (Ok (Some data)) data 1 2 H1 H2 H3 H4).
Defined.

(* ================================================================== *)
(** * The risk level                                                   *)
(* ================================================================== *)

Section RiskLevel.

Local Open Scope Q_scope.
Import AdvancedAnalytics.

Lemma determine_risk_level_thresholds (s : Q) :
  determine_risk_level s = risk_level_by_thresholds s.
Proof.
  unfold determine_risk_level, risk_level_by_thresholds.
  destruct (Qgeb s 80) eqn:H80; [apply Qgeb_true in H80 | apply Qgeb_false in H80];
  destruct (Qgeb s 60) eqn:H60; [apply Qgeb_true in H60 | apply Qgeb_false in H60 | |];
  try (apply Qgeb_true in H60); try (apply Qgeb_false in H60);
  destruct (Qgeb s 40) eqn:H40;
  try (apply Qgeb_true in H40); try (apply Qgeb_false in H40);
  destruct (Qlt_le_dec s 40); destruct (Qlt_le_dec s 60); destruct (Qlt_le_dec s 80);
  try reflexivity; lra.
Qed.

Lemma for_each_In {A B} (f : A -> result B) (l : list A) (out : list B) (y : B) :
  for_each f l = Ok out -> In y out -> exists x, In x l /\ f x = Ok y.
Proof.
  revert out. induction l as [| x l IH]; intros out Hrun Hy; simpl in Hrun.
  - inversion Hrun; subst. contradiction.
  - destruct (f x) as [b |] eqn:Hfx; simpl in Hrun; [| discriminate].
    destruct (for_each f l) as [bs |] eqn:Hrest; simpl in Hrun; [| discriminate].
    inversion Hrun; subst. destruct Hy as [-> | Hy].
    + exists x. split; [left; reflexivity | exact Hfx].
    + destruct (IH bs eq_refl Hy) as [x' [Hin Hx']].
      exists x'. split; [right; exact Hin | exact Hx'].
Qed.

(** C8.  The level [calculate_client_risk_profiles] gives a client is the
    four-bucket threshold of the score it computed for that client: low
    under 40, medium from 40 and under 60, high from 60 and under 80,
    critical from 80 on.  Every profile returned is the profile of a row
    of the query, that of the client it names; the score it stores is the
    score the machine computed for that row, rounded to two decimals, and
    its level is the bucket of that score as computed. *)
Theorem risk_level_is_four_bucket_threshold :
  forall (now : Z) (results : result (list client_row)) (profile : ClientRiskProfile),
    In profile (calculate_client_risk_profiles now results) ->
    (exists rows row,
        results = Ok rows /\ In row rows
        /\ risk_profile_of_row now row = Ok profile
        /\ profile_client_id profile = row_client_id row
        /\ risk_score profile = round (row_risk_score_float now row) 2
        /\ risk_level profile = risk_level_by_thresholds (row_risk_score_float now row))
    /\ (forall s : Q, determine_risk_level s = risk_level_by_thresholds s).
Proof.
  intros now results profile Hin. split; [| apply determine_risk_level_thresholds].
  unfold calculate_client_risk_profiles, calculate_client_risk_profiles_body, try_except in Hin.
  destruct results as [rows | e]; simpl in Hin; [| contradiction].
  destruct (for_each (risk_profile_of_row now) rows) as [out |] eqn:Hrun;
    [| contradiction].
  destruct (for_each_In _ _ _ _ Hrun Hin) as [row [Hrow Hprofile]].
  exists rows, row. split; [reflexivity |]. split; [exact Hrow |].
  split; [exact Hprofile |].
  unfold risk_profile_of_row in Hprofile.
  destruct (row_last_bounce_date row); simpl in Hprofile; try discriminate;
    inversion Hprofile; subst; simpl;
    (split; [reflexivity |]; split; [reflexivity |]; apply determine_risk_level_thresholds).
Qed.

(** The levels go with the clients: of two clients, one with every cheque
    bounced and one with none, the first is critical and the second low,
    in the order of the query. *)
Example risk_levels_of_two_clients :
  let row1 := {|
    row_client_id := 1; row_name := "Atlas SARL";
    row_total_cheques := 4; row_total_amount := Some 8000;
    row_bounced_cheques := 4; row_avg_processing_time := Some 31;
    row_last_bounce_date := Parsed 0; row_avg_cheque_amount := Some 2000;
    row_active_months := Some 2%Z
  |} in
  let row2 := {|
    row_client_id := 2; row_name := "Rif Import";
    row_total_cheques := 40; row_total_amount := Some 900000;
    row_bounced_cheques := 0; row_avg_processing_time := Some 3;
    row_last_bounce_date := NoDate; row_avg_cheque_amount := Some 22500;
    row_active_months := Some 12%Z
  |} in
  map (fun p => (profile_client_id p, risk_level p))
    (calculate_client_risk_profiles 864000 (Ok [row1; row2]))
  = [(1%Z, CRITICAL); (2%Z, LOW)].
Proof. reflexivity. Qed.

(** The bounce rate is rounded as the machine holds it: one bounced cheque
    out of 4000 is 0.025000000000000001..., stored as 0.03. *)
Example bounce_rate_of_one_in_4000 :
  let row := {|
    row_client_id := 3; row_name := "Souss Fruits";
    row_total_cheques := 4000; row_total_amount := Some 900000;
    row_bounced_cheques := 1; row_avg_processing_time := Some 3;
    row_last_bounce_date := NoDate; row_avg_cheque_amount := Some 225;
    row_active_months := Some 12%Z
  |} in
  map (fun p => Qred (bounce_rate p)) (calculate_client_risk_profiles 864000 (Ok [row]))
  = [0.03].
Proof. vm_compute. reflexivity. Qed.

(** The level is that of the score as computed; the profile stores the
    score rounded to two decimals.  With 25 bounced cheques out of 1001 the
    score is 39.995..., the level low and the stored score 40. *)
Example risk_level_before_rounding :
  let row := {|
    row_client_id := 7;
    row_name := "Atlas SARL";
    row_total_cheques := 1001;
    row_total_amount := Some 9000;
    row_bounced_cheques := 25;
    row_avg_processing_time := Some 31;
    row_last_bounce_date := Parsed 0;
    row_avg_cheque_amount := Some 9;
    row_active_months := Some 12%Z
  |} in
  row_risk_score_float 3456000 row < 40
  /\ match calculate_client_risk_profiles 3456000 (Ok [row]) with
     | [profile] => risk_level profile = LOW /\ risk_score profile == 40
     | _ => False
     end.
Proof.
  split; [reflexivity |]. vm_compute. split; reflexivity.
Qed.

End RiskLevel.

(** The theorem at one client: 25 bounced cheques out of 1001. *)
Lemma risk_level_is_four_bucket_threshold_witness :
  let row := {|
    AdvancedAnalytics.row_client_id := 7;
    AdvancedAnalytics.row_name := "Atlas SARL";
    AdvancedAnalytics.row_total_cheques := 1001;
    AdvancedAnalytics.row_total_amount := Some 9000%Q;
    AdvancedAnalytics.row_bounced_cheques := 25;
    AdvancedAnalytics.row_avg_processing_time := Some 31%Q;
    AdvancedAnalytics.row_last_bounce_date := Parsed 0;
    AdvancedAnalytics.row_avg_cheque_amount := Some 9%Q;
    AdvancedAnalytics.row_active_months := Some 12%Z
  |} in
  exists profile,
    In profile (AdvancedAnalytics.calculate_client_risk_profiles 3456000 (Ok [row]))
    /\ ((exists rows row',
            Ok [row] = Ok rows /\ In row' rows
            /\ AdvancedAnalytics.risk_profile_of_row 3456000 row' = Ok profile
            /\ AdvancedAnalytics.profile_client_id profile
               = AdvancedAnalytics.row_client_id row'
            /\ AdvancedAnalytics.risk_score profile
               = round (AdvancedAnalytics.row_risk_score_float 3456000 row') 2
            /\ AdvancedAnalytics.risk_level profile
               = risk_level_by_thresholds
                   (AdvancedAnalytics.row_risk_score_float 3456000 row'))
        /\ (forall s : Q,
               AdvancedAnalytics.determine_risk_level s = risk_level_by_thresholds s)).
Proof.
  intros row.
  refine (let H := _ : In _ (AdvancedAnalytics.calculate_client_risk_profiles
                               3456000 (Ok [row])) in
          ex_intro _ _ (conj H (risk_level_is_four_bucket_threshold _ _ _ H))).
  vm_compute. left. reflexivity.
Defined.

(* ================================================================== *)
(** * The bank status mapping                                          *)
(* ================================================================== *)

Section BankStatus.

Import SmartAutomation.

Lemma status_mapping_lookup (k : string) :
  status_mapping !! k =
    if String.eqb k "cleared" then Some "encaisse"%string
    else if String.eqb k "bounced" then Some "rejete"%string
    else if String.eqb k "returned" then Some "rejete"%string
    else if String.eqb k "pending" then Some "en_attente"%string
    else if String.eqb k "processing" then Some "depose"%string
    else if String.eqb k "cancelled" then Some "annule"%string
    else None.
Proof.
  unfold status_mapping.
  repeat match goal with
         | |- context [String.eqb k ?c] =>
             destruct (String.eqb_spec k c) as [-> | ?];
             [ reflexivity | rewrite lookup_insert_ne by congruence ]
         end.
  apply lookup_empty.
Qed.

(** C9.  [_map_bank_status_to_internal] answers exactly on the strings
    that, lowered, are one of the six bank statuses; what it answers is
    one of the six internal statuses of the [cheques] table; on every
    other string it answers [None]. *)
Theorem _map_bank_status_to_internal_six_entries :
  forall bank_status : string,
    match _map_bank_status_to_internal bank_status with
    | Some internal =>
        DbManager.mem_string (lower bank_status) bank_statuses = true
        /\ DbManager.mem_string internal DbManager.cheque_statuses = true
    | None =>
        DbManager.mem_string (lower bank_status) bank_statuses = false
    end.
Proof.
  intros bank_status. unfold _map_bank_status_to_internal.
  rewrite status_mapping_lookup.
  unfold DbManager.mem_string, bank_statuses. cbn [existsb].
  generalize (lower bank_status) as k. intros k.
  repeat match goal with
         | |- context [String.eqb k ?c] =>
             destruct (String.eqb k c) eqn:?; [ split; reflexivity |]
         end.
  reflexivity.
Qed.

Example _map_bank_status_to_internal_upper :
  _map_bank_status_to_internal "CLEARED" = Some "encaisse"%string
  /\ _map_bank_status_to_internal "Returned" = Some "rejete"%string
  /\ _map_bank_status_to_internal "lost" = None.
Proof. repeat split. Qed.

End BankStatus.

(* ================================================================== *)
(** * Roles and permissions                                            *)
(* ================================================================== *)

Section Roles.

Import SecurityManager.

(** C10.  A role the [users] table allows, other than admin and readonly,
    is comptable or agent, and [check_user_permissions] refuses it every
    permission: the role table has no entry for either. *)
Theorem comptable_and_agent_hold_no_permission :
  forall user_role required_permission : string,
    In user_role DbManager.user_roles ->
    user_role <> "admin"%string ->
    user_role <> "readonly"%string ->
    (user_role = "comptable"%string \/ user_role = "agent"%string)
    /\ check_user_permissions user_role required_permission = false
    /\ check_user_permissions "comptable" required_permission = false
    /\ check_user_permissions "agent" required_permission = false.
Proof.
  intros user_role required_permission Hin Hadmin Hreadonly.
  assert (Hrole : user_role = "comptable"%string \/ user_role = "agent"%string).
  { simpl in Hin. destruct Hin as [H | [H | [H | [H | []]]]]; subst; auto; congruence. }
  split; [exact Hrole |].
  split; [destruct Hrole; subst; reflexivity |].
  split; reflexivity.
Qed.

End Roles.

(** The theorem at an agent asking to read a cheque. *)
Lemma comptable_and_agent_hold_no_permission_witness :
  (In "agent"%string DbManager.user_roles
   /\ "agent"%string <> "admin"%string /\ "agent"%string <> "readonly"%string)
  /\ (("agent"%string = "comptable"%string \/ "agent"%string = "agent"%string)
      /\ SecurityManager.check_user_permissions "agent" "cheque.read" = false
      /\ SecurityManager.check_user_permissions "comptable" "cheque.read" = false
      /\ SecurityManager.check_user_permissions "agent" "cheque.read" = false).
Proof.
  assert (Hin : In "agent"%string DbManager.user_roles) by (simpl; auto).
  assert (Hadmin : "agent"%string <> "admin"%string) by discriminate.
  assert (Hreadonly : "agent"%string <> "readonly"%string) by discriminate.
  split; [repeat split; assumption |].
  exact (comptable_and_agent_hold_no_permission "agent" "cheque.read" Hin Hadmin Hreadonly).
Defined.

(* ================================================================== *)
(** * Inserting a cheque                                               *)
(* ================================================================== *)

Section AddCheque.

Import DbManager.
Local Open Scope Z_scope.

Lemma unique_conflict_iff (cheque_data : cheque_dict) (number : string) (branch : Z)
    (r : cheque) :
  d_cheque_number cheque_data = Val number ->
  d_branch_id cheque_data = Val branch ->
  unique_conflict number (Some branch) r = true <-> same_number_and_branch cheque_data r.
Proof.
  intros Hn Hb. unfold unique_conflict, same_number_and_branch.
  rewrite Hn, Hb. simpl. rewrite andb_true_iff, String.eqb_eq. split.
  - intros [-> H]. destruct (cheque_branch_id r) as [b |]; [| discriminate].
    apply Z.eqb_eq in H. subst. split; reflexivity.
  - intros [Hnum Hbr]. inversion Hnum; subst. rewrite <- Hbr. split; [reflexivity |].
    apply Z.eqb_refl.
Qed.

Lemma bind_int_fits (f : field Z) : fits f = true -> bind_int (get f) = Ok (get f).
Proof.
  destruct f as [| | z]; simpl; try reflexivity. intros ->. reflexivity.
Qed.

Lemma meets_column_constraints_inv (cheque_data : cheque_dict) :
  meets_column_constraints cheque_data = true ->
  exists amount issue due number branch,
    d_amount cheque_data = Val (Number amount)
    /\ d_issue_date cheque_data = Val issue
    /\ d_due_date cheque_data = Val due
    /\ d_cheque_number cheque_data = Val number
    /\ d_branch_id cheque_data = Val branch
    /\ fits_int64 branch = true
    /\ bind_int (get (d_client_id cheque_data)) = Ok (get (d_client_id cheque_data))
    /\ bind_int (get (d_created_by cheque_data)) = Ok (get (d_created_by cheque_data))
    /\ status_check (get_default (d_status cheque_data) "en_attente"%string) = true.
Proof.
  unfold meets_column_constraints, is_val, is_number. intros H.
  repeat (apply andb_true_iff in H; destruct H as [H ?]).
  destruct (d_amount cheque_data) as [| | [amount |]]; try discriminate.
  destruct (d_issue_date cheque_data) as [| | issue]; try discriminate.
  destruct (d_due_date cheque_data) as [| | due]; try discriminate.
  destruct (d_cheque_number cheque_data) as [| | number]; try discriminate.
  destruct (d_branch_id cheque_data) as [| | branch]; try discriminate.
  exists amount, issue, due, number, branch.
  repeat split; try assumption; apply bind_int_fits; assumption.
Qed.

(** What [add_cheque] does with data that meets the column constraints:
    the uniqueness test decides alone. *)
Lemma add_cheque_outcome now cheque_data db number branch :
  meets_column_constraints cheque_data = true ->
  d_cheque_number cheque_data = Val number ->
  d_branch_id cheque_data = Val branch ->
  if existsb (unique_conflict number (Some branch)) (cheques db)
  then add_cheque now cheque_data db = (Raise duplicate_cheque_error, db)
  else exists row,
      add_cheque now cheque_data db
      = (Ok (cheque_id row),
         {| banks := banks db;
            branches := branches db;
            clients := clients db;
            cheques := cheques db ++ [row];
            users := users db;
            notifications := notifications db;
            cheques_sequence := cheque_id row;
            notifications_sequence := notifications_sequence db |})
      /\ cheque_number row = number
      /\ cheque_branch_id row = Some branch.
Proof.
  intros Hmeets Hn Hb.
  destruct (meets_column_constraints_inv _ Hmeets)
    as (amount & issue & due & number' & branch' & Ha & Hi & Hd & Hn' & Hb' & Hfit
        & Hclient & Hcreator & Hs).
  rewrite Hn in Hn'. rewrite Hb in Hb'. inversion Hn'; inversion Hb'; subst number' branch'.
  unfold add_cheque, transaction. rewrite Ha, Hi, Hd, Hn, Hb. cbn [getitem bind].
  rewrite Hclient, Hcreator. cbn [bind bind_int bind_float get]. rewrite Hfit.
  cbn [bind not_null]. rewrite Hs. cbn [negb].
  destruct (existsb (unique_conflict number (Some branch)) (cheques db)).
  - reflexivity.
  - match goal with |- context [cheques db ++ [?r]] => exists r end.
    split; [reflexivity |]. split; reflexivity.
Qed.

Lemma existsb_conflict_iff cheque_data number branch (rows : list cheque) :
  d_cheque_number cheque_data = Val number ->
  d_branch_id cheque_data = Val branch ->
  existsb (unique_conflict number (Some branch)) rows = true
  <-> exists r, In r rows /\ same_number_and_branch cheque_data r.
Proof.
  intros Hn Hb. rewrite existsb_exists. split; intros [r [Hin Hr]]; exists r;
    (split; [exact Hin | apply (unique_conflict_iff cheque_data number branch r Hn Hb), Hr]).
Qed.

(** A failed [add_cheque] leaves the database as it was. *)
Lemma add_cheque_failure_rolls_back now cheque_data db e :
  fst (add_cheque now cheque_data db) = Raise e -> snd (add_cheque now cheque_data db) = db.
Proof.
  unfold add_cheque, transaction.
  match goal with |- context [match ?b with Ok _ => _ | Raise _ => _ end] =>
    destruct b as [[rowid db'] | e'] end; simpl; [discriminate | reflexivity].
Qed.

Lemma meets_column_constraints_with_branch cheque_data other_branch :
  meets_column_constraints cheque_data = true ->
  fits_int64 other_branch = true ->
  meets_column_constraints (with_branch_id cheque_data (Val other_branch)) = true.
Proof.
  unfold meets_column_constraints. intros H Hfit.
  repeat (apply andb_true_iff in H; destruct H as [H ?]).
  unfold with_branch_id.
  cbn [d_amount d_issue_date d_due_date d_cheque_number d_branch_id d_client_id
       d_created_by d_status is_val fits].
  rewrite Hfit. repeat (apply andb_true_iff; split); try assumption; reflexivity.
Qed.

(** C3, as amended.  For cheque data that [sqlite3] binds (an amount that
    is not NaN, integers within 64 bits), that meets the [NOT NULL] and
    [CHECK] constraints of the table and names a branch, [add_cheque] fails
    if and only if a row with the same number and the same branch exists,
    the failure being the uniqueness error; a failure leaves the database
    as it was and a success appends one row; a second insert of the same
    data is rejected by the uniqueness constraint; and the same number
    under another branch, one under which the table does not hold it yet,
    is accepted. *)
Theorem add_cheque_unique_within_branch :
  forall (now now' : string) (cheque_data : cheque_dict) (db : database) (other_branch : Z),
    meets_column_constraints cheque_data = true ->
    d_branch_id cheque_data <> Val other_branch ->
    fits_int64 other_branch = true ->
    (forall r, In r (cheques db) ->
               ~ same_number_and_branch (with_branch_id cheque_data (Val other_branch)) r) ->
    let first := add_cheque now cheque_data db in
    (is_ok (fst first) = false
     <-> exists r, In r (cheques db) /\ same_number_and_branch cheque_data r)
    /\ (if is_ok (fst first)
        then exists row, cheques (snd first) = cheques db ++ [row]
                         /\ same_number_and_branch cheque_data row
        else fst first = Raise duplicate_cheque_error /\ snd first = db)
    /\ add_cheque now' cheque_data (snd first) = (Raise duplicate_cheque_error, snd first)
    /\ is_ok (fst (add_cheque now' (with_branch_id cheque_data (Val other_branch))
                     (snd first))) = true.
Proof.
  intros now now' cheque_data db other_branch Hmeets Hother Hfit Hfree first.
  destruct (meets_column_constraints_inv _ Hmeets)
    as (amount & issue & due & number & branch & _ & _ & _ & Hn & Hb & _).
  assert (Hne : branch <> other_branch) by (intros ->; apply Hother, Hb).
  pose proof (add_cheque_outcome now cheque_data db number branch Hmeets Hn Hb) as Hfirst.
  pose proof (existsb_conflict_iff cheque_data number branch (cheques db) Hn Hb) as Hiff.
  assert (Hfree' : existsb (unique_conflict number (Some other_branch)) (cheques db) = false).
  { apply not_true_is_false. intros Hex.
    apply (existsb_conflict_iff (with_branch_id cheque_data (Val other_branch))
             number other_branch) in Hex; [| exact Hn | reflexivity].
    destruct Hex as [r [Hin Hr]]. exact (Hfree r Hin Hr). }
  assert (Hsecond : forall db1,
             existsb (unique_conflict number (Some branch)) (cheques db1) = true ->
             add_cheque now' cheque_data db1 = (Raise duplicate_cheque_error, db1)).
  { intros db1 Hex.
    pose proof (add_cheque_outcome now' cheque_data db1 number branch Hmeets Hn Hb) as H.
    rewrite Hex in H. exact H. }
  assert (Hthird : forall db1,
             existsb (unique_conflict number (Some other_branch)) (cheques db1) = false ->
             is_ok (fst (add_cheque now' (with_branch_id cheque_data (Val other_branch)) db1))
             = true).
  { intros db1 Hex.
    pose proof (add_cheque_outcome now' (with_branch_id cheque_data (Val other_branch)) db1
                  number other_branch
                  (meets_column_constraints_with_branch _ _ Hmeets Hfit) Hn eq_refl) as H.
    rewrite Hex in H. destruct H as [row [-> _]]. reflexivity. }
  destruct (existsb (unique_conflict number (Some branch)) (cheques db)) eqn:Hex.
  - (* a row with the number and the branch exists *)
    subst first. rewrite Hfirst. simpl.
    split; [split; [intros _; apply Hiff; reflexivity | reflexivity] |].
    split; [split; reflexivity |].
    split; [apply Hsecond, Hex | apply Hthird, Hfree'].
  - (* no such row *)
    destruct Hfirst as [row [Hrun [Hrow_n Hrow_b]]].
    subst first. rewrite Hrun. simpl.
    assert (Hrow : same_number_and_branch cheque_data row).
    { unfold same_number_and_branch. rewrite Hn, Hb, Hrow_n, Hrow_b. split; reflexivity. }
    split.
    { split; [discriminate |]. intros H. apply Hiff in H. discriminate. }
    split; [exists row; split; [reflexivity | exact Hrow] |].
    split.
    + apply Hsecond. simpl. rewrite existsb_app, Hex. simpl.
      unfold unique_conflict. rewrite Hrow_n, Hrow_b, String.eqb_refl, Z.eqb_refl.
      reflexivity.
    + apply Hthird. simpl. rewrite existsb_app, Hfree'. simpl.
      unfold unique_conflict. rewrite Hrow_n, Hrow_b, String.eqb_refl. simpl.
      rewrite orb_false_r. apply Z.eqb_neq, Hne.
Qed.

End AddCheque.

(** The theorem at cheque A1 of branch 2, inserted twice into an empty
    database and then once more under branch 3. *)
Lemma add_cheque_unique_within_branch_witness :
  let first := DbManager.add_cheque "2024-01-10 09:00:00" cheque_A1 empty_database in
  (meets_column_constraints cheque_A1 = true
   /\ DbManager.d_branch_id cheque_A1 <> Val 3%Z
   /\ fits_int64 3 = true
   /\ (forall r, In r (DbManager.cheques empty_database) ->
                 ~ same_number_and_branch (with_branch_id cheque_A1 (Val 3%Z)) r))
  /\ fst first = Ok 1%Z
  /\ DbManager.add_cheque "2024-01-10 09:05:00" cheque_A1 (snd first)
     = (Raise duplicate_cheque_error, snd first)
  /\ is_ok (fst (DbManager.add_cheque "2024-01-10 09:05:00"
                   (with_branch_id cheque_A1 (Val 3%Z)) (snd first))) = true.
Proof.
  intros first.
  assert (H1 : meets_column_constraints cheque_A1 = true) by reflexivity.
  assert (H2 : DbManager.d_branch_id cheque_A1 <> Val 3%Z) by discriminate.
  assert (Hfit : fits_int64 3 = true) by reflexivity.
  assert (H3 : forall r, In r (DbManager.cheques empty_database) ->
                         ~ same_number_and_branch (with_branch_id cheque_A1 (Val 3%Z)) r)
    by (intros r []).
  split; [repeat split; assumption |].
  split; [reflexivity |].
  destruct (add_cheque_unique_within_branch
              "2024-01-10 09:00:00" "2024-01-10 09:05:00" cheque_A1 empty_database 3
              H1 H2 Hfit H3) as (_ & _ & Hsecond & Hother).
  split; [exact Hsecond | exact Hother].
Defined.

(** C3, as stated, fails.  With no branch ([None], stored as [NULL]) the
    same number is accepted twice although a row with the same number and
    the same branch value exists; and the example of the specification
    taken literally, without the dates the table requires, is refused on
    an empty table, where no such row exists. *)
Lemma add_cheque_iff_duplicate_counterexample :
  let no_branch := with_branch_id cheque_A1 PyNone in
  let db1 := snd (DbManager.add_cheque "2024-01-10 09:00:00" no_branch empty_database) in
  let literal := {|
    DbManager.d_id := Absent;
    DbManager.d_amount := Val (Number 1000);
    DbManager.d_currency := Absent;
    DbManager.d_issue_date := Absent;
    DbManager.d_due_date := Absent;
    DbManager.d_client_id := Val 5%Z;
    DbManager.d_branch_id := Val 2%Z;
    DbManager.d_status := Absent;
    DbManager.d_cheque_number := Val "A1"%string;
    DbManager.d_scan_path := Absent;
    DbManager.d_depositor_name := Absent;
    DbManager.d_invoice_number := Absent;
    DbManager.d_invoice_date := Absent;
    DbManager.d_notes := Absent;
    DbManager.d_created_at := Absent;
    DbManager.d_updated_at := Absent;
    DbManager.d_created_by := Absent
  |} in
  ~ (is_ok (fst (DbManager.add_cheque "2024-01-10 09:05:00" no_branch db1)) = false
     <-> exists r, In r (DbManager.cheques db1) /\ same_number_and_branch no_branch r)
  /\ ~ (is_ok (fst (DbManager.add_cheque "2024-01-10 09:00:00" literal empty_database))
        = false
        <-> exists r, In r (DbManager.cheques empty_database)
                      /\ same_number_and_branch literal r).
Proof.
  intros no_branch db1 literal. split.
  - intros [_ H].
    assert (Hfails : is_ok (fst (DbManager.add_cheque "2024-01-10 09:05:00" no_branch db1))
                     = false).
    { apply H. eexists. split; [left; reflexivity | split; reflexivity]. }
    vm_compute in Hfails. discriminate.
  - intros [H _].
    destruct H as [r [[] _]]. reflexivity.
Qed.

(* ================================================================== *)
(** * Changing the status of a cheque                                  *)
(* ================================================================== *)

Section UpdateStatus.

Import DbManager.
Local Open Scope Z_scope.

Lemma rowcount_where_id_pos {R} (key : R -> Z) (id : Z) (table : list R) :
  (exists r, In r table /\ key r = id) -> (0 <? rowcount_where_id key id table) = true.
Proof.
  intros [r [Hin Hkey]]. unfold rowcount_where_id. apply Z.ltb_lt.
  assert (Hf : In r (List.filter (fun r => key r =? id) table)).
  { apply filter_In. split; [exact Hin | apply Z.eqb_eq, Hkey]. }
  destruct (List.filter (fun r => key r =? id) table); [contradiction | simpl; lia].
Qed.

Lemma status_messages_notified (new_status : string) :
  In new_status notified_statuses -> exists message, status_messages !! new_status = Some message.
Proof.
  unfold notified_statuses. simpl.
  intros [<- | [<- | [<- | [<- | []]]]]; eexists; reflexivity.
Qed.

Lemma notified_statuses_check (new_status : string) :
  In new_status notified_statuses -> status_check (Some new_status) = true.
Proof.
  unfold notified_statuses. simpl.
  intros [<- | [<- | [<- | [<- | []]]]]; reflexivity.
Qed.

(** A status with a message: the cursor gains one row, which records the
    change. *)
Lemma _create_status_notification_notified now cur cheque_id new_status user_id :
  In new_status notified_statuses ->
  exists n,
    notifications (cursor_db (_create_status_notification now cur cheque_id new_status user_id))
    = notifications (cursor_db cur) ++ [n]
    /\ cursor_rowcount (_create_status_notification now cur cheque_id new_status user_id) = 1
    /\ records_status_change cheque_id user_id n.
Proof.
  intros Hin. destruct (status_messages_notified _ Hin) as [message Hmsg].
  unfold _create_status_notification. rewrite Hmsg. simpl.
  eexists. split; [reflexivity |]. split; [reflexivity |].
  unfold records_status_change. simpl. repeat split.
Qed.

(** Any status: the cursor gains at most one row. *)
Lemma _create_status_notification_at_most_one now cur cheque_id new_status user_id :
  (List.length
     (notifications (cursor_db (_create_status_notification now cur cheque_id new_status user_id)))
   <= S (List.length (notifications (cursor_db cur))))%nat.
Proof.
  unfold _create_status_notification.
  destruct (status_messages !! new_status); simpl; [| lia].
  rewrite length_app. simpl. lia.
Qed.

(** C6, as amended.  For a cheque that exists and a change to encaisse,
    rejete, impaye or annule: one call to [update_cheque_status] made with a
    user id other than 0 succeeds and appends exactly one notification row,
    which records the change; the same call made without a user id, or with
    0, succeeds and appends none; and no call, whatever its user id,
    appends more than one row. *)
Theorem update_cheque_status_notifies_once :
  forall (now : string) (cheque_id : Z) (new_status : string) (user_id : Z)
         (any_user_id : option Z) (db : database),
    (exists r, In r (cheques db) /\ DbManager.cheque_id r = cheque_id) ->
    In new_status notified_statuses ->
    user_id <> 0 ->
    (exists n,
        fst (update_cheque_status now cheque_id new_status (Some user_id) db) = Ok true
        /\ notifications (snd (update_cheque_status now cheque_id new_status (Some user_id) db))
           = notifications db ++ [n]
        /\ records_status_change cheque_id user_id n)
    /\ (fst (update_cheque_status now cheque_id new_status None db) = Ok true
        /\ notifications (snd (update_cheque_status now cheque_id new_status None db))
           = notifications db)
    /\ (fst (update_cheque_status now cheque_id new_status (Some 0) db) = Ok true
        /\ notifications (snd (update_cheque_status now cheque_id new_status (Some 0) db))
           = notifications db)
    /\ (List.length
          (notifications (snd (update_cheque_status now cheque_id new_status any_user_id db)))
        <= S (List.length (notifications db)))%nat.
Proof.
  intros now cheque_id new_status user_id any_user_id db Hexists Hstatus Huser.
  pose proof (rowcount_where_id_pos DbManager.cheque_id cheque_id (cheques db) Hexists)
    as Hcount.
  pose proof (notified_statuses_check _ Hstatus) as Hcheck.
  unfold update_cheque_status, transaction. rewrite Hcount, Hcheck.
  cbn [negb andb cursor_db cursor_rowcount truthy_id].
  rewrite Hcount.
  split; [| split; [| split]].
  - apply Z.eqb_neq in Huser. rewrite Huser.
    match goal with
    | |- context [_create_status_notification now ?cur cheque_id new_status user_id] =>
        destruct (_create_status_notification_notified now cur cheque_id new_status user_id
                    Hstatus) as [n [Hn [Hrc Hrec]]]
    end.
    exists n. cbn [fst snd]. rewrite Hrc, Hn. repeat split; apply Hrec.
  - cbn [fst snd cursor_db cursor_rowcount notifications].
    split; reflexivity.
  - cbn [Z.eqb fst snd cursor_db cursor_rowcount notifications]. rewrite Hcount.
    split; reflexivity.
  - destruct (truthy_id any_user_id) as [u |]; cbn [fst snd cursor_db notifications].
    + match goal with
      | |- context [_create_status_notification now ?cur cheque_id new_status u] =>
          pose proof (_create_status_notification_at_most_one now cur cheque_id new_status u)
            as Hle
      end.
      exact Hle.
    + lia.
Qed.

End UpdateStatus.

(** The theorem at cheque 1, cashed by user 1. *)
Lemma update_cheque_status_notifies_once_witness :
  ((exists r, In r (DbManager.cheques database_with_A1) /\ DbManager.cheque_id r = 1%Z)
   /\ In "encaisse"%string notified_statuses
   /\ 1%Z <> 0%Z)
  /\ (exists n,
         fst (DbManager.update_cheque_status "2024-02-11 10:00:00" 1 "encaisse" (Some 1%Z)
                database_with_A1) = Ok true
         /\ DbManager.notifications
              (snd (DbManager.update_cheque_status "2024-02-11 10:00:00" 1 "encaisse"
                      (Some 1%Z) database_with_A1))
            = DbManager.notifications database_with_A1 ++ [n]
         /\ records_status_change 1 1 n).
Proof.
  assert (H1 : exists r, In r (DbManager.cheques database_with_A1)
                         /\ DbManager.cheque_id r = 1%Z).
  { eexists. split; [left; reflexivity | reflexivity]. }
  assert (H2 : In "encaisse"%string notified_statuses) by (left; reflexivity).
  assert (H3 : 1%Z <> 0%Z) by discriminate.
  split; [repeat split; assumption |].
  exact (proj1 (update_cheque_status_notifies_once "2024-02-11 10:00:00" 1 "encaisse" 1
                  None database_with_A1 H1 H2 H3)).
Defined.

(** C6, as stated, fails.  Cheque 1 is cashed by a call that gives no user
    id, the default of the parameter: the status changes to encaisse and the
    notifications table stays empty. *)
Lemma update_cheque_status_without_user_counterexample :
  let after :=
    DbManager.update_cheque_status "2024-02-11 10:00:00" 1 "encaisse" None database_with_A1 in
  map DbManager.cheque_status (DbManager.cheques database_with_A1) = [Some "en_attente"%string]
  /\ fst after = Ok true
  /\ map DbManager.cheque_status (DbManager.cheques (snd after)) = [Some "encaisse"%string]
  /\ DbManager.notifications (snd after) = [].
Proof.
  repeat split.
Qed.

(* ================================================================== *)
(** * Soft deletion                                                    *)
(* ================================================================== *)

Section SoftDelete.

Import DbManager.
Local Open Scope Z_scope.

Lemma update_where_id_soft_deleted {R} (key : R -> Z) (active : R -> option bool)
    (columns_kept : R -> R -> Prop) (set : R -> R) (id : Z) (table : list R) :
  (forall r, active (set r) = Some false /\ columns_kept r (set r)) ->
  soft_deleted key active columns_kept id table (update_where_id key set id table).
Proof.
  intros Hset. unfold soft_deleted, update_where_id.
  induction table as [| r table IH]; simpl; constructor; [| exact IH].
  destruct (key r =? id); [apply Hset | reflexivity].
Qed.

Lemma deactivate_bank_keeps r :
  bank_active (deactivate_bank r) = Some false /\ bank_columns_kept r (deactivate_bank r).
Proof. unfold bank_columns_kept. simpl. repeat split. Qed.

Lemma deactivate_branch_keeps r :
  branch_active (Settings.deactivate_branch r) = Some false
  /\ branch_columns_kept r (Settings.deactivate_branch r).
Proof. unfold branch_columns_kept. simpl. repeat split. Qed.

Lemma deactivate_user_keeps r :
  user_active (Settings.deactivate_user r) = Some false
  /\ user_columns_kept r (Settings.deactivate_user r).
Proof. unfold user_columns_kept. simpl. repeat split. Qed.

(** C7.  Soft-deleting a bank ([DatabaseManager.delete_bank], reached from
    the settings screen), a branch or a user (the two statements of the
    settings screen) sets the [active] flag of the row with that id to
    false and keeps every other column of the row, every other row of the
    table in its place, and every other table, the cheques among them, as
    it was.  The settings screen refuses to delete the account that is
    logged in and then changes nothing. *)
Theorem soft_delete_flips_active_only :
  forall (id current_user_id : Z) (db : database),
    let db_bank := snd (DbManager.delete_bank id db) in
    let db_branch := Settings.delete_branch (Some id) true db in
    let db_user := Settings.delete_user current_user_id (Some id) true db in
    (soft_deleted bank_id bank_active bank_columns_kept id (banks db) (banks db_bank)
     /\ Settings.delete_bank (Some id) true db = db_bank
     /\ branches db_bank = branches db /\ clients db_bank = clients db
     /\ cheques db_bank = cheques db /\ users db_bank = users db
     /\ notifications db_bank = notifications db)
    /\ (soft_deleted branch_id branch_active branch_columns_kept id
          (branches db) (branches db_branch)
        /\ banks db_branch = banks db /\ clients db_branch = clients db
        /\ cheques db_branch = cheques db /\ users db_branch = users db
        /\ notifications db_branch = notifications db)
    /\ (if id =? current_user_id then db_user = db
        else soft_deleted user_id user_active user_columns_kept id (users db) (users db_user)
             /\ banks db_user = banks db /\ branches db_user = branches db
             /\ clients db_user = clients db /\ cheques db_user = cheques db
             /\ notifications db_user = notifications db).
Proof.
  intros id current_user_id db. cbn zeta. split; [| split].
  - split; [| repeat split].
    apply update_where_id_soft_deleted, deactivate_bank_keeps.
  - split; [| repeat split].
    apply update_where_id_soft_deleted, deactivate_branch_keeps.
  - unfold Settings.delete_user. destruct (id =? current_user_id); [reflexivity |].
    split; [| repeat split].
    apply update_where_id_soft_deleted, deactivate_user_keeps.
Qed.

End SoftDelete.

(* ================================================================== *)
(** * The duplicate scores                                             *)
(* ================================================================== *)

Section Similarity.

Local Open Scope Q_scope.
Import DbManager AdvancedAnalytics SmartAutomation.

Lemma indicator_range (b : bool) : 0 <= indicator b <= 1.
Proof. destruct b; simpl; lra. Qed.

Lemma indicator_le (b b' : bool) : Bool.le b b' -> indicator b <= indicator b'.
Proof. destruct b, b'; simpl; intros H; try discriminate; lra. Qed.

Lemma Qmin_eq_l (a b c : Q) : a == b -> Qmin a c == Qmin b c.
Proof.
  intros H.
  destruct (Q.min_spec a c) as [[? ->] | [? ->]], (Q.min_spec b c) as [[? ->] | [? ->]]; lra.
Qed.

(** The pairwise score is the weighted sum of the criteria of the row. *)
Lemma _calculate_similarity_score_weighted (row : pair_row) :
  _calculate_similarity_score row == pairwise_weighted_sum (pair_criteria row).
Proof.
  unfold _calculate_similarity_score, pairwise_weighted_sum, pair_criteria, indicator.
  cbn [number_matches amount_matches client_matches fourth_grade].
  apply Qmin_eq_l.
  destruct (String.eqb (number1 row) (number2 row)),
    (Qeq_bool (amount1 row) (amount2 row)),
    (eq_opt Z.eqb (client1 row) (client2 row)),
    (date1 row) as [| | d1], (date2 row) as [| | d2];
    try (destruct (Z.abs (days_between d1 d2) <=? 1)%Z,
                  (Z.abs (days_between d1 d2) <=? 7)%Z);
    lra.
Qed.

(** The candidate score, when both amounts are numbers, is returned and is
    the weighted sum of the criteria of the two dictionaries. *)
Lemma _calculate_cheque_similarity_weighted (cheque1 cheque2 : cheque_dict) :
  d_amount cheque1 <> PyNone ->
  d_amount cheque2 <> PyNone ->
  exists s,
    _calculate_cheque_similarity cheque1 cheque2 = Ok s
    /\ s == candidate_weighted_sum (candidate_criteria cheque1 cheque2).
Proof.
  intros H1 H2.
  unfold _calculate_cheque_similarity, candidate_weighted_sum, candidate_criteria, indicator.
  cbn [number_matches amount_matches client_matches fourth_grade].
  destruct (get_default (d_amount cheque1) (Number 0)) as [amount1 |] eqn:E1;
    [| destruct (d_amount cheque1); simpl in E1; congruence].
  destruct (get_default (d_amount cheque2) (Number 0)) as [amount2 |] eqn:E2;
    [| destruct (d_amount cheque2); simpl in E2; congruence].
  cbn [Py.float bind]. eexists. split; [reflexivity |].
  apply Qmin_eq_l.
  destruct (eq_opt String.eqb (get (d_cheque_number cheque1)) (get (d_cheque_number cheque2))),
    (within amount1 amount2 0.01),
    (eq_opt Z.eqb (get (d_client_id cheque1)) (get (d_client_id cheque2))),
    (eq_opt Z.eqb (get (d_branch_id cheque1)) (get (d_branch_id cheque2)));
    simpl; lra.
Qed.

(** A [None] amount makes the candidate scorer raise. *)
Lemma _calculate_cheque_similarity_raises (cheque1 cheque2 : cheque_dict) :
  d_amount cheque1 = PyNone \/ d_amount cheque2 = PyNone ->
  is_ok (_calculate_cheque_similarity cheque1 cheque2) = false.
Proof.
  unfold _calculate_cheque_similarity.
  intros [H | H]; rewrite H; simpl; [reflexivity |].
  destruct (get_default (d_amount cheque1) (Number 0)); reflexivity.
Qed.

Lemma pairwise_weighted_sum_range (c : criteria) : 0 <= pairwise_weighted_sum c <= 1.
Proof.
  unfold pairwise_weighted_sum. split; [| apply Q.le_min_r].
  pose proof (indicator_range (number_matches c)).
  pose proof (indicator_range (amount_matches c)).
  pose proof (indicator_range (client_matches c)).
  apply Qmin_lower; [| lra].
  destruct (fourth_grade c) as [| [| n]]; lra.
Qed.

Lemma candidate_weighted_sum_range (c : criteria) : 0 <= candidate_weighted_sum c <= 1.
Proof.
  unfold candidate_weighted_sum. split; [| apply Q.le_min_r].
  pose proof (indicator_range (number_matches c)).
  pose proof (indicator_range (amount_matches c)).
  pose proof (indicator_range (client_matches c)).
  pose proof (indicator_range (Nat.leb 1 (fourth_grade c))).
  apply Qmin_lower; lra.
Qed.

Lemma pairwise_weighted_sum_mono (c c' : criteria) :
  criteria_le c c' -> pairwise_weighted_sum c <= pairwise_weighted_sum c'.
Proof.
  intros (Hn & Ha & Hc & Hg). unfold pairwise_weighted_sum.
  apply indicator_le in Hn, Ha, Hc. apply Qmin_mono_l.
  destruct (fourth_grade c) as [| [| n]], (fourth_grade c') as [| [| n']]; try lia; lra.
Qed.

Lemma candidate_weighted_sum_mono (c c' : criteria) :
  criteria_le c c' -> candidate_weighted_sum c <= candidate_weighted_sum c'.
Proof.
  intros (Hn & Ha & Hc & Hg). unfold candidate_weighted_sum.
  apply indicator_le in Hn, Ha, Hc. apply Qmin_mono_l.
  assert (Hb : indicator (Nat.leb 1 (fourth_grade c))
               <= indicator (Nat.leb 1 (fourth_grade c'))).
  { apply indicator_le.
    destruct (fourth_grade c) as [| n], (fourth_grade c') as [| n']; simpl; auto; lia. }
  lra.
Qed.

(** C2.  The pairwise score of [AdvancedAnalytics] and, for dictionaries
    whose amounts are numbers, the score [SmartAutomation] returns lie
    between 0 and 1; and a pair that satisfies every sub-criterion another
    pair satisfies, each at an equal or higher grade, scores at least as
    much. *)
Theorem similarity_scores_bounded_and_monotone :
  forall (row row' : pair_row) (cheque1 cheque2 cheque1' cheque2' : cheque_dict),
    criteria_le (pair_criteria row) (pair_criteria row') ->
    criteria_le (candidate_criteria cheque1 cheque2) (candidate_criteria cheque1' cheque2') ->
    d_amount cheque1 <> PyNone -> d_amount cheque2 <> PyNone ->
    d_amount cheque1' <> PyNone -> d_amount cheque2' <> PyNone ->
    (0 <= _calculate_similarity_score row <= 1
     /\ _calculate_similarity_score row <= _calculate_similarity_score row')
    /\ (exists s s',
           _calculate_cheque_similarity cheque1 cheque2 = Ok s
           /\ _calculate_cheque_similarity cheque1' cheque2' = Ok s'
           /\ 0 <= s <= 1
           /\ s <= s').
Proof.
  intros row row' cheque1 cheque2 cheque1' cheque2' Hpair Hcand H1 H2 H1' H2'.
  split.
  - rewrite !_calculate_similarity_score_weighted.
    split; [apply pairwise_weighted_sum_range | apply pairwise_weighted_sum_mono, Hpair].
  - destruct (_calculate_cheque_similarity_weighted cheque1 cheque2 H1 H2) as [s [Hs Es]].
    destruct (_calculate_cheque_similarity_weighted cheque1' cheque2' H1' H2')
      as [s' [Hs' Es']].
    exists s, s'. split; [exact Hs |]. split; [exact Hs' |].
    rewrite Es, Es'.
    split; [apply candidate_weighted_sum_range | apply candidate_weighted_sum_mono, Hcand].
Qed.


End Similarity.

(** The theorem at two pairs: cheques that share their number and lie two
    days apart, against cheques that share number, amount and client on
    the same day; and cheque A1 against itself under branch 3, against
    itself under branch 2. *)
Lemma similarity_scores_bounded_and_monotone_witness :
  let row := {|
    AdvancedAnalytics.id1 := 1; AdvancedAnalytics.number1 := "A1";
    AdvancedAnalytics.amount1 := 1000; AdvancedAnalytics.client1 := Some 5%Z;
    AdvancedAnalytics.date1 := Parsed 0;
    AdvancedAnalytics.id2 := 2; AdvancedAnalytics.number2 := "A1";
    AdvancedAnalytics.amount2 := 1200; AdvancedAnalytics.client2 := Some 6%Z;
    AdvancedAnalytics.date2 := Parsed 100000;
    AdvancedAnalytics.client_name1 := None; AdvancedAnalytics.client_name2 := None
  |} in
  let row' := {|
    AdvancedAnalytics.id1 := 1; AdvancedAnalytics.number1 := "A1";
    AdvancedAnalytics.amount1 := 1000; AdvancedAnalytics.client1 := Some 5%Z;
    AdvancedAnalytics.date1 := Parsed 0;
    AdvancedAnalytics.id2 := 2; AdvancedAnalytics.number2 := "A1";
    AdvancedAnalytics.amount2 := 1000; AdvancedAnalytics.client2 := Some 5%Z;
    AdvancedAnalytics.date2 := Parsed 3600;
    AdvancedAnalytics.client_name1 := None; AdvancedAnalytics.client_name2 := None
  |} in
  let other := with_branch_id cheque_A1 (Val 3%Z) in
  (criteria_le (pair_criteria row) (pair_criteria row')
   /\ criteria_le (candidate_criteria cheque_A1 other) (candidate_criteria cheque_A1 cheque_A1)
   /\ DbManager.d_amount cheque_A1 <> PyNone /\ DbManager.d_amount other <> PyNone)
  /\ ((0 <= AdvancedAnalytics._calculate_similarity_score row <= 1)%Q
      /\ (AdvancedAnalytics._calculate_similarity_score row
          <= AdvancedAnalytics._calculate_similarity_score row')%Q)
  /\ (exists s s',
         SmartAutomation._calculate_cheque_similarity cheque_A1 other = Ok s
         /\ SmartAutomation._calculate_cheque_similarity cheque_A1 cheque_A1 = Ok s'
         /\ (0 <= s <= 1)%Q
         /\ (s <= s')%Q).
Proof.
  intros row row' other.
  assert (H1 : criteria_le (pair_criteria row) (pair_criteria row')).
  { unfold criteria_le. simpl. repeat split; lia. }
  assert (H2 : criteria_le (candidate_criteria cheque_A1 other)
                 (candidate_criteria cheque_A1 cheque_A1)).
  { unfold criteria_le. simpl. repeat split; lia. }
  assert (H3 : DbManager.d_amount cheque_A1 <> PyNone) by discriminate.
  assert (H4 : DbManager.d_amount other <> PyNone) by discriminate.
  split; [exact (conj H1 (conj H2 (conj H3 H4))) |].
  exact (similarity_scores_bounded_and_monotone row row' cheque_A1 other cheque_A1 cheque_A1
           H1 H2 H3 H4 H3 H3).
Defined.

(* ================================================================== *)
(** * Exceptions at the boundary of a method                           *)
(* ================================================================== *)

Section Handlers.

Import DbManager AdvancedAnalytics SmartAutomation SecurityManager.

Lemma try_except_raised {A} (body : result A) (handler : A) :
  is_ok body = false -> try_except body handler = handler.
Proof. destruct body; [discriminate | reflexivity]. Qed.

Lemma try_except_some_raised {A} (body : result A) :
  is_ok body = false ->
  try_except (Py.bind body (fun a => Ok (Some a))) None = None.
Proof. destruct body; [discriminate | reflexivity]. Qed.

Lemma handled_by (fails : bool) {A B} (body : result A) (returned default : B) :
  is_ok body = negb fails ->
  (is_ok body = false -> returned = default) ->
  handled body fails returned default.
Proof.
  intros Hbody Hdefault. split; [exact Hbody |].
  intros Hfails. apply Hdefault. rewrite Hbody, Hfails. reflexivity.
Qed.

Lemma for_each_is_ok {A B} (f : A -> result B) (refused : A -> bool) (l : list A) :
  (forall x, is_ok (f x) = negb (refused x)) ->
  is_ok (for_each f l) = negb (existsb refused l).
Proof.
  intros Hf. induction l as [| x l IH]; [reflexivity |].
  cbn [for_each existsb]. specialize (Hf x).
  destruct (f x) as [y |]; cbn [Py.bind is_ok] in *.
  - destruct (refused x); [discriminate |].
    destruct (for_each f l); cbn [Py.bind is_ok orb] in *; exact IH.
  - destruct (refused x); [reflexivity | discriminate].
Qed.

(** ** [AdvancedAnalytics] *)

Lemma get_cheque_aging_analysis_handled (results : result (list aging_row)) :
  handled (get_cheque_aging_analysis_body results)
    (get_cheque_aging_analysis_fails results)
    (get_cheque_aging_analysis results) [].
Proof.
  apply handled_by; [| apply try_except_raised].
  destruct results as [rows |]; [| reflexivity].
  apply for_each_is_ok. intros row.
  unfold aging_data_of_row, aging_row_refused, round_column, int_column.
  destruct (aging_avg_days row), (aging_min_days row), (aging_max_days row); reflexivity.
Qed.

Lemma get_seasonal_trends_handled {Monthly Quarterly Daily : Type}
    (monthly : result (list Monthly)) (quarterly : result (list Quarterly))
    (daily : result (list Daily)) :
  handled (get_seasonal_trends_body monthly quarterly daily)
    (get_seasonal_trends_fails monthly quarterly daily)
    (get_seasonal_trends monthly quarterly daily) None.
Proof.
  apply handled_by; [| apply try_except_some_raised].
  destruct monthly, quarterly, daily; reflexivity.
Qed.

Lemma calculate_client_risk_profiles_handled (now : Z) (results : result (list client_row)) :
  handled (calculate_client_risk_profiles_body now results)
    (calculate_client_risk_profiles_fails results)
    (calculate_client_risk_profiles now results) [].
Proof.
  apply handled_by; [| apply try_except_raised].
  destruct results as [rows |]; [| reflexivity].
  apply for_each_is_ok. intros row.
  unfold risk_profile_of_row, risk_row_refused.
  destruct (row_last_bounce_date row); reflexivity.
Qed.

Lemma get_performance_metrics_handled {Bank Month : Type}
    (overall_fetched : result overall_row) (bank_fetched : result (list Bank))
    (monthly_fetched : result (list Month)) :
  handled (get_performance_metrics_body overall_fetched bank_fetched monthly_fetched)
    (get_performance_metrics_fails overall_fetched bank_fetched monthly_fetched)
    (get_performance_metrics overall_fetched bank_fetched monthly_fetched) None.
Proof.
  apply handled_by; [| apply try_except_some_raised].
  destruct overall_fetched as [row |]; [| reflexivity].
  unfold get_performance_metrics_body, get_performance_metrics_fails.
  cbn [Py.bind].
  destruct (overall_successful_cheques row), (overall_failed_cheques row),
    bank_fetched, monthly_fetched; reflexivity.
Qed.

Lemma predict_cash_flow_handled (sum : list Q -> Q) (days_ahead : Z)
    (pending_fetched : result (list pending_row)) (rate_fetched : result (option Q)) :
  handled (predict_cash_flow_body sum days_ahead pending_fetched rate_fetched)
    (predict_cash_flow_fails pending_fetched rate_fetched)
    (predict_cash_flow sum days_ahead pending_fetched rate_fetched) None.
Proof.
  apply handled_by; [| apply try_except_some_raised].
  destruct pending_fetched as [rows |], rate_fetched as [rate |]; try reflexivity.
  unfold predict_cash_flow_body. cbn [Py.bind].
  destruct (predict (or_Q rate (binary64 0.8)) rows 0). reflexivity.
Qed.

Lemma get_duplicate_detection_analysis_handled (fetched : result (list pair_row)) :
  handled (get_duplicate_detection_analysis_body fetched) (raised fetched)
    (get_duplicate_detection_analysis fetched) [].
Proof.
  apply handled_by; [| apply try_except_raised].
  destruct fetched; reflexivity.
Qed.

(** ** [SmartAutomation] *)

Lemma calculate_ai_risk_score_handled (now : Z) (fetched : result (option feature_row)) :
  handled (calculate_ai_risk_score_body now fetched)
    (calculate_ai_risk_score_fails fetched)
    (calculate_ai_risk_score now fetched) 50%Q.
Proof.
  apply handled_by; [| apply try_except_raised].
  destruct fetched as [[data |] |]; try reflexivity.
  unfold calculate_ai_risk_score_body, calculate_ai_risk_score_fails, div_none.
  cbn [Py.bind].
  destruct (SmartAutomation.total_cheques data =? 0)%Z; [reflexivity |].
  destruct (0 <? SmartAutomation.total_cheques data)%Z,
    (bounced_count data), (avg_amount data); reflexivity.
Qed.

Lemma _get_duplicate_reasons_is_ok (cheque_data : cheque_dict) (m : match_row) :
  d_amount cheque_data <> PyNone -> is_ok (_get_duplicate_reasons cheque_data m) = true.
Proof.
  intros Hamount. unfold _get_duplicate_reasons.
  destruct (d_amount cheque_data); [| congruence |]; reflexivity.
Qed.

Lemma scan_matches_is_ok (cheque_data : cheque_dict) (rows : list match_row) :
  d_amount cheque_data <> PyNone ->
  forall duplicates, is_ok (scan_matches cheque_data rows duplicates) = true.
Proof.
  intros Hamount. induction rows as [| m rest IH]; intros duplicates; [reflexivity |].
  cbn [scan_matches].
  assert (Hscore : exists s,
             _calculate_cheque_similarity_float cheque_data (dict_of_match m) = Ok s).
  { unfold _calculate_cheque_similarity_float.
    destruct (d_amount cheque_data); [| congruence |]; cbn; eexists; reflexivity. }
  destruct Hscore as [s ->]. cbn [Py.bind].
  destruct (Qgtb s (binary64 0.7)); [| apply IH].
  pose proof (_get_duplicate_reasons_is_ok cheque_data m Hamount) as Hreasons.
  destruct (_get_duplicate_reasons cheque_data m); [| discriminate].
  cbn [Py.bind]. apply IH.
Qed.

Lemma detect_advanced_duplicates_handled (cheque_data : cheque_dict)
    (potential_matches : result (list match_row)) :
  handled (detect_advanced_duplicates_body cheque_data potential_matches)
    (detect_advanced_duplicates_fails cheque_data potential_matches)
    (detect_advanced_duplicates cheque_data potential_matches) [].
Proof.
  apply handled_by; [| apply try_except_raised].
  destruct potential_matches as [[| m rest] |]; try reflexivity.
  unfold detect_advanced_duplicates_body, detect_advanced_duplicates_fails.
  cbn [Py.bind].
  destruct (d_amount cheque_data) eqn:Hamount.
  - apply scan_matches_is_ok. congruence.
  - cbn [scan_matches]. unfold _calculate_cheque_similarity_float.
    rewrite Hamount. reflexivity.
  - apply scan_matches_is_ok. congruence.
Qed.

Lemma _log_reminder_sent_handled (now : string) (cheque_id : Z)
    (reminder_type : option string) (db : database) :
  handled (_log_reminder_sent_body now cheque_id reminder_type db)
    (_log_reminder_sent_fails cheque_id reminder_type)
    (_log_reminder_sent now cheque_id reminder_type db) db.
Proof.
  apply handled_by.
  - unfold _log_reminder_sent_body, _log_reminder_sent_fails, bind_int.
    destruct (fits_int64 cheque_id), reminder_type; reflexivity.
  - unfold _log_reminder_sent, transaction.
    destruct (_log_reminder_sent_body now cheque_id reminder_type db) as [[u db'] |];
      [discriminate | reflexivity].
Qed.

Lemma _find_or_create_client_handled (searched : result (list client)) (added : result Z) :
  handled (_find_or_create_client_body searched added)
    (_find_or_create_client_fails searched added)
    (_find_or_create_client searched added) None.
Proof.
  apply handled_by; [| apply try_except_some_raised].
  destruct searched as [[| first others] |], added; reflexivity.
Qed.

(** ** [SecurityManager] *)

Lemma get_audit_log_handled {Json : Type} (json_loads : string -> result Json)
    (empty_dict : Json) (fetched : result (list audit_log_row)) :
  handled (get_audit_log_body json_loads empty_dict fetched)
    (get_audit_log_fails json_loads fetched)
    (get_audit_log json_loads empty_dict fetched) [].
Proof.
  apply handled_by; [| apply try_except_raised].
  destruct fetched as [rows |]; [| reflexivity].
  apply for_each_is_ok. intros row.
  unfold entry_of_row, audit_row_refused, raised.
  destruct (log_timestamp row); try reflexivity.
  cbn [Py.bind orb].
  destruct (AuditAction_of_value (log_action row)); [| reflexivity].
  cbn [Py.bind is_ok negb orb].
  destruct (log_details row) as [text |]; [| reflexivity].
  destruct (String.eqb text ""); [reflexivity |].
  destruct (json_loads text); reflexivity.
Qed.

Lemma check_user_permissions_unknown_role (user_role required_permission : string) :
  mem_string user_role ["admin"; "manager"; "employee"; "readonly"]%string = false ->
  check_user_permissions user_role required_permission = false.
Proof.
  unfold mem_string, check_user_permissions, UserRole_of_value. cbn [existsb].
  rewrite (String.eqb_sym user_role "admin"), (String.eqb_sym user_role "manager"),
    (String.eqb_sym user_role "employee"), (String.eqb_sym user_role "readonly").
  destruct (String.eqb "admin" user_role); [discriminate |].
  destruct (String.eqb "manager" user_role); [discriminate |].
  destruct (String.eqb "employee" user_role); [discriminate |].
  destruct (String.eqb "readonly" user_role); [discriminate |].
  reflexivity.
Qed.


End Handlers.



(** The loop of [detect_advanced_duplicates] compares the float.  A
    candidate with the number, the client and the branch of a recorded
    cheque and another amount scores 0.5 + 0.15 + 0.05, the float
    0.7000000000000001: it is above 0.7 and reported, at 70.0. *)
Example detect_advanced_duplicates_at_the_threshold :
  let candidate := with_amount cheque_A1 (Val (Number 2000)) in
  map (fun d => (SmartAutomation.existing_cheque_id d,
                 Qred (SmartAutomation.similarity_score d),
                 SmartAutomation.match_criteria d))
    (SmartAutomation.detect_advanced_duplicates candidate (Ok [match_row_A1]))
  = [(1%Z, 70%Q, ["Même numéro de chèque"; "Même client"; "Même agence"]%string)]
  /\ (exists s,
         SmartAutomation._calculate_cheque_similarity candidate
           (SmartAutomation.dict_of_match match_row_A1) = Ok s
         /\ (s == 0.7)%Q).
Proof.
  split; [vm_compute; reflexivity |].
  eexists. split; [reflexivity | vm_compute; reflexivity].
Qed.

(* ================================================================== *)
(** * The cheques table under insertion, update and deletion           *)
(* ================================================================== *)

Section ChequesTable.

Import DbManager.
Local Open Scope Z_scope.

Lemma database_eta (db : database) :
  {| banks := banks db; branches := branches db; clients := clients db;
     cheques := cheques db; users := users db; notifications := notifications db;
     cheques_sequence := cheques_sequence db;
     notifications_sequence := notifications_sequence db |} = db.
Proof. destruct db; reflexivity. Qed.

(** A successful [add_cheque], taken apart. *)
Lemma add_cheque_ok_inv now cheque_data db id :
  fst (add_cheque now cheque_data db) = Ok id ->
  exists row,
    snd (add_cheque now cheque_data db)
    = {| banks := banks db; branches := branches db; clients := clients db;
         cheques := cheques db ++ [row]; users := users db;
         notifications := notifications db;
         cheques_sequence := id;
         notifications_sequence := notifications_sequence db |}
    /\ cheque_id row = id
    /\ id = next_rowid (cheques_sequence db) (map cheque_id (cheques db))
    /\ status_check (cheque_status row) = true
    /\ existsb (unique_conflict (cheque_number row) (cheque_branch_id row)) (cheques db)
       = false
    /\ get (d_cheque_number cheque_data) = Some (cheque_number row)
    /\ get (d_branch_id cheque_data) = cheque_branch_id row.
Proof.
  unfold add_cheque, transaction.
  destruct (d_amount cheque_data) as [| | [amount |]]; cbn [getitem bind bind_float];
    try discriminate;
  destruct (d_issue_date cheque_data) as [| | issue]; cbn [getitem bind]; try discriminate;
  destruct (d_due_date cheque_data) as [| | due]; cbn [getitem bind]; try discriminate;
  destruct (d_branch_id cheque_data) as [| | branch]; cbn [getitem bind]; try discriminate;
  destruct (d_cheque_number cheque_data) as [| | number]; cbn [getitem bind];
    try discriminate;
  (destruct (bind_int (get (d_client_id cheque_data))) as [client | e1]; cbn [bind];
   try discriminate);
  cbn [bind_int]; try (destruct (fits_int64 branch)); cbn [bind]; try discriminate;
  (destruct (bind_int (get (d_created_by cheque_data))) as [creator | e2]; cbn [bind];
   try discriminate);
  cbn [not_null bind]; try discriminate;
  (destruct (status_check (get_default (d_status cheque_data) "en_attente")) eqn:Hs;
   cbn [negb]; try discriminate);
  match goal with
  | |- context [existsb ?f (cheques db)] => destruct (existsb f (cheques db)) eqn:Hu
  end; simpl; try discriminate;
  intros H; inversion H; subst; eexists; repeat split; try reflexivity; assumption.
Qed.

Lemma next_rowid_above sequence rowids :
  sequence < next_rowid sequence rowids
  /\ Forall (fun id => id < next_rowid sequence rowids) rowids.
Proof.
  unfold next_rowid. split; [lia |].
  induction rowids as [| id rowids IH]; constructor; simpl.
  - lia.
  - eapply List.Forall_impl; [| exact IH]. simpl. intros a Ha. lia.
Qed.

Lemma existsb_unique_conflict_key r rows :
  existsb (unique_conflict (cheque_number r) (cheque_branch_id r)) rows = false ->
  forall k, In k (unique_key r) -> ~ In k (flat_map unique_key rows).
Proof.
  intros Hex k Hk Hin. unfold unique_key in Hk.
  destruct (cheque_branch_id r) as [b |] eqn:Hb; [| contradiction].
  destruct Hk as [<- | []].
  apply in_flat_map in Hin. destruct Hin as [r' [Hr' Hk']].
  unfold unique_key in Hk'.
  destruct (cheque_branch_id r') as [b' |] eqn:Hb'; [| contradiction].
  destruct Hk' as [Hk' | []]. inversion Hk'; subst.
  assert (Htrue : existsb (unique_conflict (cheque_number r) (Some b)) rows = true).
  { apply existsb_exists. exists r'. split; [exact Hr' |].
    unfold unique_conflict. rewrite Hb'. rewrite H0, String.eqb_refl, Z.eqb_refl.
    reflexivity. }
  congruence.
Qed.

Lemma unique_key_NoDup r : List.NoDup (unique_key r).
Proof.
  unfold unique_key. destruct (cheque_branch_id r); [| constructor].
  constructor; [intros [] | constructor].
Qed.

Lemma NoDup_app_intro {A} (l l' : list A) :
  List.NoDup l -> List.NoDup l' -> (forall x, In x l' -> ~ In x l) -> List.NoDup (l ++ l').
Proof.
  intros Hl Hl' Hdisj. induction l as [| a l IH]; simpl; [exact Hl' |].
  inversion Hl; subst. constructor.
  - intros Hin. apply in_app_or in Hin. destruct Hin as [Hin | Hin]; [contradiction |].
    apply (Hdisj a Hin). left. reflexivity.
  - apply IH; [assumption |]. intros x Hx Hin. apply (Hdisj x Hx). right. exact Hin.
Qed.

(** X1.  [add_cheque], whatever it is given and whether it succeeds or not,
    keeps the promises of the schema: the primary key stays unique and no
    greater than the counter, no two rows share number and branch, and
    every status is one the [CHECK] allows. *)
Theorem add_cheque_keeps_cheques_consistent :
  forall (now : string) (cheque_data : cheque_dict) (db : database),
    cheques_consistent db ->
    cheques_consistent (snd (add_cheque now cheque_data db)).
Proof.
  intros now cheque_data db (Hids & Hseq & Hkeys & Hstatus).
  destruct (fst (add_cheque now cheque_data db)) as [id | e] eqn:Hrun.
  - destruct (add_cheque_ok_inv _ _ _ _ Hrun)
      as (row & -> & Hid & Hnext & Hcheck & Hfree & _ & _).
    destruct (next_rowid_above (cheques_sequence db) (map cheque_id (cheques db)))
      as [Habove Hall]. rewrite <- Hnext in Habove, Hall.
    unfold cheques_consistent. cbn [cheques cheques_sequence].
    split; [| split; [| split]].
    + rewrite map_app. simpl. apply NoDup_app_intro; [exact Hids | repeat constructor; intros [] |].
      intros x [<- | []] Hin. rewrite List.Forall_forall in Hall.
      specialize (Hall _ Hin). lia.
    + apply Forall_app. split.
      * eapply List.Forall_impl; [| exact Hseq]. simpl. intros r Hr. lia.
      * constructor; [lia | constructor].
    + rewrite flat_map_app. simpl. rewrite app_nil_r.
      apply NoDup_app_intro; [exact Hkeys | apply unique_key_NoDup |].
      apply existsb_unique_conflict_key, Hfree.
    + apply Forall_app. split; [exact Hstatus | constructor; [exact Hcheck | constructor]].
  - rewrite (add_cheque_failure_rolls_back _ _ _ _ Hrun).
    repeat split; assumption.
Qed.

Lemma count_pos_existsb {A} (f : A -> bool) (l : list A) :
  (0 <? Z.of_nat (List.length (List.filter f l))) = existsb f l.
Proof.
  induction l as [| a l IH]; simpl; [reflexivity |].
  destruct (f a); simpl; [| exact IH].
  apply Z.ltb_lt. lia.
Qed.

(** X2.  The check the cheque form makes before saving, [check_duplicate_cheque],
    answers true exactly when [add_cheque] would refuse the cheque, for data
    that [sqlite3] binds (an amount that is not NaN, integers within 64
    bits) and that meets the other constraints of the table; and once
    [add_cheque] has run, accepted or not, the check answers true. *)
Theorem check_duplicate_cheque_predicts_add_cheque :
  forall (now : string) (cheque_data : cheque_dict) (db : database)
         (number : string) (branch : Z),
    meets_column_constraints cheque_data = true ->
    d_cheque_number cheque_data = Val number ->
    d_branch_id cheque_data = Val branch ->
    check_duplicate_cheque number branch db
    = Ok (negb (is_ok (fst (add_cheque now cheque_data db))))
    /\ check_duplicate_cheque number branch (snd (add_cheque now cheque_data db)) = Ok true.
Proof.
  intros now cheque_data db number branch Hmeets Hn Hb.
  assert (Hfit : fits_int64 branch = true).
  { destruct (meets_column_constraints_inv _ Hmeets)
      as (_ & _ & _ & _ & branch' & _ & _ & _ & _ & Hb' & Hfit' & _).
    rewrite Hb in Hb'. inversion Hb'; subst. exact Hfit'. }
  unfold check_duplicate_cheque. cbn [bind_int]. rewrite Hfit. cbn [bind].
  rewrite !count_pos_existsb.
  pose proof (add_cheque_outcome now cheque_data db number branch Hmeets Hn Hb) as Hrun.
  destruct (existsb (unique_conflict number (Some branch)) (cheques db)) eqn:Hex.
  - rewrite Hrun. simpl. split; [reflexivity | rewrite Hex; reflexivity].
  - destruct Hrun as [row [-> [Hrn Hrb]]]. simpl. split; [reflexivity |].
    rewrite existsb_app. simpl. unfold unique_conflict at 2.
    rewrite Hrn, Hrb, String.eqb_refl, Z.eqb_refl. simpl. rewrite orb_true_r. reflexivity.
Qed.

(** Outside those data the check does not announce the refusal: a NaN
    amount, which the form lets through, is bound as [NULL] and refused by
    [NOT NULL] although the check answered false, and a branch beyond 64
    bits makes the check itself raise. *)
Example check_duplicate_cheque_and_unbound_data :
  let nan := {|
    d_id := Absent; d_amount := Val NaN; d_currency := Val "MAD"%string;
    d_issue_date := Val "2024-01-10"%string; d_due_date := Val "2024-02-10"%string;
    d_client_id := PyNone; d_branch_id := Val 2; d_status := Val "en_attente"%string;
    d_cheque_number := Val "A1"%string; d_scan_path := Absent;
    d_depositor_name := PyNone; d_invoice_number := PyNone; d_invoice_date := PyNone;
    d_notes := PyNone; d_created_at := Absent; d_updated_at := Absent;
    d_created_by := Val 1
  |} in
  check_duplicate_cheque "A1" 2 empty_database = Ok false
  /\ add_cheque "2024-01-10 09:00:00" nan empty_database
     = (Raise (IntegrityError (NotNullConstraint "amount")), empty_database)
  /\ check_duplicate_cheque "A1" (2 ^ 63) empty_database = Raise OverflowError
  /\ add_cheque "2024-01-10 09:00:00" (with_branch_id cheque_A1 (Val (2 ^ 63)))
       empty_database
     = (Raise OverflowError, empty_database).
Proof. repeat split. Qed.

(** ** Hard deletion *)

Lemma NoDup_map_filter {A B} (f : A -> B) (p : A -> bool) (l : list A) :
  List.NoDup (map f l) -> List.NoDup (map f (List.filter p l)).
Proof.
  induction l as [| a l IH]; simpl; intros H; [constructor |].
  inversion H; subst. destruct (p a); simpl; [| apply IH; assumption].
  constructor; [| apply IH; assumption].
  intros Hin. apply in_map_iff in Hin. destruct Hin as [x [Hx Hin]].
  apply filter_In in Hin. destruct Hin as [Hin _].
  apply H2. rewrite <- Hx. apply in_map, Hin.
Qed.

Lemma NoDup_flat_map_filter {A B} (f : A -> list B) (p : A -> bool) (l : list A) :
  List.NoDup (flat_map f l) -> List.NoDup (flat_map f (List.filter p l)).
Proof.
  induction l as [| a l IH]; simpl; intros H; [constructor |].
  pose proof (NoDup_app_remove_l _ _ H) as Htail.
  destruct (p a); simpl; [| apply IH; exact Htail].
  apply NoDup_app_intro.
  - apply (NoDup_app_remove_r _ _ H).
  - apply IH, Htail.
  - intros x Hx Hfa. apply in_flat_map in Hx. destruct Hx as [r [Hr Hx]].
    apply filter_In in Hr. destruct Hr as [Hr _].
    assert (Hin : In x (flat_map f l)) by (apply in_flat_map; exists r; split; assumption).
    clear - H Hfa Hin. induction (f a) as [| b fa IHfa]; [contradiction |].
    simpl in H. inversion H; subst. destruct Hfa as [-> | Hfa].
    + apply H2. apply in_or_app. right. exact Hin.
    + apply IHfa; assumption.
Qed.

Lemma delete_selected_keeps_cheques_consistent selection confirmed db :
  cheques_consistent db ->
  cheques_consistent (ChequeList.delete_selected selection confirmed db).
Proof.
  intros Hdb. unfold ChequeList.delete_selected.
  destruct selection as [r |]; [| exact Hdb]. destruct confirmed; [| exact Hdb].
  destruct Hdb as (Hids & Hseq & Hkeys & Hstatus).
  unfold cheques_consistent. cbn [cheques cheques_sequence].
  split; [apply NoDup_map_filter, Hids |].
  split; [apply List.Forall_forall; intros x Hx; apply filter_In in Hx;
          rewrite List.Forall_forall in Hseq; apply Hseq, Hx |].
  split; [apply NoDup_flat_map_filter, Hkeys |].
  apply List.Forall_forall. intros x Hx. apply filter_In in Hx.
  rewrite List.Forall_forall in Hstatus. apply Hstatus, Hx.
Qed.

(** X3.  The id of a cheque deleted from the list is never given again: after
    [delete_selected] the table is still consistent, and the id the next
    successful [add_cheque] returns is above every id the table held before
    the deletion, the deleted one included. *)
Theorem deleted_cheque_id_is_not_reused :
  forall (now : string) (cheque_data : cheque_dict) (selection : option cheque)
         (confirmed : bool) (db : database),
    cheques_consistent db ->
    let db1 := ChequeList.delete_selected selection confirmed db in
    cheques_consistent db1
    /\ match fst (add_cheque now cheque_data db1) with
       | Ok id => Forall (fun r => cheque_id r < id) (cheques db)
       | Raise _ => True
       end.
Proof.
  intros now cheque_data selection confirmed db Hdb db1.
  split; [apply delete_selected_keeps_cheques_consistent, Hdb |].
  destruct (fst (add_cheque now cheque_data db1)) as [id | e] eqn:Hrun; [| exact I].
  destruct (add_cheque_ok_inv _ _ _ _ Hrun) as (row & _ & _ & Hnext & _).
  destruct (next_rowid_above (cheques_sequence db1) (map cheque_id (cheques db1)))
    as [Habove _]. rewrite <- Hnext in Habove.
  assert (Hseq1 : cheques_sequence db1 = cheques_sequence db).
  { subst db1. unfold ChequeList.delete_selected.
    destruct selection; [destruct confirmed |]; reflexivity. }
  destruct Hdb as (_ & Hseq & _).
  eapply List.Forall_impl; [| exact Hseq]. simpl. intros r Hr. lia.
Qed.

(** ** [update_cheque_status] *)

Lemma update_where_id_no_match {R} (key : R -> Z) (set : R -> R) (id : Z) (table : list R) :
  Forall (fun r => key r <> id) table -> update_where_id key set id table = table.
Proof.
  unfold update_where_id. induction 1 as [| r table Hr _ IH]; simpl; [reflexivity |].
  apply Z.eqb_neq in Hr. rewrite Hr, IH. reflexivity.
Qed.

Lemma rowcount_where_id_no_match {R} (key : R -> Z) (id : Z) (table : list R) :
  Forall (fun r => key r <> id) table -> rowcount_where_id key id table = 0.
Proof.
  unfold rowcount_where_id. induction 1 as [| r table Hr _ IH]; simpl; [reflexivity |].
  apply Z.eqb_neq in Hr. rewrite Hr. exact IH.
Qed.

(** X4.  For an id no cheque has, [update_cheque_status] returns false and
    leaves the database as it was: no status is written, no notification is
    inserted and, the statement touching no row, a status outside the six is
    not even refused. *)
Theorem update_cheque_status_of_missing_cheque :
  forall (now : string) (cheque_id : Z) (new_status : string) (user_id : option Z)
         (db : database),
    Forall (fun r => DbManager.cheque_id r <> cheque_id) (cheques db) ->
    update_cheque_status now cheque_id new_status user_id db = (Ok false, db).
Proof.
  intros now cheque_id new_status user_id db Hmissing.
  unfold update_cheque_status, transaction.
  rewrite (rowcount_where_id_no_match _ _ _ Hmissing),
    (update_where_id_no_match _ _ _ _ Hmissing).
  cbn [Z.ltb Z.compare andb cursor_db cursor_rowcount].
  destruct (truthy_id user_id); cbn [Z.ltb Z.compare cursor_db cursor_rowcount];
    rewrite database_eta; reflexivity.
Qed.

(** X5.  For a cheque that exists, a status outside the six raises the error of
    the [CHECK] constraint and nothing is written. *)
Theorem update_cheque_status_refuses_unknown_status :
  forall (now : string) (cheque_id : Z) (new_status : string) (user_id : option Z)
         (db : database),
    (exists r, In r (cheques db) /\ DbManager.cheque_id r = cheque_id) ->
    status_check (Some new_status) = false ->
    update_cheque_status now cheque_id new_status user_id db
    = (Raise (IntegrityError (CheckConstraint "status")), db).
Proof.
  intros now cheque_id new_status user_id db Hexists Hcheck.
  unfold update_cheque_status, transaction.
  rewrite (rowcount_where_id_pos _ _ _ Hexists), Hcheck. reflexivity.
Qed.

Lemma update_where_id_Forall2 {R} (key : R -> Z) (set : R -> R) (id : Z) (table : list R)
    (P : R -> R -> Prop) :
  (forall r, P r (set r)) ->
  Forall2 (fun r r' => if key r =? id then P r r' else r' = r)
          table (update_where_id key set id table).
Proof.
  intros Hset. unfold update_where_id.
  induction table as [| r table IH]; simpl; constructor; [| exact IH].
  destruct (key r =? id); [apply Hset | reflexivity].
Qed.

Lemma _create_status_notification_frame now cur cheque_id new_status user_id :
  let cur' := _create_status_notification now cur cheque_id new_status user_id in
  cheques (cursor_db cur') = cheques (cursor_db cur)
  /\ cheques_sequence (cursor_db cur') = cheques_sequence (cursor_db cur)
  /\ registry_kept (cursor_db cur) (cursor_db cur').
Proof.
  unfold _create_status_notification, registry_kept.
  destruct (status_messages !! new_status); simpl; repeat split.
Qed.

(** What a run of [update_cheque_status] leaves in the tables other than
    [notifications]. *)
Lemma update_cheque_status_tables now cheque_id new_status user_id db :
  let db' := snd (update_cheque_status now cheque_id new_status user_id db) in
  cheques_sequence db' = cheques_sequence db
  /\ registry_kept db db'
  /\ (cheques db' = cheques db
      \/ status_check (Some new_status) = true
         /\ cheques db'
            = update_where_id DbManager.cheque_id (set_cheque_status now new_status)
                cheque_id (cheques db)).
Proof.
  unfold update_cheque_status, transaction.
  destruct (0 <? rowcount_where_id DbManager.cheque_id cheque_id (cheques db)) eqn:Hcount.
  - destruct (status_check (Some new_status)) eqn:Hcheck; cbn [negb andb].
    + cbn [snd cursor_db cursor_rowcount]. rewrite Hcount.
      destruct (truthy_id user_id) as [u |].
      * match goal with
        | |- context [_create_status_notification now ?cur cheque_id new_status u] =>
            destruct (_create_status_notification_frame now cur cheque_id new_status u)
              as (Hc & Hs & Hr)
        end.
        cbn zeta in Hc, Hs, Hr. rewrite Hc, Hs.
        split; [reflexivity |]. split; [exact Hr |]. right. split; reflexivity.
      * cbn [cheques cheques_sequence]. unfold registry_kept. simpl.
        split; [reflexivity |]. split; [repeat split |]. right. split; reflexivity.
    + simpl. unfold registry_kept. repeat split. left. reflexivity.
  - cbn [andb snd cursor_db cursor_rowcount]. rewrite Hcount.
    assert (Hmissing : Forall (fun r => DbManager.cheque_id r <> cheque_id) (cheques db)).
    { apply List.Forall_forall. intros r Hr Hid.
      rewrite (rowcount_where_id_pos DbManager.cheque_id cheque_id (cheques db)) in Hcount;
        [discriminate | exists r; split; assumption]. }
    rewrite (update_where_id_no_match _ _ _ _ Hmissing).
    destruct (truthy_id user_id); cbn [cheques cheques_sequence];
      unfold registry_kept; simpl; repeat split; left; reflexivity.
Qed.

Lemma set_cheque_status_keeps now new_status r :
  cheque_status (set_cheque_status now new_status r) = Some new_status
  /\ cheque_updated_at (set_cheque_status now new_status r) = Some now
  /\ cheque_columns_kept r (set_cheque_status now new_status r).
Proof. unfold cheque_columns_kept. simpl. repeat split. Qed.

(** X6.  With one of the six statuses, [update_cheque_status] succeeds, returns
    whether a cheque has the id, and writes the status and the time of the
    change into the rows with that id and nothing else: every other column
    of those rows, every other cheque in its place, the counter of the
    table, and the banks, branches, clients and users are as before. *)
Theorem update_cheque_status_writes_status_only :
  forall (now : string) (cheque_id : Z) (new_status : string) (user_id : option Z)
         (db : database),
    status_check (Some new_status) = true ->
    let outcome := update_cheque_status now cheque_id new_status user_id db in
    fst outcome = Ok (existsb (fun r => DbManager.cheque_id r =? cheque_id) (cheques db))
    /\ Forall2 (fun r r' =>
                  if DbManager.cheque_id r =? cheque_id
                  then cheque_status r' = Some new_status
                       /\ cheque_updated_at r' = Some now
                       /\ cheque_columns_kept r r'
                  else r' = r)
               (cheques db) (cheques (snd outcome))
    /\ cheques_sequence (snd outcome) = cheques_sequence db
    /\ registry_kept db (snd outcome).
Proof.
  intros now cheque_id new_status user_id db Hcheck outcome.
  destruct (update_cheque_status_tables now cheque_id new_status user_id db)
    as (Hseq & Hreg & Hrows). cbn zeta in Hseq, Hreg, Hrows. fold outcome in Hseq, Hreg, Hrows.
  assert (Hupd : cheques (snd outcome)
                 = update_where_id DbManager.cheque_id (set_cheque_status now new_status)
                     cheque_id (cheques db)).
  { subst outcome. unfold update_cheque_status, transaction. rewrite Hcheck.
    cbn [negb]. rewrite andb_false_r. cbn [snd cursor_db cursor_rowcount].
    destruct (truthy_id user_id) as [u |]; [| reflexivity].
    destruct (0 <? rowcount_where_id DbManager.cheque_id cheque_id (cheques db));
      [| reflexivity].
    match goal with
    | |- context [_create_status_notification now ?cur cheque_id new_status u] =>
        destruct (_create_status_notification_frame now cur cheque_id new_status u)
          as (Hc & _)
    end. cbn zeta in Hc. rewrite Hc. reflexivity. }
  split; [| split; [| split; assumption]].
  - assert (Hrc : (0 <? rowcount_where_id DbManager.cheque_id cheque_id (cheques db))
                  = existsb (fun r => DbManager.cheque_id r =? cheque_id) (cheques db))
      by (unfold rowcount_where_id; apply count_pos_existsb).
    rewrite <- Hrc. subst outcome. unfold update_cheque_status, transaction.
    rewrite Hcheck. cbn [negb]. rewrite andb_false_r. cbn [fst cursor_db cursor_rowcount].
    destruct (truthy_id user_id) as [u |]; [| reflexivity].
    destruct (0 <? rowcount_where_id DbManager.cheque_id cheque_id (cheques db)) eqn:Hc;
      [| cbn [cursor_rowcount]; rewrite Hc; reflexivity].
    unfold _create_status_notification.
    destruct (status_messages !! new_status); cbn [cursor_rowcount];
      [reflexivity | rewrite Hc; reflexivity].
  - rewrite Hupd. apply update_where_id_Forall2. intros r. apply set_cheque_status_keeps.
Qed.

Lemma update_where_id_map_kept {R B} (key : R -> Z) (set : R -> R) (f : R -> B) id table :
  (forall r, f (set r) = f r) ->
  map f (update_where_id key set id table) = map f table.
Proof.
  intros Hset. unfold update_where_id. rewrite map_map. apply map_ext.
  intros r. destruct (key r =? id); [apply Hset | reflexivity].
Qed.

(** Writing a status the [CHECK] allows into the rows with an id keeps the
    promises of the schema. *)
Lemma set_cheque_status_where_id_consistent now new_status cheque_id db db' :
  cheques_consistent db ->
  status_check (Some new_status) = true ->
  cheques_sequence db' = cheques_sequence db ->
  cheques db'
  = update_where_id DbManager.cheque_id (set_cheque_status now new_status) cheque_id
      (cheques db) ->
  cheques_consistent db'.
Proof.
  intros (Hids & Hseq & Hkeys & Hstatus) Hcheck Hs Hrows.
  unfold cheques_consistent; rewrite Hs, Hrows.
  split; [rewrite update_where_id_map_kept by reflexivity; exact Hids |].
  split.
  { unfold update_where_id. apply Forall_map.
    eapply List.Forall_impl; [| exact Hseq]. simpl. intros r Hr.
    destruct (DbManager.cheque_id r =? cheque_id); exact Hr. }
  split.
  { unfold update_where_id. rewrite flat_map_concat_map, map_map.
    rewrite flat_map_concat_map in Hkeys.
    erewrite map_ext; [exact Hkeys |].
    intros r. destruct (DbManager.cheque_id r =? cheque_id); reflexivity. }
  unfold update_where_id. apply Forall_map.
  eapply List.Forall_impl; [| exact Hstatus]. simpl. intros r Hr.
  destruct (DbManager.cheque_id r =? cheque_id); [exact Hcheck | exact Hr].
Qed.

(** X7.  [update_cheque_status], whatever it is given and whether it succeeds
    or not, keeps the promises of the schema on the [cheques] table. *)
Theorem update_cheque_status_keeps_cheques_consistent :
  forall (now : string) (cheque_id : Z) (new_status : string) (user_id : option Z)
         (db : database),
    cheques_consistent db ->
    cheques_consistent (snd (update_cheque_status now cheque_id new_status user_id db)).
Proof.
  intros now cheque_id new_status user_id db Hdb.
  destruct (update_cheque_status_tables now cheque_id new_status user_id db)
    as (Hs & _ & [Hrows | [Hcheck Hrows]]); cbn zeta in Hs, Hrows.
  - destruct Hdb as (Hids & Hseq & Hkeys & Hstatus).
    unfold cheques_consistent; rewrite Hs, Hrows. repeat split; assumption.
  - exact (set_cheque_status_where_id_consistent now new_status cheque_id db _
             Hdb Hcheck Hs Hrows).
Qed.

Lemma update_where_id_idempotent {R} (key : R -> Z) (set : R -> R) (id : Z) (table : list R) :
  (forall r, key (set r) = key r) -> (forall r, set (set r) = set r) ->
  update_where_id key set id (update_where_id key set id table)
  = update_where_id key set id table.
Proof.
  intros Hkey Hset. unfold update_where_id. rewrite map_map. apply map_ext.
  intros r. destruct (key r =? id) eqn:E.
  - rewrite Hkey, E. apply Hset.
  - rewrite E. reflexivity.
Qed.

Lemma rowcount_where_id_update {R} (key : R -> Z) (set : R -> R) (id : Z) (table : list R) :
  (forall r, key (set r) = key r) ->
  rowcount_where_id key id (update_where_id key set id table)
  = rowcount_where_id key id table.
Proof.
  intros Hkey. unfold rowcount_where_id, update_where_id. f_equal.
  induction table as [| r table IH]; simpl; [reflexivity |].
  destruct (key r =? id) eqn:E.
  - rewrite Hkey, E. simpl. rewrite IH. reflexivity.
  - rewrite E. exact IH.
Qed.

(** X8.  Deleting a bank twice is deleting it once: the second [delete_bank]
    changes nothing, and it returns true again, the statement counting the
    rows with the id whether they were active or not. *)
Theorem delete_bank_twice :
  forall (bank_id : Z) (db : database),
    delete_bank bank_id (snd (delete_bank bank_id db)) = delete_bank bank_id db
    /\ fst (delete_bank bank_id db)
       = Ok (existsb (fun r => DbManager.bank_id r =? bank_id) (banks db)).
Proof.
  intros bank_id db. unfold delete_bank, transaction. cbn [fst snd banks branches clients
    cheques users notifications cheques_sequence notifications_sequence].
  split.
  - rewrite rowcount_where_id_update by reflexivity.
    rewrite update_where_id_idempotent by reflexivity. reflexivity.
  - unfold rowcount_where_id. rewrite count_pos_existsb. reflexivity.
Qed.

(** ** [duplicate_selected], twice *)

(** X9.  Duplicating the same cheque a second time, the cheque being a row
    of the database and the user one of its users, whose keys are SQLite
    integers: when the cheque has a branch, the copy's number is taken in
    that branch and the second copy is refused by the uniqueness
    constraint, nothing being written; when it has none, the second copy
    is accepted like the first. *)
Theorem duplicate_selected_twice :
  forall (now now' : string) (current_user_id : Z) (r : cheque) (db : database),
    holds_sqlite_integers r = true ->
    fits_int64 current_user_id = true ->
    let first := ChequeList.duplicate_selected now current_user_id (Some r) true db in
    let second := ChequeList.duplicate_selected now' current_user_id (Some r) true (snd first) in
    match cheque_branch_id r with
    | Some _ => second = (Some (Raise duplicate_cheque_error), snd first)
    | None => exists id id', fst first = Some (Ok id) /\ fst second = Some (Ok id')
    end.
Proof.
  intros now now' current_user_id r db Hrow Huser first second.
  subst first second. unfold ChequeList.duplicate_selected. cbn [fst snd].
  set (copy := ChequeList.copy_of (ChequeList.dict_of_cheque r) (cheque_number r)
                 current_user_id).
  unfold holds_sqlite_integers in Hrow. apply andb_true_iff in Hrow.
  destruct Hrow as [Hclient Hfit].
  assert (Hclient' : bind_int (cheque_client_id r) = Ok (cheque_client_id r)).
  { unfold bind_int. destruct (cheque_client_id r); [rewrite Hclient |]; reflexivity. }
  destruct (cheque_branch_id r) as [branch |] eqn:Hbranch.
  - assert (Hmeets : meets_column_constraints copy = true).
    { unfold meets_column_constraints, copy.
      cbn [ChequeList.copy_of ChequeList.dict_of_cheque d_amount d_issue_date d_due_date
           d_cheque_number d_branch_id d_client_id d_created_by d_status is_number is_val
           fits get_default]. rewrite Hbranch. cbn [SmartAutomation.of_option is_val fits].
      rewrite Hfit, Huser.
      destruct (cheque_client_id r); cbn [SmartAutomation.of_option fits];
        [rewrite Hclient |]; reflexivity. }
    assert (Hb : d_branch_id copy = Val branch) by (simpl; rewrite Hbranch; reflexivity).
    pose proof (add_cheque_outcome now copy db _ branch Hmeets eq_refl Hb) as Hfirst.
    pose proof (fun db1 => add_cheque_outcome now' copy db1 _ branch Hmeets eq_refl Hb)
      as Hsecond.
    destruct (existsb (unique_conflict (cheque_number r ++ "_COPY") (Some branch))
                (cheques db)) eqn:Hex.
    + rewrite Hfirst. cbn [fst snd]. specialize (Hsecond db). rewrite Hex in Hsecond.
      rewrite Hsecond. reflexivity.
    + destruct Hfirst as [row [Hrun [Hrn Hrb]]]. rewrite Hrun. cbn [fst snd].
      match goal with |- context [add_cheque now' copy ?db1] => specialize (Hsecond db1) end.
      cbn [cheques] in Hsecond. rewrite existsb_app in Hsecond. simpl in Hsecond.
      unfold unique_conflict at 2 in Hsecond.
      rewrite Hrn, Hrb, String.eqb_refl, Z.eqb_refl in Hsecond. simpl in Hsecond.
      rewrite orb_true_r in Hsecond. rewrite Hsecond. reflexivity.
  - assert (Hrun : forall stamp db1, exists id, fst (add_cheque stamp copy db1) = Ok id).
    { intros stamp db1. unfold add_cheque, transaction, copy.
      cbn [ChequeList.copy_of ChequeList.dict_of_cheque d_amount d_issue_date d_due_date
           d_cheque_number d_branch_id d_client_id d_created_by d_status d_currency
           d_depositor_name d_invoice_number d_invoice_date d_notes getitem bind
           bind_float get get_default].
      rewrite Hbranch. cbn [SmartAutomation.of_option getitem bind get].
      replace (get (SmartAutomation.of_option (cheque_client_id r)))
        with (cheque_client_id r) by (destruct (cheque_client_id r); reflexivity).
      rewrite Hclient'. cbn [bind bind_int]. rewrite Huser. cbn [bind not_null status_check
        mem_string existsb cheque_statuses]. simpl negb. cbv iota.
      assert (Hfree : forall rows,
                 existsb (unique_conflict (cheque_number r ++ "_COPY") None) rows = false).
      { induction rows as [| x rows IH]; simpl; [reflexivity |].
        unfold unique_conflict at 1. destruct (cheque_branch_id x); rewrite andb_false_r;
          exact IH. }
      rewrite Hfree. simpl. eexists. reflexivity. }
    destruct (Hrun now db) as [id Hid].
    match goal with |- context [add_cheque now' copy ?db1] =>
      destruct (Hrun now' db1) as [id' Hid'] end.
    exists id, id'. rewrite Hid, Hid'. split; reflexivity.
Qed.

End ChequesTable.

(** The database with cheque A1 is consistent. *)
Lemma database_with_A1_consistent : cheques_consistent database_with_A1.
Proof.
  unfold cheques_consistent. vm_compute.
  split; [constructor; [intros [] | constructor] |].
  split; [constructor; [discriminate | constructor] |].
  split; [constructor; [intros [] | constructor] |].
  constructor; [reflexivity | constructor].
Defined.

(** The theorem at cheque A1 inserted into the database that holds it
    (refused) and under branch 3 (accepted). *)
Lemma add_cheque_keeps_cheques_consistent_witness :
  cheques_consistent database_with_A1
  /\ cheques_consistent
       (snd (DbManager.add_cheque "2024-01-11 09:00:00" cheque_A1 database_with_A1))
  /\ cheques_consistent
       (snd (DbManager.add_cheque "2024-01-11 09:00:00" (with_branch_id cheque_A1 (Val 3%Z))
               database_with_A1)).
Proof.
  split; [exact database_with_A1_consistent |]. split.
  - exact (add_cheque_keeps_cheques_consistent "2024-01-11 09:00:00" cheque_A1
             database_with_A1 database_with_A1_consistent).
  - exact (add_cheque_keeps_cheques_consistent "2024-01-11 09:00:00"
             (with_branch_id cheque_A1 (Val 3%Z)) database_with_A1
             database_with_A1_consistent).
Defined.

(** The theorem at cheque A1 of branch 2 and the empty database. *)
Lemma check_duplicate_cheque_predicts_add_cheque_witness :
  (meets_column_constraints cheque_A1 = true
   /\ DbManager.d_cheque_number cheque_A1 = Val "A1"%string
   /\ DbManager.d_branch_id cheque_A1 = Val 2%Z)
  /\ DbManager.check_duplicate_cheque "A1" 2 empty_database
     = Ok (negb (is_ok (fst (DbManager.add_cheque "2024-01-10 09:00:00" cheque_A1
                               empty_database))))
  /\ DbManager.check_duplicate_cheque "A1" 2
       (snd (DbManager.add_cheque "2024-01-10 09:00:00" cheque_A1 empty_database))
     = Ok true.
Proof.
  split; [repeat split |].
  exact (check_duplicate_cheque_predicts_add_cheque "2024-01-10 09:00:00" cheque_A1
           empty_database "A1" 2 eq_refl eq_refl eq_refl).
Defined.

(** The theorem at cheque 1 deleted and cheque A1 recorded again: the new
    row is cheque 2. *)
Lemma deleted_cheque_id_is_not_reused_witness :
  let db1 :=
    ChequeList.delete_selected (hd_error (DbManager.cheques database_with_A1)) true
      database_with_A1 in
  cheques_consistent database_with_A1
  /\ DbManager.cheques db1 = []
  /\ fst (DbManager.add_cheque "2024-01-11 09:00:00" cheque_A1 db1) = Ok 2%Z
  /\ cheques_consistent db1
  /\ match fst (DbManager.add_cheque "2024-01-11 09:00:00" cheque_A1 db1) with
     | Ok id => Forall (fun r => (DbManager.cheque_id r < id)%Z)
                  (DbManager.cheques database_with_A1)
     | Raise _ => True
     end.
Proof.
  intros db1.
  split; [exact database_with_A1_consistent |].
  split; [reflexivity |]. split; [reflexivity |].
  exact (deleted_cheque_id_is_not_reused "2024-01-11 09:00:00" cheque_A1
           (hd_error (DbManager.cheques database_with_A1)) true database_with_A1
           database_with_A1_consistent).
Defined.

(** The theorem at cheque 7, which the database with cheque A1 does not
    hold, and a status outside the six. *)
Lemma update_cheque_status_of_missing_cheque_witness :
  Forall (fun r => DbManager.cheque_id r <> 7%Z) (DbManager.cheques database_with_A1)
  /\ DbManager.update_cheque_status "2024-02-11 10:00:00" 7 "perdu" (Some 1%Z)
       database_with_A1
     = (Ok false, database_with_A1).
Proof.
  assert (H : Forall (fun r => DbManager.cheque_id r <> 7%Z)
                (DbManager.cheques database_with_A1)).
  { vm_compute. constructor; [discriminate | constructor]. }
  split; [exact H |].
  exact (update_cheque_status_of_missing_cheque "2024-02-11 10:00:00" 7 "perdu" (Some 1%Z)
           database_with_A1 H).
Defined.

(** The theorem at cheque 1 and the status perdu. *)
Lemma update_cheque_status_refuses_unknown_status_witness :
  ((exists r, In r (DbManager.cheques database_with_A1) /\ DbManager.cheque_id r = 1%Z)
   /\ DbManager.status_check (Some "perdu"%string) = false)
  /\ DbManager.update_cheque_status "2024-02-11 10:00:00" 1 "perdu" None database_with_A1
     = (Raise (IntegrityError (CheckConstraint "status")), database_with_A1).
Proof.
  assert (H1 : exists r, In r (DbManager.cheques database_with_A1)
                         /\ DbManager.cheque_id r = 1%Z).
  { eexists. split; [left; reflexivity | reflexivity]. }
  assert (H2 : DbManager.status_check (Some "perdu"%string) = false) by reflexivity.
  split; [exact (conj H1 H2) |].
  exact (update_cheque_status_refuses_unknown_status "2024-02-11 10:00:00" 1 "perdu" None
           database_with_A1 H1 H2).
Defined.

(** The theorem at cheque 1 deposited by user 1: no notification, one
    status written. *)
Lemma update_cheque_status_writes_status_only_witness :
  let outcome :=
    DbManager.update_cheque_status "2024-02-11 10:00:00" 1 "depose" (Some 1%Z)
      database_with_A1 in
  DbManager.status_check (Some "depose"%string) = true
  /\ fst outcome = Ok true
  /\ map DbManager.cheque_status (DbManager.cheques (snd outcome)) = [Some "depose"%string]
  /\ Forall2 (fun r r' =>
                if (DbManager.cheque_id r =? 1)%Z
                then DbManager.cheque_status r' = Some "depose"%string
                     /\ DbManager.cheque_updated_at r' = Some "2024-02-11 10:00:00"%string
                     /\ cheque_columns_kept r r'
                else r' = r)
             (DbManager.cheques database_with_A1) (DbManager.cheques (snd outcome))
  /\ registry_kept database_with_A1 (snd outcome).
Proof.
  intros outcome.
  assert (H : DbManager.status_check (Some "depose"%string) = true) by reflexivity.
  split; [exact H |]. split; [reflexivity |]. split; [reflexivity |].
  destruct (update_cheque_status_writes_status_only "2024-02-11 10:00:00" 1 "depose"
              (Some 1%Z) database_with_A1 H) as (_ & Hrows & _ & Hreg).
  split; [exact Hrows | exact Hreg].
Defined.

(** The theorem at cheque 1 cashed by user 1. *)
Lemma update_cheque_status_keeps_cheques_consistent_witness :
  cheques_consistent database_with_A1
  /\ cheques_consistent
       (snd (DbManager.update_cheque_status "2024-02-11 10:00:00" 1 "encaisse" (Some 1%Z)
               database_with_A1)).
Proof.
  split; [exact database_with_A1_consistent |].
  exact (update_cheque_status_keeps_cheques_consistent "2024-02-11 10:00:00" 1 "encaisse"
           (Some 1%Z) database_with_A1 database_with_A1_consistent).
Defined.

(** The theorem at cheque A1, duplicated twice by user 1. *)
Lemma duplicate_selected_twice_witness :
  let first :=
    ChequeList.duplicate_selected "2024-01-12 09:00:00" 1 (Some row_A1) true
      database_with_A1 in
  (In row_A1 (DbManager.cheques database_with_A1)
   /\ holds_sqlite_integers row_A1 = true /\ fits_int64 1 = true)
  /\ fst first = Some (Ok 2%Z)
  /\ ChequeList.duplicate_selected "2024-01-12 09:01:00" 1 (Some row_A1) true (snd first)
     = (Some (Raise duplicate_cheque_error), snd first).
Proof.
  intros first.
  assert (H0 : In row_A1 (DbManager.cheques database_with_A1)) by (left; reflexivity).
  assert (H1 : holds_sqlite_integers row_A1 = true) by reflexivity.
  assert (H2 : fits_int64 1 = true) by reflexivity.
  split; [exact (conj H0 (conj H1 H2)) |]. split; [reflexivity |].
  exact (duplicate_selected_twice "2024-01-12 09:00:00" "2024-01-12 09:01:00" 1 row_A1
           database_with_A1 H1 H2).
Defined.

(* ================================================================== *)
(** * Banks, branches and their listings                               *)
(* ================================================================== *)

Section BankListings.

Import DbManager Banks.
Local Open Scope Z_scope.

Lemma In_insert_sorted {A} (le : A -> A -> bool) (x y : A) (l : list A) :
  In y (insert_sorted le x l) <-> y = x \/ In y l.
Proof.
  induction l as [| a l IH]; simpl.
  - split; [intros [<- | []]; left; reflexivity | intros [-> | []]; left; reflexivity].
  - destruct (le x a); simpl.
    + split; [intros [<- | H]; [left; reflexivity | right; exact H]
             | intros [-> | H]; [left; reflexivity | right; exact H]].
    + rewrite IH. split.
      * intros [<- | [-> | H]]; [right; left | left | right; right]; auto.
      * intros [-> | [<- | H]]; [right; left | left | right; right]; auto.
Qed.

Lemma In_order_by {A} (le : A -> A -> bool) (y : A) (l : list A) :
  In y (order_by le l) <-> In y l.
Proof.
  unfold order_by. induction l as [| a l IH]; simpl; [reflexivity |].
  rewrite In_insert_sorted, IH. split; intros [H | H]; auto.
Qed.

Lemma length_insert_sorted {A} (le : A -> A -> bool) (x : A) (l : list A) :
  List.length (insert_sorted le x l) = S (List.length l).
Proof.
  induction l as [| a l IH]; simpl; [reflexivity |].
  destruct (le x a); simpl; [reflexivity | rewrite IH; reflexivity].
Qed.

Lemma length_order_by {A} (le : A -> A -> bool) (l : list A) :
  List.length (order_by le l) = List.length l.
Proof.
  unfold order_by. induction l as [| a l IH]; simpl; [reflexivity |].
  rewrite length_insert_sorted, IH. reflexivity.
Qed.

Lemma In_update_where_id {R} (key : R -> Z) (set : R -> R) (id : Z) (table : list R) (r' : R) :
  In r' (update_where_id key set id table)
  <-> exists r, In r table /\ r' = (if key r =? id then set r else r).
Proof.
  unfold update_where_id. rewrite in_map_iff. split; intros [r [H1 H2]]; exists r; auto.
Qed.

(** X10.  A soft-deleted bank leaves the default listing and stays in the full
    one: after [delete_bank], [get_banks] shows no bank with that id among
    the active banks, shows the row, flagged inactive, when asked for all
    banks, and shows every other active bank as before. *)
Theorem delete_bank_hides_bank_from_active_listing :
  forall (r : bank) (db : database),
    In r (banks db) ->
    let db' := snd (delete_bank (bank_id r) db) in
    Forall (fun r' => bank_id r' <> bank_id r) (get_banks true db')
    /\ In (deactivate_bank r) (get_banks false db')
    /\ Forall (fun r' => bank_id r' <> bank_id r -> In r' (get_banks true db'))
         (get_banks true db).
Proof.
  intros r db Hr db'. subst db'. unfold delete_bank, transaction, get_banks.
  cbn [snd banks]. split; [| split].
  - apply List.Forall_forall. intros r' Hr'.
    apply In_order_by, filter_In in Hr'. destruct Hr' as [Hin Hactive].
    apply In_update_where_id in Hin. destruct Hin as [r0 [_ ->]].
    destruct (bank_id r0 =? bank_id r) eqn:E.
    + simpl in Hactive. discriminate.
    + apply Z.eqb_neq, E.
  - apply In_order_by, In_update_where_id. exists r. split; [exact Hr |].
    rewrite Z.eqb_refl. reflexivity.
  - apply List.Forall_forall. intros r' Hr' Hne.
    apply In_order_by, filter_In in Hr'. destruct Hr' as [Hin Hactive].
    apply In_order_by, filter_In. split; [| exact Hactive].
    apply In_update_where_id. exists r'. split; [exact Hin |].
    apply Z.eqb_neq in Hne. rewrite Hne. reflexivity.
Qed.

(** X11.  The name of a soft-deleted bank stays taken: the row is kept, so
    [add_bank] with that name is refused by the uniqueness constraint and
    writes nothing. *)
Theorem add_bank_refuses_name_of_deleted_bank :
  forall (now : string) (r : bank) (code : option string) (db : database),
    In r (banks db) ->
    let db' := snd (delete_bank (bank_id r) db) in
    add_bank now (bank_name r) code db'
    = (Raise (IntegrityError (UniqueConstraint ["name"]%string)), db').
Proof.
  intros now r code db Hr db'. unfold add_bank, transaction.
  assert (Hex : existsb (fun r0 => String.eqb (bank_name r0) (bank_name r)) (banks db')
                = true).
  { apply existsb_exists. exists (deactivate_bank r). split.
    - subst db'. unfold delete_bank, transaction. cbn [snd banks].
      apply In_update_where_id. exists r. split; [exact Hr |].
      rewrite Z.eqb_refl. reflexivity.
    - simpl. apply String.eqb_refl. }
  rewrite Hex. reflexivity.
Qed.

(** X12.  A bank with a name no bank holds is accepted: [add_bank] returns a key
    above every key of the table and the new bank, active, is one more
    entry in the listing of active banks. *)
Theorem add_bank_lists_new_bank :
  forall (now name : string) (code : option string) (db : database),
    Forall (fun r => bank_name r <> name) (banks db) ->
    exists row,
      fst (add_bank now name code db) = Ok (bank_id row)
      /\ bank_name row = name /\ bank_code row = code /\ bank_active row = Some true
      /\ Forall (fun r => bank_id r < bank_id row) (banks db)
      /\ In row (get_banks true (snd (add_bank now name code db)))
      /\ List.length (get_banks true (snd (add_bank now name code db)))
         = S (List.length (get_banks true db)).
Proof.
  intros now name code db Hfresh. unfold add_bank, transaction.
  assert (Hex : existsb (fun r => String.eqb (bank_name r) name) (banks db) = false).
  { apply not_true_is_false. intros H. apply existsb_exists in H.
    destruct H as [r [Hr Hn]]. apply String.eqb_eq in Hn.
    rewrite List.Forall_forall in Hfresh. exact (Hfresh r Hr Hn). }
  rewrite Hex.
  match goal with |- context [banks db ++ [?r]] => exists r end.
  cbn [fst snd]. split; [reflexivity |].
  cbn [bank_id bank_name bank_code bank_active].
  split; [reflexivity |]. split; [reflexivity |]. split; [reflexivity |].
  split; [| split].
  - destruct (next_rowid_above 0 (map bank_id (banks db))) as [_ Hall].
    apply List.Forall_forall. intros r Hr. rewrite List.Forall_forall in Hall.
    apply Hall, in_map, Hr.
  - unfold get_banks. cbn [banks]. apply In_order_by, filter_In.
    split; [apply in_or_app; right; left; reflexivity | reflexivity].
  - unfold get_banks. cbn [banks]. rewrite !length_order_by, List.filter_app, length_app.
    simpl. lia.
Qed.

(** X13.  Soft-deleting a bank does not hide its branches: [get_branches] filters
    on the flag of the branch only, so an active branch of the bank is
    still listed, under the name of the bank, after [delete_bank]. *)
Theorem delete_bank_keeps_branches_listed :
  forall (b : branch) (bk : bank) (db : database),
    In b (branches db) ->
    In bk (banks db) ->
    branch_bank_id b = bank_id bk ->
    branch_active b = Some true ->
    bank_id bk <> 0 ->
    let db' := snd (delete_bank (bank_id bk) db) in
    In (b, bank_name bk) (get_branches None true db')
    /\ In (b, bank_name bk) (get_branches (Some (bank_id bk)) true db').
Proof.
  intros b bk db Hb Hbk Hjoin Hactive Hne db'.
  assert (Hjoined :
            In (b, bank_name bk)
              (List.filter (fun row => is_true (branch_active (fst row)))
                 (flat_map (fun b0 =>
                              map (fun bk0 => (b0, bank_name bk0))
                                (List.filter (fun bk0 => branch_bank_id b0 =? bank_id bk0)
                                   (banks db')))
                           (branches db')))).
  { apply filter_In. split; [| simpl; rewrite Hactive; reflexivity].
    apply in_flat_map. exists b. split; [exact Hb |].
    apply in_map_iff. exists (deactivate_bank bk). split; [reflexivity |].
    apply filter_In. split; [| simpl; apply Z.eqb_eq, Hjoin].
    subst db'. unfold delete_bank, transaction. cbn [snd banks].
    apply In_update_where_id. exists bk. split; [exact Hbk |].
    rewrite Z.eqb_refl. reflexivity. }
  split.
  - unfold get_branches. cbn [truthy_id]. apply In_order_by, Hjoined.
  - unfold get_branches. cbn [truthy_id].
    apply Z.eqb_neq in Hne. rewrite Hne.
    apply In_order_by, filter_In. split; [exact Hjoined |].
    simpl. apply Z.eqb_eq, Hjoin.
Qed.


End BankListings.

(* ================================================================== *)
(** * The settings table                                               *)
(* ================================================================== *)

Section SettingsTable.

Import DbManager SettingsStore.
Local Open Scope Z_scope.

Lemma find_app {A} (f : A -> bool) (l l' : list A) :
  List.find f (l ++ l') = match List.find f l with Some x => Some x | None => List.find f l' end.
Proof.
  induction l as [| a l IH]; simpl; [reflexivity |]. destruct (f a); [reflexivity | exact IH].
Qed.

Lemma find_filter_none {A} (f : A -> bool) (l : list A) :
  List.find f (List.filter (fun x => negb (f x)) l) = None.
Proof.
  induction l as [| a l IH]; simpl; [reflexivity |].
  destruct (f a) eqn:E; simpl; [exact IH | rewrite E; exact IH].
Qed.

Lemma find_filter_other {A} (f g : A -> bool) (l : list A) :
  (forall x, f x = true -> g x = true) ->
  List.find f (List.filter g l) = List.find f l.
Proof.
  intros Hfg. induction l as [| a l IH]; simpl; [reflexivity |].
  destruct (g a) eqn:G; simpl.
  - destruct (f a); [reflexivity | exact IH].
  - destruct (f a) eqn:F; [| exact IH]. rewrite (Hfg a F) in G. discriminate.
Qed.

(** X15.  Reading a setting back: after [set_setting key value], [get_setting]
    returns [value] for [key], whatever the default, and for any other key
    what it returned before. *)
Theorem get_setting_after_set_setting :
  forall (now key value key' : string) (default_value : option string)
         (t : settings_table),
    get_setting key' default_value (set_setting now key value t)
    = if String.eqb key' key then Some value else get_setting key' default_value t.
Proof.
  intros now key value key' default_value t. unfold get_setting, set_setting.
  cbn [settings]. rewrite find_app.
  destruct (String.eqb_spec key' key) as [-> | Hne].
  - rewrite find_filter_none. simpl. rewrite String.eqb_refl. reflexivity.
  - rewrite find_filter_other.
    + destruct (List.find (fun r => String.eqb (setting_key r) key') (settings t));
        [reflexivity |].
      simpl. destruct (String.eqb_spec key key') as [E | _]; [congruence | reflexivity].
    + intros x Hx. apply String.eqb_eq in Hx. rewrite Hx.
      apply negb_true_iff, String.eqb_neq, Hne.
Qed.

(** X16.  [set_setting] replaces the row rather than updating it: afterwards one
    row holds the key, with the value, a key above every key the table
    held and no description, whatever description the setting had; the rows
    of the other keys are kept, in their order. *)
Theorem set_setting_replaces_the_row :
  forall (now key value : string) (t : settings_table),
    exists row,
      List.filter (fun r => String.eqb (setting_key r) key) (settings (set_setting now key value t))
      = [row]
      /\ setting_value row = value
      /\ setting_description row = None
      /\ Forall (fun r => setting_id r < setting_id row) (settings t)
      /\ List.filter (fun r => negb (String.eqb (setting_key r) key))
           (settings (set_setting now key value t))
         = List.filter (fun r => negb (String.eqb (setting_key r) key)) (settings t).
Proof.
  intros now key value t. unfold set_setting. cbn [settings].
  match goal with |- context [_ ++ [?r]] => exists r end.
  rewrite !List.filter_app. cbn [List.filter setting_key setting_value setting_description
                                 setting_id].
  rewrite String.eqb_refl. cbn [negb].
  assert (Hnone : forall l : list setting,
             List.filter (fun r => String.eqb (setting_key r) key)
               (List.filter (fun r => negb (String.eqb (setting_key r) key)) l) = []).
  { induction l as [| a l IH]; simpl; [reflexivity |].
    destruct (String.eqb (setting_key a) key) eqn:E; simpl; [exact IH |].
    rewrite E. exact IH. }
  assert (Hsame : forall l : list setting,
             List.filter (fun r => negb (String.eqb (setting_key r) key))
               (List.filter (fun r => negb (String.eqb (setting_key r) key)) l)
             = List.filter (fun r => negb (String.eqb (setting_key r) key)) l).
  { induction l as [| a l IH]; simpl; [reflexivity |].
    destruct (String.eqb (setting_key a) key) eqn:E; simpl; [exact IH |].
    rewrite E. simpl. rewrite IH. reflexivity. }
  rewrite Hnone, Hsame, app_nil_r. simpl.
  split; [reflexivity |]. split; [reflexivity |]. split; [reflexivity |].
  split; [| reflexivity].
  destruct (next_rowid_above (settings_sequence t) (map setting_id (settings t)))
    as [_ Hall].
  apply List.Forall_forall. intros r Hr. rewrite List.Forall_forall in Hall.
  apply Hall, in_map, Hr.
Qed.

Lemma get_setting_after_defaults now key default_value defaults :
  forall t,
    get_setting key default_value (fold_left (insert_or_ignore_setting now) defaults t)
    = match List.find (fun r => String.eqb (setting_key r) key) (settings t) with
      | Some r => Some (setting_value r)
      | None =>
          match lookup_default key defaults with
          | Some v => Some v
          | None => default_value
          end
      end.
Proof.
  induction defaults as [| [[k v] d] defaults IH]; intros t; simpl.
  - reflexivity.
  - rewrite IH. clear IH.
    destruct (existsb (fun r => String.eqb (setting_key r) k) (settings t)) eqn:Hex.
    + cbn [settings].
      destruct (List.find (fun r => String.eqb (setting_key r) key) (settings t)) eqn:Hfind;
        [reflexivity |].
      destruct (String.eqb_spec k key) as [-> | _]; [| reflexivity].
      apply existsb_exists in Hex. destruct Hex as [r [Hr Hk]].
      pose proof (find_none _ _ Hfind r Hr) as Hnot. simpl in Hnot. congruence.
    + cbn [settings]. rewrite find_app. simpl.
      destruct (List.find (fun r => String.eqb (setting_key r) key) (settings t));
        [reflexivity |].
      destruct (String.eqb k key); reflexivity.
Qed.

(** X17.  Starting the application again does not undo a saved setting:
    [_insert_default_data] inserts a default only for a key the table does
    not hold.  A setting written by [set_setting] reads the same after it;
    in general [get_setting] then returns the stored value of a key that
    was there, else the default the program inserts for the key, else the
    caller's default. *)
Theorem saved_setting_survives_insert_default_settings :
  forall (now now' key value key' : string) (default_value : option string)
         (t : settings_table),
    get_setting key default_value (insert_default_settings now' (set_setting now key value t))
    = Some value
    /\ get_setting key' default_value (insert_default_settings now t)
       = match List.find (fun r => String.eqb (setting_key r) key') (settings t) with
         | Some r => Some (setting_value r)
         | None =>
             match lookup_default key' default_settings with
             | Some v => Some v
             | None => default_value
             end
         end.
Proof.
  intros now now' key value key' default_value t.
  split; [| apply get_setting_after_defaults].
  unfold insert_default_settings. rewrite get_setting_after_defaults.
  unfold set_setting. cbn [settings]. rewrite find_app, find_filter_none.
  simpl. rewrite String.eqb_refl. reflexivity.
Qed.

End SettingsTable.

(** The theorem at the CIH bank of the sample registry. *)
Lemma delete_bank_hides_bank_from_active_listing_witness :
  let db' := snd (DbManager.delete_bank 1 sample_registry) in
  In bank_CIH (DbManager.banks sample_registry)
  /\ Banks.get_banks true db' = [bank_BMCE]
  /\ Forall (fun r' => DbManager.bank_id r' <> 1%Z) (Banks.get_banks true db')
  /\ In (DbManager.deactivate_bank bank_CIH) (Banks.get_banks false db').
Proof.
  intros db'.
  assert (H : In bank_CIH (DbManager.banks sample_registry)) by (left; reflexivity).
  split; [exact H |]. split; [reflexivity |].
  destruct (delete_bank_hides_bank_from_active_listing bank_CIH sample_registry H)
    as (H1 & H2 & _).
  split; [exact H1 | exact H2].
Defined.

(** The theorem at the CIH bank, deleted and proposed again. *)
Lemma add_bank_refuses_name_of_deleted_bank_witness :
  let db' := snd (DbManager.delete_bank 1 sample_registry) in
  In bank_CIH (DbManager.banks sample_registry)
  /\ Banks.add_bank "2024-03-01 08:00:00" "CIH Bank" None db'
     = (Raise (IntegrityError (UniqueConstraint ["name"]%string)), db').
Proof.
  intros db'.
  assert (H : In bank_CIH (DbManager.banks sample_registry)) by (left; reflexivity).
  split; [exact H |].
  exact (add_bank_refuses_name_of_deleted_bank "2024-03-01 08:00:00" bank_CIH None
           sample_registry H).
Defined.

(** The theorem at a third bank. *)
Lemma add_bank_lists_new_bank_witness :
  Forall (fun r => DbManager.bank_name r <> "Al Barid Bank"%string)
    (DbManager.banks sample_registry)
  /\ fst (Banks.add_bank "2024-03-01 08:00:00" "Al Barid Bank" None sample_registry) = Ok 3%Z
  /\ map DbManager.bank_name
       (Banks.get_banks true
          (snd (Banks.add_bank "2024-03-01 08:00:00" "Al Barid Bank" None sample_registry)))
     = ["Al Barid Bank"; "BMCE Bank"; "CIH Bank"]%string
  /\ exists row,
      fst (Banks.add_bank "2024-03-01 08:00:00" "Al Barid Bank" None sample_registry)
      = Ok (DbManager.bank_id row)
      /\ In row (Banks.get_banks true
                   (snd (Banks.add_bank "2024-03-01 08:00:00" "Al Barid Bank" None
                           sample_registry))).
Proof.
  assert (H : Forall (fun r => DbManager.bank_name r <> "Al Barid Bank"%string)
                (DbManager.banks sample_registry)).
  { repeat (constructor; [discriminate |]). constructor. }
  split; [exact H |]. split; [reflexivity |]. split; [reflexivity |].
  destruct (add_bank_lists_new_bank "2024-03-01 08:00:00" "Al Barid Bank" None
              sample_registry H) as (row & H1 & _ & _ & _ & _ & H2 & _).
  exists row. split; [exact H1 | exact H2].
Defined.

(** The theorem at the Rabat branch of the CIH bank. *)
Lemma delete_bank_keeps_branches_listed_witness :
  let db' := snd (DbManager.delete_bank 1 sample_registry) in
  (In branch_Rabat (DbManager.branches sample_registry)
   /\ In bank_CIH (DbManager.banks sample_registry)
   /\ DbManager.branch_bank_id branch_Rabat = DbManager.bank_id bank_CIH
   /\ DbManager.branch_active branch_Rabat = Some true
   /\ DbManager.bank_id bank_CIH <> 0%Z)
  /\ In (branch_Rabat, "CIH Bank"%string) (Banks.get_branches None true db')
  /\ In (branch_Rabat, "CIH Bank"%string) (Banks.get_branches (Some 1%Z) true db').
Proof.
  intros db'.
  assert (H1 : In branch_Rabat (DbManager.branches sample_registry)) by (left; reflexivity).
  assert (H2 : In bank_CIH (DbManager.banks sample_registry)) by (left; reflexivity).
  assert (H3 : DbManager.branch_bank_id branch_Rabat = DbManager.bank_id bank_CIH)
    by reflexivity.
  assert (H4 : DbManager.branch_active branch_Rabat = Some true) by reflexivity.
  assert (H5 : DbManager.bank_id bank_CIH <> 0%Z) by discriminate.
  split; [exact (conj H1 (conj H2 (conj H3 (conj H4 H5)))) |].
  exact (delete_bank_keeps_branches_listed branch_Rabat bank_CIH sample_registry
           H1 H2 H3 H4 H5).
Defined.


(* ================================================================== *)
(** * The role table                                                   *)
(* ================================================================== *)

Section RoleTable.

Import SecurityManager.

Lemma existsb_incl (p : string) (l l' : list string) :
  forallb (fun x => existsb (String.eqb x) l') l = true ->
  Bool.le (existsb (String.eqb p) l) (existsb (String.eqb p) l').
Proof.
  intros Hincl. destruct (existsb (String.eqb p) l) eqn:E; simpl; [| exact I].
  apply existsb_exists in E. destruct E as [x [Hx Hp]]. apply String.eqb_eq in Hp. subst x.
  rewrite forallb_forall in Hincl. apply Hincl, Hx.
Qed.

(** X18.  The roles are nested: whatever permission is asked, what the readonly
    role holds the employee holds, what the employee holds the manager
    holds, and what the manager holds the admin holds. *)
Theorem role_permissions_are_nested :
  forall required_permission : string,
    Bool.le (check_user_permissions "readonly" required_permission)
            (check_user_permissions "employee" required_permission)
    /\ Bool.le (check_user_permissions "employee" required_permission)
               (check_user_permissions "manager" required_permission)
    /\ Bool.le (check_user_permissions "manager" required_permission)
               (check_user_permissions "admin" required_permission).
Proof.
  intros p. split; [| split].
  - exact (existsb_incl p (dict_get _load_role_permissions READONLY [])
             (dict_get _load_role_permissions EMPLOYEE []) eq_refl).
  - exact (existsb_incl p (dict_get _load_role_permissions EMPLOYEE [])
             (dict_get _load_role_permissions MANAGER []) eq_refl).
  - exact (existsb_incl p (dict_get _load_role_permissions MANAGER [])
             (dict_get _load_role_permissions ADMIN []) eq_refl).
Qed.

End RoleTable.

Section AdminOnly.

Import SecurityManager.

(** X19.  Deleting anything, creating or changing a bank, managing users,
    restoring or configuring the system and reading the audit log are
    granted to the admin role alone: if [check_user_permissions] grants one
    of these permissions, the role is admin. *)
Theorem destructive_permissions_are_admin_only :
  forall user_role required_permission : string,
    In required_permission admin_only_permissions ->
    check_user_permissions user_role required_permission = true ->
    user_role = "admin"%string.
Proof.
  intros user_role p Hp Hgranted. unfold check_user_permissions in Hgranted.
  unfold UserRole_of_value in Hgranted.
  destruct (String.eqb_spec user_role "admin") as [-> | _]; [reflexivity |].
  exfalso.
  unfold admin_only_permissions in Hp. simpl in Hp.
  destruct (String.eqb user_role "manager");
    [| destruct (String.eqb user_role "employee");
       [| destruct (String.eqb user_role "readonly"); [| discriminate]]];
    repeat (destruct Hp as [<- | Hp]; [vm_compute in Hgranted; discriminate |]);
    exact Hp.
Qed.

End AdminOnly.

(** The theorem at the permission to delete a cheque, which the admin
    holds. *)
Lemma destructive_permissions_are_admin_only_witness :
  (In "cheque.delete"%string admin_only_permissions
   /\ SecurityManager.check_user_permissions "admin" "cheque.delete" = true)
  /\ "admin"%string = "admin"%string.
Proof.
  assert (H1 : In "cheque.delete"%string admin_only_permissions) by (left; reflexivity).
  assert (H2 : SecurityManager.check_user_permissions "admin" "cheque.delete" = true)
    by reflexivity.
  split; [exact (conj H1 H2) |].
  exact (destructive_permissions_are_admin_only "admin" "cheque.delete" H1 H2).
Defined.

(* ================================================================== *)
(** * Sanitising input                                                 *)
(* ================================================================== *)

Section SanitizeInput.

Import Sanitizer.

Lemma fold_left_remove_char (chars : list N) (s : text) :
  fold_left remove_char chars s
  = List.filter (fun c => negb (existsb (fun d => (c =? d)%N) chars)) s.
Proof.
  revert s. induction chars as [| d chars IH]; intros s; simpl.
  - induction s as [| c s IHs]; simpl; [reflexivity | rewrite <- IHs; reflexivity].
  - rewrite IH. unfold remove_char. clear IH.
    induction s as [| c s IHs]; simpl; [reflexivity |].
    destruct (c =? d)%N; simpl; [exact IHs |].
    destruct (existsb (fun d0 => (c =? d0)%N) chars); simpl; [exact IHs |].
    rewrite IHs. reflexivity.
Qed.

Lemma filter_all {A} (f : A -> bool) (l : list A) :
  Forall (fun x => f x = true) l -> List.filter f l = l.
Proof.
  induction 1 as [| x l Hx _ IH]; simpl; [reflexivity |]. rewrite Hx, IH. reflexivity.
Qed.

Lemma Forall_filter_self {A} (f : A -> bool) (l : list A) :
  Forall (fun x => f x = true) (List.filter f l).
Proof.
  apply List.Forall_forall. intros x Hx. apply filter_In in Hx. apply Hx.
Qed.

Lemma Forall_firstn {A} (P : A -> Prop) (n : nat) (l : list A) :
  Forall P l -> Forall P (firstn n l).
Proof.
  intros H. revert n. induction H as [| x l Hx _ IH]; intros [| n]; simpl; constructor;
    [exact Hx | apply IH].
Qed.

Lemma Forall_lstrip (P : N -> Prop) (s : text) : Forall P s -> Forall P (lstrip s).
Proof.
  induction 1 as [| c s Hc Hs IH]; simpl; [constructor |].
  destruct (isspace c); [exact IH | constructor; assumption].
Qed.

Lemma Forall_rstrip (P : N -> Prop) (s : text) : Forall P s -> Forall P (rstrip s).
Proof.
  induction 1 as [| c s Hc Hs IH]; simpl; [constructor |].
  destruct (rstrip s) as [| k kept].
  - destruct (isspace c); [constructor | constructor; [exact Hc | constructor]].
  - constructor; assumption.
Qed.

Lemma length_lstrip (s : text) : (List.length (lstrip s) <= List.length s)%nat.
Proof.
  induction s as [| c s IH]; simpl; [lia |]. destruct (isspace c); simpl; lia.
Qed.

Lemma length_rstrip (s : text) : (List.length (rstrip s) <= List.length s)%nat.
Proof.
  induction s as [| c s IH]; simpl; [lia |].
  destruct (rstrip s) as [| k kept]; [destruct (isspace c) |]; simpl in *; lia.
Qed.

Lemma rstrip_idempotent (s : text) : rstrip (rstrip s) = rstrip s.
Proof.
  induction s as [| c s IH]; simpl; [reflexivity |].
  destruct (rstrip s) as [| k kept] eqn:E.
  - destruct (isspace c) eqn:Hc; simpl; [reflexivity | rewrite Hc; reflexivity].
  - change (rstrip (c :: k :: kept)) with
      (match rstrip (k :: kept) with
       | [] => if isspace c then [] else [c]
       | kept' => c :: kept'
       end).
    rewrite IH. reflexivity.
Qed.

Lemma lstrip_starts_clean (s : text) : starts_clean (lstrip s).
Proof.
  induction s as [| c s IH]; simpl; [exact I |].
  destruct (isspace c) eqn:Hc; [exact IH | exact Hc].
Qed.

Lemma starts_clean_lstrip (s : text) : starts_clean s -> lstrip s = s.
Proof.
  destruct s as [| c s]; simpl; [reflexivity |]. intros ->. reflexivity.
Qed.

Lemma rstrip_starts_clean (s : text) : starts_clean s -> starts_clean (rstrip s).
Proof.
  destruct s as [| c s]; simpl; [exact (fun H => H) |]. intros Hc.
  destruct (rstrip s); [rewrite Hc |]; exact Hc.
Qed.

Lemma strip_is_stripped (s : text) :
  lstrip (strip s) = strip s /\ rstrip (strip s) = strip s.
Proof.
  unfold strip. split.
  - apply starts_clean_lstrip, rstrip_starts_clean, lstrip_starts_clean.
  - apply rstrip_idempotent.
Qed.

(** [sanitize_input] in one expression: the characters that are kept, cut
    at 1000, stripped. *)
Lemma sanitize_input_eq (input_data : text) :
  sanitize_input input_data
  = match input_data with
    | [] => []
    | _ =>
        let cleaned := List.filter (fun c => is_safe c) input_data in
        strip (if (1000 <? List.length cleaned)%nat then firstn 1000 cleaned else cleaned)
    end.
Proof.
  destruct input_data as [| c0 rest]; [reflexivity |].
  unfold sanitize_input. rewrite fold_left_remove_char. reflexivity.
Qed.

Lemma sanitize_input_safe (input_data : text) :
  Forall (fun c => is_safe c = true) (sanitize_input input_data).
Proof.
  rewrite sanitize_input_eq. destruct input_data as [| c0 rest]; [constructor |].
  cbn zeta. unfold strip. apply Forall_rstrip, Forall_lstrip.
  destruct (1000 <? _)%nat; [apply Forall_firstn |];
    apply (Forall_filter_self (fun c => is_safe c)).
Qed.

Lemma sanitize_input_length (input_data : text) :
  (List.length (sanitize_input input_data) <= 1000)%nat.
Proof.
  rewrite sanitize_input_eq. destruct input_data as [| c0 rest]; [simpl; lia |].
  cbv zeta. unfold strip.
  match goal with
  | |- (List.length (rstrip (lstrip ?cut)) <= _)%nat =>
      pose proof (length_rstrip (lstrip cut)); pose proof (length_lstrip cut);
      assert (Hlen : (List.length cut <= 1000)%nat)
  end.
  { match goal with
    | |- context [if ?b then _ else _] => destruct b eqn:E
    end.
    - rewrite List.length_firstn. lia.
    - apply Nat.ltb_ge in E. exact E. }
  lia.
Qed.

Lemma sanitize_input_stripped (input_data : text) :
  lstrip (sanitize_input input_data) = sanitize_input input_data
  /\ rstrip (sanitize_input input_data) = sanitize_input input_data.
Proof.
  rewrite sanitize_input_eq. destruct input_data as [| c0 rest]; [split; reflexivity |].
  apply strip_is_stripped.
Qed.

(** X20.  What [sanitize_input] returns holds none of the ten characters it
    removes, is at most 1000 characters long, and neither starts nor ends
    with white space: stripping it on either side changes nothing. *)
Theorem sanitize_input_is_clean :
  forall input_data : text,
    let sanitized := sanitize_input input_data in
    Forall (fun c => existsb (fun d => (c =? d)%N) dangerous_chars = false) sanitized
    /\ (List.length sanitized <= 1000)%nat
    /\ lstrip sanitized = sanitized
    /\ rstrip sanitized = sanitized.
Proof.
  intros input_data sanitized. subst sanitized.
  split; [| split; [apply sanitize_input_length | apply sanitize_input_stripped]].
  eapply List.Forall_impl; [| apply sanitize_input_safe]. simpl. intros c Hc.
  unfold is_safe in Hc. apply negb_true_iff in Hc. exact Hc.
Qed.

(** X21.  Sanitising twice is sanitising once. *)
Theorem sanitize_input_idempotent :
  forall input_data : text,
    sanitize_input (sanitize_input input_data) = sanitize_input input_data.
Proof.
  intros input_data.
  pose proof (sanitize_input_safe input_data) as Hsafe.
  pose proof (sanitize_input_length input_data) as Hlen.
  destruct (sanitize_input_stripped input_data) as [Hl Hr].
  set (out := sanitize_input input_data) in *.
  rewrite (sanitize_input_eq out). destruct out as [| c rest] eqn:E; [reflexivity |].
  rewrite <- E in *. cbn zeta. rewrite filter_all by exact Hsafe.
  apply Nat.ltb_ge in Hlen. rewrite Hlen. unfold strip. rewrite Hl. exact Hr.
Qed.

End SanitizeInput.

(* ================================================================== *)
(** * Sessions                                                         *)
(* ================================================================== *)

Section SessionTable.

Import DbManager Sessions.
Local Open Scope Z_scope.

Lemma filter_none {A} (f : A -> bool) (l : list A) :
  Forall (fun x => f x = false) l -> List.filter f l = [].
Proof.
  induction 1 as [| x l Hx _ IH]; simpl; [reflexivity |]. rewrite Hx. exact IH.
Qed.

Lemma find_filter_head {A} (f : A -> bool) (l : list A) (x : A) :
  List.find f l = Some x -> exists rest, List.filter f l = x :: rest.
Proof.
  induction l as [| a l IH]; simpl; [discriminate |].
  destruct (f a) eqn:E.
  - intros H. inversion H; subst. eexists. reflexivity.
  - exact IH.
Qed.

(** No session that is active holds the token once the sessions holding
    it are deactivated. *)
Lemma no_active_session_after_deactivation token (t : sessions_table) :
  List.filter (fun s => String.eqb (session_token s) token
                        && Banks.is_true (session_is_active s))
    (sessions (deactivate_where (fun s => String.eqb (session_token s) token) t))
  = [].
Proof.
  unfold deactivate_where. cbn [sessions]. apply filter_none, Forall_map.
  apply List.Forall_forall. intros s _.
  destruct (String.eqb (session_token s) token) eqn:E; simpl.
  - apply andb_false_r.
  - rewrite E. reflexivity.
Qed.

Lemma validate_session_without_active_row now token users (t : sessions_table) :
  List.filter (fun s => String.eqb (session_token s) token
                        && Banks.is_true (session_is_active s)) (sessions t) = [] ->
  validate_session now token users t = (None, t).
Proof.
  intros H. unfold validate_session. rewrite H. reflexivity.
Qed.

(** X22.  A session lives exactly until its expiry.  For a token the table does
    not hold and a user the [users] table holds, [create_user_session]
    returns true, and [validate_session] then returns the user with name
    and role at every instant up to the expiry, the instant of creation
    plus the timeout, and nothing after it; the first validation after the
    expiry deactivates the session, and from then on it is refused at every
    instant, an earlier one included. *)
Theorem session_is_valid_until_it_expires :
  forall (now_text : string) (now session_timeout user_id : Z) (session_token : string)
         (users : list user) (t : sessions_table) (u : user) (later another : Z),
    Forall (fun s => Sessions.session_token s <> session_token) (sessions t) ->
    List.find (fun u => user_id =? DbManager.user_id u) users = Some u ->
    let created :=
      create_user_session now_text now session_timeout user_id session_token t in
    let expires_at := now + session_timeout * 1000000 in
    fst created = true
    /\ fst (validate_session later session_token users (snd created))
       = (if expires_at <? later then None
          else Some {| info_user_id := user_id;
                       info_username := user_username u;
                       info_role := user_role u;
                       info_expires_at := expires_at |})
    /\ (if expires_at <? later
        then fst (validate_session another session_token users
                    (snd (validate_session later session_token users (snd created)))) = None
        else snd (validate_session later session_token users (snd created)) = snd created).
Proof.
  intros now_text now session_timeout user_id session_token users t u later another
         Hfresh Huser created expires_at.
  assert (Hex : existsb (fun s => String.eqb (Sessions.session_token s) session_token)
                  (sessions t) = false).
  { apply not_true_is_false. intros H. apply existsb_exists in H.
    destruct H as [s [Hs Ht]]. apply String.eqb_eq in Ht.
    rewrite List.Forall_forall in Hfresh. exact (Hfresh s Hs Ht). }
  subst created. unfold create_user_session. rewrite Hex. cbn [fst snd].
  split; [reflexivity |].
  assert (Hold : List.filter (fun s => String.eqb (Sessions.session_token s) session_token
                                       && Banks.is_true (session_is_active s)) (sessions t)
                 = []).
  { apply filter_none. eapply List.Forall_impl; [| exact Hfresh]. simpl. intros s Hs.
    apply String.eqb_neq in Hs. rewrite Hs. reflexivity. }
  destruct (find_filter_head _ _ _ Huser) as [rest Hrest].
  unfold validate_session at 1 3 4. cbn [sessions].
  rewrite List.filter_app, Hold. cbn [List.filter Sessions.session_token session_is_active
    Banks.is_true app]. rewrite String.eqb_refl. cbn [andb flat_map session_user_id app].
  rewrite Hrest. cbn [map app session_expires_at session_user_id]. fold expires_at.
  destruct (expires_at <? later); cbn [fst snd].
  - split; [reflexivity |].
    apply (f_equal fst
             (validate_session_without_active_row another session_token users _
                (no_active_session_after_deactivation session_token _))).
  - split; reflexivity.
Qed.

(** X23.  After [invalidate_session] the token is refused at every instant,
    whatever the table held; and [invalidate_session] returns whether a
    session, active or not, held the token. *)
Theorem invalidated_session_is_refused :
  forall (now : Z) (session_token : string) (users : list user) (t : sessions_table),
    fst (validate_session now session_token users (snd (invalidate_session session_token t)))
    = None
    /\ fst (invalidate_session session_token t)
       = existsb (fun s => String.eqb (Sessions.session_token s) session_token) (sessions t).
Proof.
  intros now session_token users t. unfold invalidate_session. cbn [fst snd]. split.
  - apply (f_equal fst
             (validate_session_without_active_row now session_token users _
                (no_active_session_after_deactivation session_token _))).
  - apply count_pos_existsb.
Qed.

(** X24.  A token is issued once: [create_user_session] with a token a session
    holds returns false and writes nothing, and so it does after that
    session was invalidated, the row being kept. *)
Theorem session_token_is_never_reissued :
  forall (now_text : string) (now session_timeout user_id : Z) (session_token : string)
         (t : sessions_table),
    (exists s, In s (sessions t) /\ Sessions.session_token s = session_token) ->
    create_user_session now_text now session_timeout user_id session_token t = (false, t)
    /\ create_user_session now_text now session_timeout user_id session_token
         (snd (invalidate_session session_token t))
       = (false, snd (invalidate_session session_token t)).
Proof.
  intros now_text now session_timeout user_id session_token t [s [Hs Ht]].
  unfold create_user_session. split.
  - assert (Hex : existsb (fun s => String.eqb (Sessions.session_token s) session_token)
                    (sessions t) = true).
    { apply existsb_exists. exists s. split; [exact Hs | apply String.eqb_eq, Ht]. }
    rewrite Hex. reflexivity.
  - assert (Hex : existsb (fun s => String.eqb (Sessions.session_token s) session_token)
                    (sessions (snd (invalidate_session session_token t))) = true).
    { apply existsb_exists. exists (deactivate_session s). split.
      - unfold invalidate_session, deactivate_where. cbn [snd sessions].
        apply in_map_iff. exists s. split; [| exact Hs].
        apply String.eqb_eq in Ht. rewrite Ht. reflexivity.
      - simpl. apply String.eqb_eq, Ht. }
    rewrite Hex. reflexivity.
Qed.

Lemma filter_map_commute {A} (f : A -> bool) (g : A -> A) (l : list A) :
  (forall x, f (g x) = f x) ->
  List.filter f (map g l) = map g (List.filter f l).
Proof.
  intros H. induction l as [| a l IH]; simpl; [reflexivity |].
  rewrite H. destruct (f a); simpl; rewrite IH; reflexivity.
Qed.

(** X25.  Soft-deleting a user does not end their sessions: [validate_session]
    joins on the id of the user and never reads the [active] flag, so it
    answers the same before and after [delete_user]. *)
Theorem deleted_user_keeps_session :
  forall (now : Z) (session_token : string) (current_user_id : Z) (selection : option Z)
         (confirmed : bool) (db : database) (t : sessions_table),
    validate_session now session_token
      (users (Settings.delete_user current_user_id selection confirmed db)) t
    = validate_session now session_token (users db) t.
Proof.
  intros now session_token current_user_id selection confirmed db t.
  unfold Settings.delete_user.
  destruct selection as [uid |]; [| reflexivity].
  destruct (uid =? current_user_id); [reflexivity |].
  destruct confirmed; [| reflexivity]. cbn [users].
  unfold validate_session, update_where_id.
  set (g := fun r : user => if user_id r =? uid then Settings.deactivate_user r else r).
  induction (List.filter (fun s => String.eqb (Sessions.session_token s) session_token
                                   && Banks.is_true (session_is_active s)) (sessions t))
    as [| s active IH]; [reflexivity |].
  cbn [flat_map].
  rewrite (filter_map_commute (fun u => session_user_id s =? user_id u) g)
    by (intros x; unfold g; destruct (user_id x =? uid); reflexivity).
  destruct (List.filter (fun u => session_user_id s =? user_id u) (users db))
    as [| u matching]; cbn [map app].
  - exact IH.
  - assert (Hname : user_username (g u) = user_username u)
      by (unfold g; destruct (user_id u =? uid); reflexivity).
    assert (Hrole : user_role (g u) = user_role u)
      by (unfold g; destruct (user_id u =? uid); reflexivity).
    rewrite Hname, Hrole. reflexivity.
Qed.

(** With tokens that are unique, at most one session holds a token. *)
Lemma at_most_one_session_per_token token (active : session -> bool) (l : list session) :
  List.NoDup (map Sessions.session_token l) ->
  (List.length
     (List.filter (fun s => String.eqb (Sessions.session_token s) token && active s) l)
   <= 1)%nat.
Proof.
  induction l as [| a l IH]; simpl; intros Hnd; [lia |].
  inversion Hnd as [| x xs Hnotin Hnd']; subst.
  destruct (String.eqb (Sessions.session_token a) token) eqn:E; simpl.
  - apply String.eqb_eq in E.
    rewrite (filter_none _ l).
    + destruct (active a); simpl; lia.
    + apply List.Forall_forall. intros s Hs.
      destruct (String.eqb (Sessions.session_token s) token) eqn:E'; [| reflexivity].
      apply String.eqb_eq in E'. exfalso. apply Hnotin. rewrite E, <- E'.
      apply in_map. exact Hs.
  - exact (IH Hnd').
Qed.

(** The sessions still active and holding the token after a clean-up are
    those that were and had not expired when it ran. *)
Lemma active_sessions_after_cleanup cleaned_at token (l : list session) :
  List.filter (fun s => String.eqb (Sessions.session_token s) token
                        && Banks.is_true (session_is_active s))
    (map (fun s => if (session_expires_at s <? cleaned_at)
                      && Banks.is_true (session_is_active s)
                   then deactivate_session s else s) l)
  = List.filter (fun s => negb (session_expires_at s <? cleaned_at))
      (List.filter (fun s => String.eqb (Sessions.session_token s) token
                             && Banks.is_true (session_is_active s)) l).
Proof.
  induction l as [| a l IH]; simpl; [reflexivity |].
  destruct (session_expires_at a <? cleaned_at) eqn:Ex;
    destruct (Banks.is_true (session_is_active a)) eqn:Ea;
    destruct (String.eqb (Sessions.session_token a) token) eqn:Et;
    simpl; rewrite ?Et, ?Ea, ?Ex; simpl; rewrite ?andb_false_r, ?IH; reflexivity.
Qed.

(** X26.  [cleanup_expired_sessions] changes no answer: with tokens that are
    unique, as the [UNIQUE] column keeps them, [validate_session] returns
    after a clean-up made at an earlier or the same instant what it returns
    without it. *)
Theorem cleanup_expired_sessions_changes_no_answer :
  forall (cleaned_at now : Z) (session_token : string) (users : list user)
         (t : sessions_table),
    List.NoDup (map Sessions.session_token (sessions t)) ->
    cleaned_at <= now ->
    fst (validate_session now session_token users (cleanup_expired_sessions cleaned_at t))
    = fst (validate_session now session_token users t).
Proof.
  intros cleaned_at now session_token users t Hunique Hle.
  pose proof (at_most_one_session_per_token session_token
                (fun s => Banks.is_true (session_is_active s)) (sessions t) Hunique) as Hone.
  unfold validate_session, cleanup_expired_sessions, deactivate_where. cbn [sessions].
  rewrite active_sessions_after_cleanup.
  destruct (List.filter (fun s => String.eqb (Sessions.session_token s) session_token
                                  && Banks.is_true (session_is_active s)) (sessions t))
    as [| s0 [| s1 others]]; [reflexivity | | simpl in Hone; lia].
  cbn [List.filter]. destruct (session_expires_at s0 <? cleaned_at) eqn:Ex; cbn [negb].
  - cbn [flat_map app]. rewrite app_nil_r.
    destruct (List.filter (fun u => session_user_id s0 =? user_id u) users)
      as [| u matching]; [reflexivity |].
    cbn [map]. apply Z.ltb_lt in Ex.
    assert (Hnow : (session_expires_at s0 <? now) = true) by (apply Z.ltb_lt; lia).
    rewrite Hnow. reflexivity.
  - cbn [flat_map app]. rewrite app_nil_r.
    destruct (List.filter (fun u => session_user_id s0 =? user_id u) users)
      as [| u matching]; [reflexivity |].
    cbn [map]. destruct (session_expires_at s0 <? now); reflexivity.
Qed.

End SessionTable.

(* ================================================================== *)
(** * The lockout after failed logins                                  *)
(* ================================================================== *)

Section Lockout.

Import AuditLog.
Local Open Scope Z_scope.

(** Text against text: after the same date, the space of
    [CURRENT_TIMESTAMP] sorts before the [T] of [isoformat]. *)
Lemma isoformat_not_below_same_date (date time rest : string) :
  String.ltb (date ++ "T" ++ rest) (date ++ " " ++ time) = false.
Proof.
  unfold String.ltb. induction date as [| c date IH]; simpl; [reflexivity |].
  unfold Ascii.compare. rewrite N.compare_refl. exact IH.
Qed.

(** X27.  Failed logins of the day the lockout window starts are never counted.
    The log holds [CURRENT_TIMESTAMP] texts, a date, a space and a time;
    the window start is an [isoformat] text, a date, a [T] and a time; the
    query compares the two as text.  When every row of the log bears the
    date of the window start, [check_login_attempts] counts no failure: all
    the attempts remain, and nobody is locked unless the limit is 0 or
    less. *)
Theorem failed_logins_of_the_same_date_are_not_counted :
  forall (date rest : string) (max_login_attempts : Z) (username : string)
         (audit_log : list audit_row),
    Forall (fun r => exists time, audit_timestamp r = (date ++ " " ++ time)%string) audit_log ->
    check_login_attempts (date ++ "T" ++ rest) max_login_attempts username audit_log
    = (max_login_attempts <=? 0, Z.max 0 max_login_attempts).
Proof.
  intros date rest max_login_attempts username audit_log Hlog.
  unfold check_login_attempts.
  rewrite (filter_none _ audit_log).
  - simpl. rewrite Z.sub_0_r. reflexivity.
  - eapply List.Forall_impl; [| exact Hlog]. simpl. intros r [time ->].
    rewrite isoformat_not_below_same_date. apply andb_false_r.
Qed.

End Lockout.

(** The theorem at a second session, opened for an hour at the instant
    100 s and validated at its last instant. *)
Lemma session_is_valid_until_it_expires_witness :
  let created :=
    Sessions.create_user_session "2024-05-06 08:01:40" 100000000 3600 2 "Qm71x"
      sample_sessions in
  (Forall (fun s => Sessions.session_token s <> "Qm71x"%string)
     (Sessions.sessions sample_sessions)
   /\ List.find (fun u => (2 =? DbManager.user_id u)%Z) [user_amina] = Some user_amina)
  /\ fst created = true
  /\ fst (Sessions.validate_session 3700000000 "Qm71x" [user_amina] (snd created))
     = Some {| Sessions.info_user_id := 2; Sessions.info_username := "amina";
               Sessions.info_role := "readonly";
               Sessions.info_expires_at := 3700000000 |}.
Proof.
  intros created.
  assert (H1 : Forall (fun s => Sessions.session_token s <> "Qm71x"%string)
                 (Sessions.sessions sample_sessions)).
  { constructor; [discriminate | constructor]. }
  assert (H2 : List.find (fun u => (2 =? DbManager.user_id u)%Z) [user_amina]
               = Some user_amina) by reflexivity.
  split; [exact (conj H1 H2) |].
  destruct (session_is_valid_until_it_expires "2024-05-06 08:01:40" 100000000 3600 2
              "Qm71x" [user_amina] sample_sessions user_amina 3700000000 0 H1 H2)
    as (Hc & Hv & _).
  split; [exact Hc | exact Hv].
Defined.

(** The theorem at the token of the sample session. *)
Lemma session_token_is_never_reissued_witness :
  (exists s, In s (Sessions.sessions sample_sessions)
             /\ Sessions.session_token s = "k3Zr9"%string)
  /\ Sessions.create_user_session "2024-05-06 09:00:00" 3600000000 3600 2 "k3Zr9"
       (snd (Sessions.invalidate_session "k3Zr9" sample_sessions))
     = (false, snd (Sessions.invalidate_session "k3Zr9" sample_sessions)).
Proof.
  assert (H : exists s, In s (Sessions.sessions sample_sessions)
                        /\ Sessions.session_token s = "k3Zr9"%string).
  { exists session_of_amina. split; [left; reflexivity | reflexivity]. }
  split; [exact H |].
  exact (proj2 (session_token_is_never_reissued "2024-05-06 09:00:00" 3600000000 3600 2
                  "k3Zr9" sample_sessions H)).
Defined.

(** The theorem at the sample session, cleaned up after its expiry. *)
Lemma cleanup_expired_sessions_changes_no_answer_witness :
  (List.NoDup (map Sessions.session_token (Sessions.sessions sample_sessions))
   /\ (3600000001 <= 3600000002)%Z)
  /\ fst (Sessions.validate_session 3600000002 "k3Zr9" [user_amina]
            (Sessions.cleanup_expired_sessions 3600000001 sample_sessions))
     = fst (Sessions.validate_session 3600000002 "k3Zr9" [user_amina] sample_sessions).
Proof.
  assert (H1 : List.NoDup (map Sessions.session_token (Sessions.sessions sample_sessions))).
  { constructor; [intros [] | constructor]. }
  assert (H2 : (3600000001 <= 3600000002)%Z) by lia.
  split; [exact (conj H1 H2) |].
  exact (cleanup_expired_sessions_changes_no_answer 3600000001 3600000002 "k3Zr9"
           [user_amina] sample_sessions H1 H2).
Defined.

(** The theorem at six failed logins made within the five minutes before
    the check, with a limit of five and a window of fifteen minutes: the
    account is not locked. *)
Lemma failed_logins_of_the_same_date_are_not_counted_witness :
  Forall (fun r => exists time,
            AuditLog.audit_timestamp r = ("2024-05-06" ++ " " ++ time)%string)
    failed_logins
  /\ AuditLog.check_login_attempts ("2024-05-06" ++ "T" ++ "09:41:00.250000") 5 "amina"
       failed_logins
     = (false, 5%Z).
Proof.
  assert (H : Forall (fun r => exists time,
                        AuditLog.audit_timestamp r = ("2024-05-06" ++ " " ++ time)%string)
                failed_logins).
  { repeat (constructor; [eexists; reflexivity |]). constructor. }
  split; [exact H |].
  exact (failed_logins_of_the_same_date_are_not_counted "2024-05-06" "09:41:00.250000" 5
           "amina" failed_logins H).
Defined.

(* ================================================================== *)
(** * The configuration                                                *)
(* ================================================================== *)

Section Configuration.

Import Config.

Lemma dict_get_set_same k v items : dict_get k (dict_set k v items) = Some v.
Proof.
  induction items as [| [k' v'] items IH]; simpl.
  - rewrite String.eqb_refl. reflexivity.
  - destruct (String.eqb k' k) eqn:E; simpl; rewrite E; [reflexivity | exact IH].
Qed.

Lemma dict_set_get_id k v items : dict_get k items = Some v -> dict_set k v items = items.
Proof.
  induction items as [| [k' v'] items IH]; simpl; [discriminate |].
  destruct (String.eqb k' k).
  - intros H. inversion H. reflexivity.
  - intros H. rewrite (IH H). reflexivity.
Qed.

(** Below a dictionary [set] has just created nothing can fail. *)
Lemma set_keys_below_new_dict rest :
  forall k value, fst (set_keys k rest value (VDict [])) = Ok tt.
Proof.
  induction rest as [| k' rest IH]; intros k value; [reflexivity |].
  cbn [set_keys dict_get dict_set]. rewrite String.eqb_refl.
  specialize (IH k' value). destruct (set_keys k' rest value (VDict [])) as [outcome inner].
  exact IH.
Qed.

Lemma set_keys_outcome rest :
  forall k value config,
    match set_keys k rest value config with
    | (Ok _, config') => forall default, get_keys (k :: rest) config' default = value
    | (Raise e, config') => e = TypeError /\ config' = config
    end.
Proof.
  induction rest as [| k' rest IH]; intros k value config.
  - destruct config; cbn [set_keys]; try (split; reflexivity).
    intros default. cbn [get_keys]. rewrite dict_get_set_same. reflexivity.
  - destruct config as [| | | | | | items]; cbn [set_keys]; try (split; reflexivity).
    destruct (dict_get k items) as [inner |] eqn:Hk.
    + rewrite Hk. specialize (IH k' value inner).
      destruct (set_keys k' rest value inner) as [[[] | e] inner'].
      * intros default. cbn [get_keys]. rewrite dict_get_set_same.
        exact (IH default).
      * destruct IH as [-> ->]. rewrite (dict_set_get_id _ _ _ Hk). split; reflexivity.
    + rewrite dict_get_set_same.
      pose proof (set_keys_below_new_dict rest k' value) as Hnew.
      specialize (IH k' value (VDict [])).
      destruct (set_keys k' rest value (VDict [])) as [[[] | e] inner'];
        [| discriminate Hnew].
      intros default. cbn [get_keys]. rewrite dict_get_set_same.
      exact (IH default).
Qed.

(** X28.  [set] either stores the value or changes nothing.  When it returns,
    [get] with the same key returns the value it was given, whatever the
    default; when it raises, the error is [TypeError], a key of the path
    being bound to something that is not a dictionary, and the
    configuration is as it was: no dictionary was created on the way. *)
Theorem set_stores_the_value_or_changes_nothing :
  forall (key : string) (value config : Config.value),
    match Config.set key value config with
    | (Ok _, config') => forall default, Config.get key default config' = value
    | (Raise e, config') => e = TypeError /\ config' = config
    end.
Proof.
  intros key value config. unfold Config.set, Config.get.
  destruct (split_dots key) as [k rest]. apply set_keys_outcome.
Qed.

(** A theme cannot be given a sub-key, a bank can be enabled. *)
Example set_below_a_string_and_in_a_new_section :
  Config.set "ui.theme.dark" (VBool true) builtin_config = (Raise TypeError, builtin_config)
  /\ Config.get "bank_apis.cih.enabled" (VBool false)
       (snd (Config.set "bank_apis.cih.enabled" (VBool true) builtin_config))
     = VBool true
  /\ Config.get "ui.theme" VNone
       (snd (Config.set "bank_apis.cih.enabled" (VBool true) builtin_config))
     = VStr "default".
Proof. repeat split. Qed.

End Configuration.

(* ================================================================== *)
(** * The status a bank reports                                        *)
(* ================================================================== *)

Section BankReports.

Import DbManager Config BankApi.
Local Open Scope Z_scope.

Lemma _map_bank_status_to_internal_reported bank_status new_status :
  SmartAutomation._map_bank_status_to_internal bank_status = Some new_status ->
  In new_status reported_statuses.
Proof.
  unfold SmartAutomation._map_bank_status_to_internal. rewrite status_mapping_lookup.
  generalize (lower bank_status) as k. intros k. unfold reported_statuses.
  repeat match goal with
         | |- context [String.eqb k ?c] =>
             destruct (String.eqb k c);
             [ intros H; inversion H; simpl; tauto |]
         end.
  discriminate.
Qed.

(** What [update_cheque_status_from_bank_api] leaves: the database as it
    was and false, or true and the status written into the rows with the
    id. *)
Lemma update_cheque_status_from_bank_api_cases now bank_apis post cheque_id db :
  let outcome := update_cheque_status_from_bank_api now bank_apis post cheque_id db in
  outcome = (false, db)
  \/ exists bank_status new_status,
       SmartAutomation._map_bank_status_to_internal bank_status = Some new_status
       /\ status_check (Some new_status) = true
       /\ outcome
          = (true,
             {|
               banks := banks db;
               branches := branches db;
               clients := clients db;
               cheques :=
                 update_where_id DbManager.cheque_id (set_cheque_status now new_status)
                   cheque_id (cheques db);
               users := users db;
               notifications := notifications db;
               cheques_sequence := cheques_sequence db;
               notifications_sequence := notifications_sequence db
             |}).
Proof.
  intros outcome. subst outcome. unfold update_cheque_status_from_bank_api.
  repeat match goal with
         | |- context [match ?x with _ => _ end] =>
             match x with
             | negb _ => fail 1
             | _ => destruct x eqn:?; try (left; reflexivity)
             end
         | |- context [if negb ?x then _ else _] =>
             destruct x eqn:?; cbn [negb]; try (left; reflexivity)
         end.
  right. eexists _, _. split; [eassumption |]. split; [assumption | reflexivity].
Qed.

(** X29.  A status taken from the bank is written like one entered by hand, and
    tells nobody.  [update_cheque_status_from_bank_api], whatever the
    configuration and whatever the bank answers, keeps the promises of the
    schema on the [cheques] table, and leaves the notifications, their
    counter and the other tables as they were: unlike
    [update_cheque_status] it inserts no notification.  When it returns
    false nothing has changed; when it returns true, the rows with the id
    bear one of the five statuses a bank status maps to, their other
    columns but [updated_at] being kept, and the other cheques are as
    before. *)
Theorem bank_api_update_writes_status_and_notifies_nobody :
  forall (now : string) (bank_apis : list (string * BankAPIConfig))
         (post : request -> option response) (cheque_id : Z) (db : database),
    cheques_consistent db ->
    let outcome := update_cheque_status_from_bank_api now bank_apis post cheque_id db in
    cheques_consistent (snd outcome)
    /\ notifications (snd outcome) = notifications db
    /\ notifications_sequence (snd outcome) = notifications_sequence db
    /\ registry_kept db (snd outcome)
    /\ if fst outcome
       then Forall2 (fun r r' =>
                       if DbManager.cheque_id r =? cheque_id
                       then (exists new_status,
                               In new_status reported_statuses
                               /\ cheque_status r' = Some new_status)
                            /\ cheque_columns_kept r r'
                       else r' = r)
                    (cheques db) (cheques (snd outcome))
       else snd outcome = db.
Proof.
  intros now bank_apis post cheque_id db Hdb outcome.
  destruct (update_cheque_status_from_bank_api_cases now bank_apis post cheque_id db)
    as [H | (bank_status & new_status & Hmap & Hcheck & H)];
    cbn zeta in H; fold outcome in H; rewrite H; cbn [fst snd].
  - split; [exact Hdb |]. repeat split.
  - split.
    { eapply (set_cheque_status_where_id_consistent now new_status cheque_id db);
        [exact Hdb | exact Hcheck | reflexivity | reflexivity]. }
    cbn [notifications notifications_sequence cheques].
    split; [reflexivity |]. split; [reflexivity |].
    split; [repeat split |].
    apply update_where_id_Forall2. intros r. split.
    + exists new_status. split; [| reflexivity].
      exact (_map_bank_status_to_internal_reported _ _ Hmap).
    + apply set_cheque_status_keeps.
Qed.

(** X30.  Without configuration the bank is never asked.  When the three
    [enabled] keys of the configuration are false, as they are when it has
    no [bank_apis] section, [update_cheque_status_from_bank_api] returns
    false and changes nothing, whatever the cheque and whatever the bank
    would answer. *)
Theorem bank_api_update_is_off_unless_enabled :
  forall (now : string) (config : Config.value) (post : request -> option response)
         (cheque_id : Z) (db : database),
    truthy (Config.get "bank_apis.cih.enabled" (VBool false) config) = false ->
    truthy (Config.get "bank_apis.bmce.enabled" (VBool false) config) = false ->
    truthy (Config.get "bank_apis.awb.enabled" (VBool false) config) = false ->
    update_cheque_status_from_bank_api now (_load_bank_api_configs config) post cheque_id db
    = (false, db).
Proof.
  intros now config post cheque_id db Hcih Hbmce Hawb.
  unfold update_cheque_status_from_bank_api.
  match goal with
  | |- context [match ?rows with [] => _ | _ :: _ => _ end] =>
      destruct rows as [| [[c b] bk] others]; [reflexivity |]
  end.
  unfold _load_bank_api_configs. cbn [find_bank_api enabled].
  rewrite Hcih, Hbmce, Hawb. reflexivity.
Qed.

End BankReports.

(** The theorem at a cheque of the CIH bank, the bank enabled and
    answering "cleared": the cheque is cashed and nobody is told. *)
Lemma bank_api_update_writes_status_and_notifies_nobody_witness :
  let db := cheque_A1_at_CIH in
  let bank_apis :=
    BankApi._load_bank_api_configs
      (snd (Config.set "bank_apis.cih.enabled" (Config.VBool true) builtin_config)) in
  let outcome :=
    BankApi.update_cheque_status_from_bank_api "2024-03-01 08:00:00" bank_apis
      bank_answers_cleared 1 db in
  cheques_consistent db
  /\ fst outcome = true
  /\ map DbManager.cheque_status (DbManager.cheques (snd outcome))
     = [Some "encaisse"%string]
  /\ cheques_consistent (snd outcome)
  /\ DbManager.notifications (snd outcome) = DbManager.notifications db.
Proof.
  intros db bank_apis outcome.
  assert (H : cheques_consistent db).
  { unfold cheques_consistent. vm_compute.
    split; [constructor; [intros [] | constructor] |].
    split; [constructor; [discriminate | constructor] |].
    split; [constructor; [intros [] | constructor] |].
    constructor; [reflexivity | constructor]. }
  split; [exact H |]. split; [reflexivity |]. split; [reflexivity |].
  destruct (bank_api_update_writes_status_and_notifies_nobody "2024-03-01 08:00:00"
              bank_apis bank_answers_cleared 1 db H) as (H1 & H2 & _).
  split; [exact H1 | exact H2].
Defined.

(** The theorem at the configuration without a file. *)
Lemma bank_api_update_is_off_unless_enabled_witness :
  (Config.truthy (Config.get "bank_apis.cih.enabled" (Config.VBool false) builtin_config)
   = false
   /\ Config.truthy (Config.get "bank_apis.bmce.enabled" (Config.VBool false) builtin_config)
      = false
   /\ Config.truthy (Config.get "bank_apis.awb.enabled" (Config.VBool false) builtin_config)
      = false)
  /\ BankApi.update_cheque_status_from_bank_api "2024-03-01 08:00:00"
       (BankApi._load_bank_api_configs builtin_config) bank_answers_cleared 1
       cheque_A1_at_CIH
     = (false, cheque_A1_at_CIH).
Proof.
  assert (H1 : Config.truthy
                 (Config.get "bank_apis.cih.enabled" (Config.VBool false) builtin_config)
               = false) by reflexivity.
  assert (H2 : Config.truthy
                 (Config.get "bank_apis.bmce.enabled" (Config.VBool false) builtin_config)
               = false) by reflexivity.
  assert (H3 : Config.truthy
                 (Config.get "bank_apis.awb.enabled" (Config.VBool false) builtin_config)
               = false) by reflexivity.
  split; [exact (conj H1 (conj H2 H3)) |].
  exact (bank_api_update_is_off_unless_enabled "2024-03-01 08:00:00" builtin_config
           bank_answers_cleared 1 cheque_A1_at_CIH H1 H2 H3).
Defined.
